(** * LeNet consensus training (lenet.cpp): a shallow embedding

    The development follows the C++ source block by block:
    - [Int32]: the machine [int] of the layer geometry;
    - [Float32]: the 32-bit [float] object, kept as its bit pattern, with
      IEEE-754 binary32 arithmetic obtained from [SpecFloat];
    - the store of the process's buffers and the two CUDA/cuBLAS
      primitives the update steps are written with ([cudaMemset],
      [cublasSaxpy]);
    - [ConvBiasLayer], [MaxPoolLayer], [FullyConnectedLayer] with their
      [FromFile]/[ToFile] over a small file system;
    - [TrainingContext] with [UpdateLocalWeights] / [UpdateGlobalWeights];
    - the blocks of [main]: network construction, the batch fan-out loop,
      the learning-rate schedule, the residual-collection loop, the
      training loop of one process, and how [main] ends.

    What lies outside the source file (the CUDA runtime's copies, cuDNN's
    forward and backward passes, [rand], libm's [pow], the messages other
    processes send, the dataset reader) is gathered in the records [World]
    and [Main.inputs]. *)

From Stdlib Require Import ZArith List Lia Bool.
From Stdlib Require Import Strings.String Strings.Ascii.
From Stdlib Require Import Floats.SpecFloat.
From stdpp Require Import base gmap strings list.

Local Open Scope Z_scope.

(* ===================================================================== *)
(** * Machine integers *)

Module Int32.

Definition min_signed : Z := - 2 ^ 31.
Definition max_signed : Z := 2 ^ 31 - 1.

(** Two's-complement wrap-around of a mathematical integer into [int].
    (Signed overflow is undefined in C++; the statements below that depend
    on a result ask for operands that do not overflow.) *)
Definition wrap (z : Z) : Z := (z + 2 ^ 31) mod 2 ^ 32 - 2 ^ 31.

Definition add (a b : Z) : Z := wrap (a + b).
Definition sub (a b : Z) : Z := wrap (a - b).
Definition mul (a b : Z) : Z := wrap (a * b).

(** C++ division truncates toward zero. *)
Definition div (a b : Z) : Z := wrap (Z.quot a b).

Definition in_range (z : Z) : Prop := min_signed <= z <= max_signed.

End Int32.

(* ===================================================================== *)
(** * 32-bit floats *)

Module Float32.

(** A [float] object is its 32-bit pattern, [0 <= w < 2^32]: the files
    and the messages move these words, the arithmetic decodes them. *)
Definition float32 : Type := Z.

Definition wf (w : float32) : Prop := 0 <= w < 2 ^ 32.

Definition prec : Z := 24.
Definition emax : Z := 128.

(** Decoding of the bit pattern: sign (bit 31), biased exponent (bits
    30..23), fraction (bits 22..0). *)
Definition to_spec (w : float32) : spec_float :=
  let s := Z.testbit w 31 in
  let e := Z.land (Z.shiftr w 23) 255 in
  let m := Z.land w (2 ^ 23 - 1) in
  if e =? 0 then
    match m with
    | Zpos p => S754_finite s p (-149)
    | _ => S754_zero s
    end
  else if e =? 255 then
    (if m =? 0 then S754_infinity s else S754_nan)
  else
    match Z.lor m (2 ^ 23) with
    | Zpos p => S754_finite s p (e - 150)
    | _ => S754_nan
    end.

Definition sign_bit (s : bool) : Z := if s then 2 ^ 31 else 0.

(** Encoding of a value in canonical form, as the operations of
    [SpecFloat] return it; every NaN becomes the default quiet NaN. *)
Definition of_spec (x : spec_float) : float32 :=
  match x with
  | S754_zero s => sign_bit s
  | S754_infinity s => Z.lor (sign_bit s) (Z.shiftl 255 23)
  | S754_nan => 2143289344
  | S754_finite s m e =>
      if Zpos m <? 2 ^ 23 then Z.lor (sign_bit s) (Zpos m)
      else Z.lor (sign_bit s)
             (Z.lor (Z.shiftl (e + 150) 23) (Zpos m - 2 ^ 23))
  end.

(** IEEE-754 binary32 operations, rounding to nearest even. *)
Definition add (a b : float32) : float32 :=
  of_spec (SFadd prec emax (to_spec a) (to_spec b)).

Definition mul (a b : float32) : float32 :=
  of_spec (SFmul prec emax (to_spec a) (to_spec b)).

Definition sub (a b : float32) : float32 :=
  of_spec (SFsub prec emax (to_spec a) (to_spec b)).

Definition neg (a : float32) : float32 :=
  of_spec (SFopp (to_spec a)).

(** Conversion of an [int] to [float]. *)
Definition of_int (z : Z) : float32 :=
  of_spec (binary_normalize prec emax z 0 false).

Definition zero : float32 := 0.
Definition minus_one : float32 := of_int (-1).

(** One element of [y <- alpha * x + y]: the product is rounded, then the
    sum. (A fused multiply-add rounds once; on the inputs of the examples
    below, whose products are exact, the two agree.) *)
Definition axpy (alpha x y : float32) : float32 := add (mul alpha x) y.

End Float32.

Abbreviation float32 := Float32.float32.


(* ===================================================================== *)
(** * Buffers and the store *)

(** Every [float*] of [main] that the update and communication code
    touches, under the name it has there: [d_] buffers live on the device,
    [h_] and [train_] buffers on the host. *)
Inductive buf : Set :=
  (* local network parameters *)
  | d_pconv1 | d_pconv1bias | d_pconv2 | d_pconv2bias
  | d_pfc1 | d_pfc1bias | d_pfc2 | d_pfc2bias
  (* global network parameters *)
  | d_gpconv1 | d_gpconv1bias | d_gpconv2 | d_gpconv2bias
  | d_gpfc1 | d_gpfc1bias | d_gpfc2 | d_gpfc2bias
  | h_gpconv1 | h_gpconv1bias | h_gpconv2 | h_gpconv2bias
  | h_gpfc1 | h_gpfc1bias | h_gpfc2 | h_gpfc2bias
  (* global - local offsets (dual residuals) *)
  | d_gdpconv1 | d_gdpconv1bias | d_gdpconv2 | d_gdpconv2bias
  | d_gdpfc1 | d_gdpfc1bias | d_gdpfc2 | d_gdpfc2bias
  | h_gdpconv1 | h_gdpconv1bias | h_gdpconv2 | h_gdpconv2bias
  | h_gdpfc1 | h_gdpfc1bias | h_gdpfc2 | h_gdpfc2bias
  (* parameter gradients *)
  | d_gconv1 | d_gconv1bias | d_gconv2 | d_gconv2bias
  | d_gfc1 | d_gfc1bias | d_gfc2 | d_gfc2bias
  (* data set and mini-batch *)
  | train_images_float | train_labels_float
  | train_images_mBatch_float | train_labels_mBatch_float
  | d_data | d_labels.

Definition buf_id (b : buf) : positive :=
  match b with
  | d_pconv1 => 1 | d_pconv1bias => 2 | d_pconv2 => 3 | d_pconv2bias => 4
  | d_pfc1 => 5 | d_pfc1bias => 6 | d_pfc2 => 7 | d_pfc2bias => 8
  | d_gpconv1 => 9 | d_gpconv1bias => 10 | d_gpconv2 => 11
  | d_gpconv2bias => 12
  | d_gpfc1 => 13 | d_gpfc1bias => 14 | d_gpfc2 => 15 | d_gpfc2bias => 16
  | h_gpconv1 => 17 | h_gpconv1bias => 18 | h_gpconv2 => 19
  | h_gpconv2bias => 20
  | h_gpfc1 => 21 | h_gpfc1bias => 22 | h_gpfc2 => 23 | h_gpfc2bias => 24
  | d_gdpconv1 => 25 | d_gdpconv1bias => 26 | d_gdpconv2 => 27
  | d_gdpconv2bias => 28
  | d_gdpfc1 => 29 | d_gdpfc1bias => 30 | d_gdpfc2 => 31
  | d_gdpfc2bias => 32
  | h_gdpconv1 => 33 | h_gdpconv1bias => 34 | h_gdpconv2 => 35
  | h_gdpconv2bias => 36
  | h_gdpfc1 => 37 | h_gdpfc1bias => 38 | h_gdpfc2 => 39
  | h_gdpfc2bias => 40
  | d_gconv1 => 41 | d_gconv1bias => 42 | d_gconv2 => 43
  | d_gconv2bias => 44
  | d_gfc1 => 45 | d_gfc1bias => 46 | d_gfc2 => 47 | d_gfc2bias => 48
  | train_images_float => 49 | train_labels_float => 50
  | train_images_mBatch_float => 51 | train_labels_mBatch_float => 52
  | d_data => 53 | d_labels => 54
  end.

Definition buf_eqb (a b : buf) : bool := Pos.eqb (buf_id a) (buf_id b).

(** The contents of every buffer. Distinct names are distinct
    allocations ([cudaMalloc]/[malloc] in [main]), so a write through one
    name never changes another. *)
Definition store : Type := buf -> list float32.

Definition write (b : buf) (v : list float32) (s : store) : store :=
  fun b' => if buf_eqb b b' then v else s b'.

(** [overwrite n src dst]: the first [n] elements of [dst] replaced by
    those of [src], as far as both reach. *)
Fixpoint overwrite (n : nat) (src dst : list float32) : list float32 :=
  match n, src, dst with
  | S n', x :: src', _ :: dst' => x :: overwrite n' src' dst'
  | _, _, _ => dst
  end.

(** [saxpy n alpha x y]: [y[i] <- alpha * x[i] + y[i]] for [i < n]. *)
Fixpoint saxpy (n : nat) (alpha : float32) (x y : list float32)
  : list float32 :=
  match n, x, y with
  | S n', xi :: x', yi :: y' =>
      Float32.axpy alpha xi yi :: saxpy n' alpha x' y'
  | _, _, _ => y
  end.

Definition sizeof_float : Z := 4.

(** [cudaMemset(devPtr, value, count)]: [count] bytes set to [value]; a
    float whose four bytes are set becomes the word made of that byte. *)
Definition cudaMemset (devPtr : buf) (value : Z) (count : Z) (s : store)
  : store :=
  let byte := Z.land value 255 in
  let word := byte + 256 * byte + 65536 * byte + 16777216 * byte in
  let n := Z.to_nat (count / sizeof_float) in
  write devPtr (overwrite n (repeat word n) (s devPtr)) s.

(** [cublasSaxpy(handle, n, &alpha, x, 1, y, 1)]. *)
Definition cublasSaxpy (n : Z) (alpha : float32) (x y : buf) (s : store)
  : store :=
  write y (saxpy (Z.to_nat n) alpha (s x) (s y)) s.

(** [static_cast<int>(v.size())]. *)
Definition int_size (v : list float32) : Z :=
  Int32.wrap (Z.of_nat (length v)).

(** [sizeof(float) * v.size()] as [size_t]. *)
Definition byte_size (v : list float32) : Z :=
  (sizeof_float * Z.of_nat (length v)) mod 2 ^ 64.

(** Sequencing of store transformers, in program order. *)
Definition seq_steps (steps : list (store -> store)) (s : store) : store :=
  fold_left (fun acc step => step acc) steps s.

(* ===================================================================== *)
(** * Files *)

(** The files the process can see: contents by path (bytes [0..255]),
    and the paths that [fopen(path, "wb")] cannot open. *)
Record FS : Type := mkFS {
  files : gmap string (list Z);
  unwritable : gset string
}.

(** [fopen(path, "rb")]: the stream is the file's contents, [None] is the
    null pointer. *)
Definition fopen_rb (fs : FS) (path : string) : option (list Z) :=
  files fs !! path.

(** [fopen(path, "wb")]: creates or truncates the file. *)
Definition fopen_wb (fs : FS) (path : string) : option FS :=
  if decide (path ∈ unwritable fs) then None
  else Some (mkFS (<[path := []]> (files fs)) (unwritable fs)).

(** Object representation of a [float] on the (little-endian) host. *)
Definition float_bytes (w : float32) : list Z :=
  [Z.land w 255; Z.land (Z.shiftr w 8) 255;
   Z.land (Z.shiftr w 16) 255; Z.land (Z.shiftr w 24) 255].

Definition bytes_float (b0 b1 b2 b3 : Z) : float32 :=
  Z.lor b0 (Z.lor (Z.shiftl b1 8) (Z.lor (Z.shiftl b2 16) (Z.shiftl b3 24))).

Definition vector_bytes (v : list float32) : list Z :=
  flat_map float_bytes v.

(** The complete 4-byte elements at the head of a stream. *)
Fixpoint decode_floats (bytes : list Z) : list float32 :=
  match bytes with
  | b0 :: b1 :: b2 :: b3 :: rest => bytes_float b0 b1 b2 b3 :: decode_floats rest
  | _ => []
  end.

(** An [int] count passed where [size_t] is expected. *)
Definition size_t_of_int (z : Z) : Z := z mod 2 ^ 64.

(** A [size_t] value passed where an [int] is expected. *)
Definition int_of_size_t (z : Z) : Z := Int32.wrap (z mod 2 ^ 64).

(** [fwrite(&v[0], sizeof(float), count, fp)] on the stream opened on
    [path]: appends the bytes of the first [count] elements. *)
Definition fwrite (v : list float32) (count : Z) (path : string) (fs : FS)
  : FS :=
  let data := vector_bytes (take (Z.to_nat (size_t_of_int count)) v) in
  mkFS (<[path := default [] (files fs !! path) ++ data]> (files fs))
       (unwritable fs).

(** Byte [k] of the object representation of a [float]. *)
Definition float_byte (w : float32) (k : Z) : Z :=
  Z.land (Z.shiftr w (8 * k)) 255.

(** The bytes of a stream land at the start of [v], four to an element,
    over at most [n] elements. An element in the middle of which the
    stream ends gets the bytes read and keeps its other bytes. *)
Fixpoint fread_elements (n : nat) (fp : list Z) (v : list float32)
  : list float32 :=
  match n, v with
  | S n', x :: v' =>
      match fp with
      | b0 :: b1 :: b2 :: b3 :: rest =>
          bytes_float b0 b1 b2 b3 :: fread_elements n' rest v'
      | [b0; b1; b2] => bytes_float b0 b1 b2 (float_byte x 3) :: v'
      | [b0; b1] =>
          bytes_float b0 b1 (float_byte x 2) (float_byte x 3) :: v'
      | [b0] =>
          bytes_float b0 (float_byte x 1) (float_byte x 2) (float_byte x 3)
          :: v'
      | [] => x :: v'
      end
  | _, _ => v
  end.

(** [fread(&v[0], sizeof(float), count, fp)] on a freshly opened stream:
    the bytes of the stream, at most [4 * count] of them, are stored from
    the start of [v]; the return value is not looked at by the callers.
    (C leaves the value of a partially read element indeterminate; the
    library stores the bytes it read, which is what [fread_elements]
    does. The layers call it with [count] equal to the size of [v]; what
    a larger [count] would write past the end of [v] is not followed.) *)
Definition fread (v : list float32) (count : Z) (fp : list Z)
  : list float32 :=
  fread_elements (Z.to_nat (size_t_of_int count)) fp v.

(** How a call that may terminate the process ends. *)
Inductive outcome (A : Type) : Type :=
  | Returns (a : A)
  | Exits (code : Z).
Arguments Returns {A} a.
Arguments Exits {A} code.

(* ===================================================================== *)
(** * Layer representations *)

Module ConvBiasLayer.

Record t : Type := mk {
  in_channels : Z; out_channels : Z; kernel_size : Z;
  in_width : Z; in_height : Z; out_width : Z; out_height : Z;
  pconv : list float32; pbias : list float32
}.

(** The constructor. The vectors are value-initialised; a negative count
    converted to [size_t] does not construct a vector ([None]). *)
Definition new (in_channels_ out_channels_ kernel_size_ in_w_ in_h_ : Z)
  : option t :=
  let n := Int32.mul (Int32.mul (Int32.mul in_channels_ kernel_size_)
                        kernel_size_) out_channels_ in
  if (n <? 0) || (out_channels_ <? 0) then None
  else Some {|
    in_channels := in_channels_;
    out_channels := out_channels_;
    kernel_size := kernel_size_;
    in_width := in_w_;
    in_height := in_h_;
    out_width := Int32.add (Int32.sub in_w_ kernel_size_) 1;
    out_height := Int32.add (Int32.sub in_h_ kernel_size_) 1;
    pconv := repeat Float32.zero (Z.to_nat n);
    pbias := repeat Float32.zero (Z.to_nat out_channels_) |}.

Definition with_pconv (v : list float32) (l : t) : t :=
  mk (in_channels l) (out_channels l) (kernel_size l) (in_width l)
     (in_height l) (out_width l) (out_height l) v (pbias l).

Definition with_pbias (v : list float32) (l : t) : t :=
  mk (in_channels l) (out_channels l) (kernel_size l) (in_width l)
     (in_height l) (out_width l) (out_height l) (pconv l) v.

(** [in_channels * out_channels * kernel_size * kernel_size]. *)
Definition weight_count (l : t) : Z :=
  Int32.mul (Int32.mul (Int32.mul (in_channels l) (out_channels l))
               (kernel_size l)) (kernel_size l).

Definition FromFile (fileprefix : string) (fs : FS) (l : t) : bool * t :=
  let ssf := fileprefix +:+ ".bin" in
  let ssbf := fileprefix +:+ ".bias.bin" in
  (* Read weights file *)
  match fopen_rb fs ssf with
  | None => (false, l)
  | Some fp =>
      let l := with_pconv (fread (pconv l) (weight_count l) fp) l in
      (* Read bias file *)
      match fopen_rb fs ssbf with
      | None => (false, l)
      | Some fp =>
          let l := with_pbias (fread (pbias l) (out_channels l) fp) l in
          (true, l)
      end
  end.

Definition ToFile (fileprefix : string) (l : t) (fs : FS)
  : FS * outcome unit :=
  let ssf := fileprefix +:+ ".bin" in
  let ssbf := fileprefix +:+ ".bias.bin" in
  (* Write weights file *)
  match fopen_wb fs ssf with
  | None => (fs, Exits 2)
  | Some fs =>
      let fs := fwrite (pconv l) (weight_count l) ssf fs in
      (* Write bias file *)
      match fopen_wb fs ssbf with
      | None => (fs, Exits 2)
      | Some fs =>
          let fs := fwrite (pbias l) (out_channels l) ssbf fs in
          (fs, Returns tt)
      end
  end.

(** The layer as its constructor leaves it, whatever the vectors hold
    since: the counts used by the file functions are the vector sizes. *)
Definition shaped (l : t) : Prop :=
  0 <= weight_count l /\ Z.of_nat (length (pconv l)) = weight_count l /\
  0 <= out_channels l <= Int32.max_signed /\
  Z.of_nat (length (pbias l)) = out_channels l.

End ConvBiasLayer.

Module MaxPoolLayer.

Record t : Type := mk { size : Z; stride : Z }.

Definition new (size_ stride_ : Z) : t := mk size_ stride_.

End MaxPoolLayer.

Module FullyConnectedLayer.

Record t : Type := mk {
  inputs : Z; outputs : Z;
  pneurons : list float32; pbias : list float32
}.

Definition new (inputs_ outputs_ : Z) : option t :=
  let n := Int32.mul inputs_ outputs_ in
  if (n <? 0) || (outputs_ <? 0) then None
  else Some {|
    inputs := inputs_;
    outputs := outputs_;
    pneurons := repeat Float32.zero (Z.to_nat n);
    pbias := repeat Float32.zero (Z.to_nat outputs_) |}.

Definition with_pneurons (v : list float32) (l : t) : t :=
  mk (inputs l) (outputs l) v (pbias l).

Definition with_pbias (v : list float32) (l : t) : t :=
  mk (inputs l) (outputs l) (pneurons l) v.

(** [inputs * outputs]. *)
Definition weight_count (l : t) : Z := Int32.mul (inputs l) (outputs l).

Definition FromFile (fileprefix : string) (fs : FS) (l : t) : bool * t :=
  let ssf := fileprefix +:+ ".bin" in
  let ssbf := fileprefix +:+ ".bias.bin" in
  (* Read weights file *)
  match fopen_rb fs ssf with
  | None => (false, l)
  | Some fp =>
      let l := with_pneurons (fread (pneurons l) (weight_count l) fp) l in
      (* Read bias file *)
      match fopen_rb fs ssbf with
      | None => (false, l)
      | Some fp =>
          let l := with_pbias (fread (pbias l) (outputs l) fp) l in
          (true, l)
      end
  end.

Definition ToFile (fileprefix : string) (l : t) (fs : FS)
  : FS * outcome unit :=
  let ssf := fileprefix +:+ ".bin" in
  let ssbf := fileprefix +:+ ".bias.bin" in
  (* Write weights file *)
  match fopen_wb fs ssf with
  | None => (fs, Exits 2)
  | Some fs =>
      let fs := fwrite (pneurons l) (weight_count l) ssf fs in
      (* Write bias file *)
      match fopen_wb fs ssbf with
      | None => (fs, Exits 2)
      | Some fs =>
          let fs := fwrite (pbias l) (outputs l) ssbf fs in
          (fs, Returns tt)
      end
  end.

Definition shaped (l : t) : Prop :=
  0 <= weight_count l /\ Z.of_nat (length (pneurons l)) = weight_count l /\
  0 <= outputs l <= Int32.max_signed /\
  Z.of_nat (length (pbias l)) = outputs l.

End FullyConnectedLayer.

(* ===================================================================== *)
(** * CUDNN/CUBLAS training context *)

Module TrainingContext.

(** The (n, c, h, w) of a 4-d tensor descriptor. *)
Record shape : Type := mkShape { sn : Z; sc : Z; sh : Z; sw : Z }.

Record t : Type := mk {
  m_gpuid : Z;
  m_batchSize : Z;
  pool1Tensor : shape;
  pool2Tensor : shape;
  ref_fc1 : FullyConnectedLayer.t;
  ref_fc2 : FullyConnectedLayer.t
}.

(** The constructor, as far as shapes go: [pool2Tensor] is set directly,
    [pool1Tensor] is the source tensor of the second convolution
    ([SetFwdConvolutionTensors(conv2, pool1Tensor, ...)]). *)
Definition new (gpuid batch_size : Z)
    (conv1 : ConvBiasLayer.t) (pool1 : MaxPoolLayer.t)
    (conv2 : ConvBiasLayer.t) (pool2 : MaxPoolLayer.t)
    (fc1 fc2 : FullyConnectedLayer.t) : t :=
  {| m_gpuid := gpuid;
     m_batchSize := batch_size;
     pool1Tensor :=
       mkShape batch_size (ConvBiasLayer.in_channels conv2)
         (ConvBiasLayer.in_height conv2) (ConvBiasLayer.in_width conv2);
     pool2Tensor :=
       mkShape batch_size (ConvBiasLayer.out_channels conv2)
         (Int32.div (ConvBiasLayer.out_height conv2)
            (MaxPoolLayer.stride pool2))
         (Int32.div (ConvBiasLayer.out_width conv2)
            (MaxPoolLayer.stride pool2));
     ref_fc1 := fc1;
     ref_fc2 := fc2 |}.

Definition UpdateLocalWeights (this : t) (learning_rate rho : float32)
    (conv1 conv2 : ConvBiasLayer.t)
    (gpconv1 gpconv1bias gpconv2 gpconv2bias
     gpfc1 gpfc1bias gpfc2 gpfc2bias : buf)
    (gdpconv1 gdpconv1bias gdpconv2 gdpconv2bias
     gdpfc1 gdpfc1bias gdpfc2 gdpfc2bias : buf)
    (pconv1 pconv1bias pconv2 pconv2bias
     pfc1 pfc1bias pfc2 pfc2bias : buf)
    (gconv1 gconv1bias gconv2 gconv2bias
     gfc1 gfc1bias gfc2 gfc2bias : buf)
  : store -> store :=
  let alpha := Float32.neg learning_rate in
  let rho_alpha := Float32.mul (Float32.neg rho) alpha in
  let minus_rho_alpha := rho_alpha in
  let minus_one := Float32.of_int (-1) in
  let conv1_pconv := ConvBiasLayer.pconv conv1 in
  let conv1_pbias := ConvBiasLayer.pbias conv1 in
  let conv2_pconv := ConvBiasLayer.pconv conv2 in
  let conv2_pbias := ConvBiasLayer.pbias conv2 in
  let fc1_pneurons := FullyConnectedLayer.pneurons (ref_fc1 this) in
  let fc1_pbias := FullyConnectedLayer.pbias (ref_fc1 this) in
  let fc2_pneurons := FullyConnectedLayer.pneurons (ref_fc2 this) in
  let fc2_pbias := FullyConnectedLayer.pbias (ref_fc2 this) in
  seq_steps [
    (* Conv1 *)
    cudaMemset gdpconv1 0 (byte_size conv1_pconv);
    cublasSaxpy (int_size conv1_pconv) rho_alpha pconv1 gdpconv1;
    cublasSaxpy (int_size conv1_pconv) minus_rho_alpha gpconv1 gdpconv1;
    cublasSaxpy (int_size conv1_pconv) minus_one gdpconv1 pconv1;
    cublasSaxpy (int_size conv1_pconv) alpha gpconv1 pconv1;
    (* Conv1 bias *)
    cudaMemset gdpconv1bias 0 (byte_size conv1_pbias);
    cublasSaxpy (int_size conv1_pbias) rho_alpha pconv1bias gdpconv1bias;
    cublasSaxpy (int_size conv1_pbias) minus_rho_alpha gpconv1bias
      gdpconv1bias;
    cublasSaxpy (int_size conv1_pbias) minus_one gdpconv1bias pconv1bias;
    cublasSaxpy (int_size conv1_pbias) alpha gconv1bias pconv1bias;
    (* Conv2 *)
    cudaMemset gdpconv2 0 (byte_size conv2_pconv);
    cublasSaxpy (int_size conv2_pconv) rho_alpha pconv2 gdpconv2;
    cublasSaxpy (int_size conv2_pconv) minus_rho_alpha gpconv2 gdpconv2;
    cublasSaxpy (int_size conv2_pconv) minus_one gdpconv2 pconv2;
    cublasSaxpy (int_size conv2_pconv) alpha gconv2 pconv2;
    (* Conv2 bias *)
    cudaMemset gdpconv2bias 0 (byte_size conv2_pbias);
    cublasSaxpy (int_size conv2_pbias) rho_alpha pconv2bias gdpconv2bias;
    cublasSaxpy (int_size conv2_pbias) minus_rho_alpha gpconv2 gdpconv2bias;
    cublasSaxpy (int_size conv2_pbias) minus_one gdpconv2bias pconv2bias;
    cublasSaxpy (int_size conv2_pbias) alpha gconv2bias pconv2bias;
    (* Fully connected 1 *)
    cudaMemset gfc1 0 (byte_size fc1_pneurons);
    cublasSaxpy (int_size fc1_pneurons) rho_alpha pfc1 gdpfc1;
    cublasSaxpy (int_size fc1_pneurons) minus_rho_alpha gpfc1 gdpfc1;
    cublasSaxpy (int_size fc1_pneurons) minus_one gdpfc1 pfc1;
    cublasSaxpy (int_size fc1_pneurons) alpha gfc1 pfc1;
    (* Fully connected 1 bias *)
    cudaMemset gdpfc1bias 0 (byte_size fc1_pbias);
    cublasSaxpy (int_size fc1_pbias) rho_alpha pfc1bias gdpfc1bias;
    cublasSaxpy (int_size fc1_pbias) minus_rho_alpha gpfc1bias gdpfc1bias;
    cublasSaxpy (int_size fc1_pbias) minus_one gdpfc1bias pfc1bias;
    cublasSaxpy (int_size fc1_pbias) alpha gfc1bias pfc1bias;
    (* Fully connected 2 *)
    cudaMemset gdpfc2 0 (byte_size fc2_pneurons);
    cublasSaxpy (int_size fc2_pneurons) rho_alpha pfc2 gdpfc2;
    cublasSaxpy (int_size fc2_pneurons) minus_rho_alpha gpfc2 gdpfc2;
    cublasSaxpy (int_size fc2_pneurons) minus_one gdpfc2 pfc2;
    cublasSaxpy (int_size fc2_pneurons) alpha gfc2 pfc2;
    (* Fully connected 2 bias *)
    cudaMemset gdpfc2bias 0 (byte_size fc2_pbias);
    cublasSaxpy (int_size fc2_pbias) rho_alpha pfc2bias gdpfc2bias;
    cublasSaxpy (int_size fc2_pbias) minus_rho_alpha gpfc2bias gdpfc2bias;
    cublasSaxpy (int_size fc2_pbias) minus_one gdpfc2bias pfc2bias;
    cublasSaxpy (int_size fc2_pbias) alpha gfc2bias pfc2bias
  ].

Definition UpdateGlobalWeights (this : t) (learning_rate : float32)
    (conv1 conv2 : ConvBiasLayer.t)
    (pconv1 pconv1bias pconv2 pconv2bias
     pfc1 pfc1bias pfc2 pfc2bias : buf)
    (gconv1 gconv1bias gconv2 gconv2bias
     gfc1 gfc1bias gfc2 gfc2bias : buf)
  : store -> store :=
  let alpha := learning_rate in
  let conv1_pconv := ConvBiasLayer.pconv conv1 in
  let conv1_pbias := ConvBiasLayer.pbias conv1 in
  let conv2_pconv := ConvBiasLayer.pconv conv2 in
  let conv2_pbias := ConvBiasLayer.pbias conv2 in
  let fc1_pneurons := FullyConnectedLayer.pneurons (ref_fc1 this) in
  let fc1_pbias := FullyConnectedLayer.pbias (ref_fc1 this) in
  let fc2_pneurons := FullyConnectedLayer.pneurons (ref_fc2 this) in
  let fc2_pbias := FullyConnectedLayer.pbias (ref_fc2 this) in
  seq_steps [
    (* Conv1 *)
    cublasSaxpy (int_size conv1_pconv) alpha gconv1 pconv1;
    cublasSaxpy (int_size conv1_pbias) alpha gconv1bias pconv1bias;
    (* Conv2 *)
    cublasSaxpy (int_size conv2_pconv) alpha gconv2 pconv2;
    cublasSaxpy (int_size conv2_pbias) alpha gconv2bias pconv2bias;
    (* Fully connected *)
    cublasSaxpy (int_size fc1_pneurons) alpha gfc1 pfc1;
    cublasSaxpy (int_size fc1_pbias) alpha gfc1bias pfc1bias;
    (* Fully connected 2 *)
    cublasSaxpy (int_size fc2_pneurons) alpha gfc2 pfc2;
    cublasSaxpy (int_size fc2_pbias) alpha gfc2bias pfc2bias
  ].

End TrainingContext.

(* ===================================================================== *)
(** * Doubles *)

Module Float64.

(** A [double] value (IEEE-754 binary64). *)
Definition double : Type := spec_float.

Definition prec : Z := 53.
Definition emax : Z := 1024.

Definition add (a b : double) : double := SFadd prec emax a b.
Definition mul (a b : double) : double := SFmul prec emax a b.
Definition div (a b : double) : double := SFdiv prec emax a b.
Definition neg (a : double) : double := SFopp a.
Definition of_int (z : Z) : double := binary_normalize prec emax z 0 false.

(** [static_cast<float>(d)]: rounding to the nearest binary32. *)
Definition to_float (d : double) : float32 :=
  Float32.of_spec
    match d with
    | S754_finite s m e => binary_round Float32.prec Float32.emax s m e
    | other => other
    end.

End Float64.

Abbreviation double := Float64.double.

(* ===================================================================== *)
(** * The process and what surrounds it *)

(** One process of the run is followed from the inside: its buffers and,
    in order, the calls it issues. A blocking receive is taken as
    returning with the next delivered payload; whether another process
    ever sends that message is read off that process's own calls. *)

Inductive cudaMemcpyKind : Set :=
  | cudaMemcpyHostToDevice
  | cudaMemcpyDeviceToHost.

(** What the process gets from outside the source file. *)
Record World : Type := mkWorld {
  (** the k-th value returned by [rand()] *)
  rand_value : nat -> Z;
  (** the payload of the k-th message delivered to this process *)
  delivered : nat -> list float32;
  (** the CUDA runtime's [cudaMemcpy(dst, src, count, kind)]; the training
      loop also calls it with a [kind] that contradicts its pointers, where
      CUDA leaves the result undefined *)
  cudaMemcpy : buf -> buf -> Z -> cudaMemcpyKind -> store -> store;
  (** the staging of the batch on the device followed by
      [ForwardPropagation] and [Backpropagation] (sequences of cuDNN and
      cuBLAS calls), taken as one transformer of the store *)
  forward_backward : store -> store;
  (** libm's [pow] *)
  pow : double -> double -> double
}.

(** MPI message tags. *)
Definition COMM_XDATA : Z := 0.
Definition COMM_XLABEL : Z := 1.
Definition COMM_GDCONV1 : Z := 14.
Definition COMM_GDCONV1BIAS : Z := 15.
Definition COMM_GDCONV2 : Z := 16.
Definition COMM_GDCONV2BIAS : Z := 17.
Definition COMM_GDFC1NEURON : Z := 18.
Definition COMM_GDFC1BIAS : Z := 19.
Definition COMM_GDFC2NEURON : Z := 20.
Definition COMM_GDFC2BIAS : Z := 21.

(** The calls a process issues that the rest of the run can observe. *)
Inductive call : Type :=
  | Send (dest tag : Z) (data : list float32)
  | Recv (buffer : buf) (count source tag : Z)
  | Bcast (buffer : buf) (count root : Z)
  | LocalUpdate (learning_rate rho : float32)
  | GlobalUpdate (learning_rate : float32).

Record process : Type := mkProcess {
  mem : store;
  calls : list call;      (* in the order issued *)
  rand_count : nat;       (* calls to rand() so far *)
  recv_count : nat        (* messages received so far *)
}.

Definition on_mem (f : store -> store) (p : process) : process :=
  mkProcess (f (mem p)) (calls p) (rand_count p) (recv_count p).

Definition issue (c : call) (p : process) : process :=
  mkProcess (mem p) (calls p ++ [c]) (rand_count p) (recv_count p).

Definition rand (w : World) (p : process) : Z * process :=
  (rand_value w (rand_count p),
   mkProcess (mem p) (calls p) (S (rand_count p)) (recv_count p)).

(** [MPI_Send(&b[offset], count, MPI_FLOAT, dest, tag, MPI_COMM_WORLD)]. *)
Definition MPI_Send (b : buf) (offset count dest tag : Z) (p : process)
  : process :=
  issue (Send dest tag
           (take (Z.to_nat count) (drop (Z.to_nat offset) (mem p b)))) p.

Definition receive_into (w : World) (b : buf) (count : Z) (p : process)
  : process :=
  mkProcess
    (write b (overwrite (Z.to_nat count) (delivered w (recv_count p))
                (mem p b)) (mem p))
    (calls p) (rand_count p) (S (recv_count p)).

(** [MPI_Recv(b, count, MPI_FLOAT, source, tag, MPI_COMM_WORLD, ...)]. *)
Definition MPI_Recv (w : World) (b : buf) (count source tag : Z)
    (p : process) : process :=
  receive_into w b count (issue (Recv b count source tag) p).

(** [MPI_Bcast(b, count, MPI_FLOAT, root, MPI_COMM_WORLD)] on [rank]. *)
Definition MPI_Bcast (w : World) (rank : Z) (b : buf) (count root : Z)
    (p : process) : process :=
  let p := issue (Bcast b count root) p in
  if rank =? root then p else receive_into w b count p.

(** [for (int i = lo; i <= hi; i++) body]. *)
Fixpoint for_steps (n : nat) (i : Z) (body : Z -> process -> process)
    (p : process) : process :=
  match n with
  | O => p
  | S n' => for_steps n' (i + 1) body (body i p)
  end.

Definition for_upto (lo hi : Z) (body : Z -> process -> process)
    (p : process) : process :=
  for_steps (Z.to_nat (hi - lo + 1)) lo body p.

(* ===================================================================== *)
(** * Main function *)

Module Main.

(** What [main] has fixed when the training loop starts. *)
Record setup : Type := mkSetup {
  context : TrainingContext.t;
  conv1 : ConvBiasLayer.t;
  conv2 : ConvBiasLayer.t;
  fc1 : FullyConnectedLayer.t;
  fc2 : FullyConnectedLayer.t;
  width : Z; height : Z; channels : Z;
  num_mBatch : Z;
  FLAGS_iterations : Z;
  FLAGS_learning_rate : double;
  FLAGS_lr_gamma : double;
  FLAGS_lr_power : double
}.

(** ** Network construction (the LeNet architecture) *)

Record network : Type := mkNetwork {
  n_conv1 : ConvBiasLayer.t; n_pool1 : MaxPoolLayer.t;
  n_conv2 : ConvBiasLayer.t; n_pool2 : MaxPoolLayer.t;
  n_fc1 : FullyConnectedLayer.t; n_fc2 : FullyConnectedLayer.t
}.

Definition create_network (channels_ width_ height_ : Z) : option network :=
  c1 ← ConvBiasLayer.new channels_ 20 5 width_ height_;
  let p1 := MaxPoolLayer.new 2 2 in
  c2 ← ConvBiasLayer.new (ConvBiasLayer.out_channels c1) 50 5
         (Int32.div (ConvBiasLayer.out_width c1) (MaxPoolLayer.stride p1))
         (Int32.div (ConvBiasLayer.out_height c1) (MaxPoolLayer.stride p1));
  let p2 := MaxPoolLayer.new 2 2 in
  f1 ← FullyConnectedLayer.new
         (Int32.div
            (Int32.mul (Int32.mul (ConvBiasLayer.out_channels c2)
                          (ConvBiasLayer.out_width c2))
               (ConvBiasLayer.out_height c2))
            (Int32.mul (MaxPoolLayer.stride p2) (MaxPoolLayer.stride p2)))
         500;
  f2 ← FullyConnectedLayer.new (FullyConnectedLayer.outputs f1) 10;
  Some (mkNetwork c1 p1 c2 p2 f1 f2).

(** ** Batch fan-out

<<
  for(int i = 1; i <= rank; i++){
      int rand_mbid = rand() % num_mBatch;
      if(rank == 0){ MPI_Send(images...); MPI_Send(labels...); }
      if(rank == i){ MPI_Recv(images...); MPI_Recv(labels...); }
  }
>>
    ([rand() % num_mBatch] is only defined for a non-zero [num_mBatch].)
    The indices and the count are computed in the types the source gives
    them: [rand_mbid * context.m_batchSize] in [int], the products with
    the [size_t] dimensions in [size_t], MPI's count in [int]. *)
Definition batch_count (g : setup) : Z :=
  (* context.m_batchSize * channels * width * height, a size_t product
     passed as MPI's int count *)
  int_of_size_t
    (size_t_of_int (TrainingContext.m_batchSize (context g)) * channels g
     * width g * height g).

Definition fan_out_body (w : World) (g : setup) (rank i : Z) (p : process)
  : process :=
  let batch := TrainingContext.m_batchSize (context g) in
  let '(r, p) := rand w p in
  let rand_mbid := Z.rem r (num_mBatch g) in
  let p :=
    if rank =? 0 then
      let p := MPI_Send train_images_float
                 ((size_t_of_int (Int32.mul rand_mbid batch) * width g
                   * height g * channels g) mod 2 ^ 64)
                 (batch_count g)
                 i COMM_XDATA p in
      MPI_Send train_labels_float (Int32.mul rand_mbid batch) batch i
        COMM_XLABEL p
    else p in
  if rank =? i then
    let p := MPI_Recv w train_images_mBatch_float (batch_count g) 0
               COMM_XDATA p in
    MPI_Recv w train_labels_mBatch_float batch 0 COMM_XLABEL p
  else p.

Definition fan_out (w : World) (g : setup) (rank : Z) : process -> process :=
  for_upto 1 rank (fan_out_body w g rank).

(** ** Learning rate

<<
  float learningRate = static_cast<float>(FLAGS_learning_rate *
      pow((1.0 + FLAGS_lr_gamma * iter), (-FLAGS_lr_power)));
>> *)
Definition learningRate (w : World) (g : setup) (iter : Z) : float32 :=
  Float64.to_float
    (Float64.mul (FLAGS_learning_rate g)
       (pow w
          (Float64.add (Float64.of_int 1)
             (Float64.mul (FLAGS_lr_gamma g) (Float64.of_int iter)))
          (Float64.neg (FLAGS_lr_power g)))).

(** ** The blocks between the communications *)

(** "Broadcasting Global weights to everyone". *)
Definition broadcast_global (w : World) (g : setup) (rank : Z) (p : process)
  : process :=
  let p := MPI_Bcast w rank h_gpconv1
             (int_size (ConvBiasLayer.pconv (conv1 g))) 0 p in
  let p := MPI_Bcast w rank h_gpconv1bias
             (int_size (ConvBiasLayer.pbias (conv1 g))) 0 p in
  let p := MPI_Bcast w rank h_gpconv2
             (int_size (ConvBiasLayer.pconv (conv2 g))) 0 p in
  let p := MPI_Bcast w rank h_gpconv2bias
             (int_size (ConvBiasLayer.pbias (conv2 g))) 0 p in
  let p := MPI_Bcast w rank h_gpfc1
             (int_size (FullyConnectedLayer.pneurons (fc1 g))) 0 p in
  let p := MPI_Bcast w rank h_gpfc1bias
             (int_size (FullyConnectedLayer.pbias (fc1 g))) 0 p in
  let p := MPI_Bcast w rank h_gpfc2
             (int_size (FullyConnectedLayer.pneurons (fc2 g))) 0 p in
  MPI_Bcast w rank h_gpfc2bias
    (int_size (FullyConnectedLayer.pbias (fc2 g))) 0 p.

(** The call of [UpdateLocalWeights] as [main] writes it. *)
Definition call_UpdateLocalWeights (g : setup) (learningRate rho : float32)
  : store -> store :=
  TrainingContext.UpdateLocalWeights (context g) learningRate rho
    (conv1 g) (conv2 g)
    d_gpconv1 d_gpconv1bias d_gpconv2 d_gpconv2bias
    d_gpfc1 d_gpfc1bias d_gpfc2 d_gpfc2bias
    d_gdpconv1 d_gdpconv1bias d_gdpconv2 d_gdpconv2bias
    d_gdpfc1 d_gdpfc1bias d_gdpfc2 d_gdpfc2bias
    d_pconv1 d_pconv1bias d_pconv2 d_pconv2bias
    d_pfc1 d_pfc1bias d_pfc2 d_pfc2bias
    d_gconv1 d_gconv1bias d_gconv2 d_gconv2bias
    d_gfc1 d_gfc1bias d_gfc2 d_gfc2bias.

(** The call of [UpdateGlobalWeights] as [main] writes it: the global
    weights take the place of the parameters, the received residuals that
    of the gradients. *)
Definition call_UpdateGlobalWeights (g : setup) (learningRate : float32)
  : store -> store :=
  TrainingContext.UpdateGlobalWeights (context g) learningRate
    (conv1 g) (conv2 g)
    d_gpconv1 d_gpconv1bias d_gpconv2 d_gpconv2bias
    d_gpfc1 d_gpfc1bias d_gpfc2 d_gpfc2bias
    d_gdpconv1 d_gdpconv1bias d_gdpconv2 d_gdpconv2bias
    d_gdpfc1 d_gdpfc1bias d_gdpfc2 d_gdpfc2bias.

(** Copies between the host and device residual (or global weight)
    buffers, eight tensors at a time. *)
Definition copy_tensors (w : World) (g : setup) (k : cudaMemcpyKind)
    (dconv1 dconv1bias dconv2 dconv2bias dfc1 dfc1bias dfc2 dfc2bias : buf)
    (hconv1 hconv1bias hconv2 hconv2bias hfc1 hfc1bias hfc2 hfc2bias : buf)
  : store -> store :=
  seq_steps [
    cudaMemcpy w dconv1 hconv1
      (byte_size (ConvBiasLayer.pconv (conv1 g))) k;
    cudaMemcpy w dconv1bias hconv1bias
      (byte_size (ConvBiasLayer.pbias (conv1 g))) k;
    cudaMemcpy w dconv2 hconv2
      (byte_size (ConvBiasLayer.pconv (conv2 g))) k;
    cudaMemcpy w dconv2bias hconv2bias
      (byte_size (ConvBiasLayer.pbias (conv2 g))) k;
    cudaMemcpy w dfc1 hfc1
      (byte_size (FullyConnectedLayer.pneurons (fc1 g))) k;
    cudaMemcpy w dfc1bias hfc1bias
      (byte_size (FullyConnectedLayer.pbias (fc1 g))) k;
    cudaMemcpy w dfc2 hfc2
      (byte_size (FullyConnectedLayer.pneurons (fc2 g))) k;
    cudaMemcpy w dfc2bias hfc2bias
      (byte_size (FullyConnectedLayer.pbias (fc2 g))) k
  ].

(** Workers, "Update local weights". *)
Definition update_local (w : World) (g : setup) (learningRate rho : float32)
    (p : process) : process :=
  let p := on_mem (copy_tensors w g cudaMemcpyHostToDevice
                     d_gpconv1 d_gpconv1bias d_gpconv2 d_gpconv2bias
                     d_gpfc1 d_gpfc1bias d_gpfc2 d_gpfc2bias
                     h_gpconv1 h_gpconv1bias h_gpconv2 h_gpconv2bias
                     h_gpfc1 h_gpfc1bias h_gpfc2 h_gpfc2bias) p in
  let p := issue (LocalUpdate learningRate rho) p in
  let p := on_mem (call_UpdateLocalWeights g learningRate rho) p in
  on_mem (copy_tensors w g cudaMemcpyDeviceToHost
            d_gdpconv1 d_gdpconv1bias d_gdpconv2 d_gdpconv2bias
            d_gdpfc1 d_gdpfc1bias d_gdpfc2 d_gdpfc2bias
            h_gdpconv1 h_gdpconv1bias h_gdpconv2 h_gdpconv2bias
            h_gdpfc1 h_gdpfc1bias h_gdpfc2 h_gdpfc2bias) p.

(** ** Residual collection

<<
  for(int i = 1; i <= rank; i++){
      if(rank == i){ MPI_Send(h_gdp..., 0, COMM_GD...) x 8 }
      if(rank == 0){ MPI_Recv(h_gdp..., i, COMM_GD...) x 8;
                     cudaMemcpy(d_gdp..., h_gdp..., HostToDevice) x 8;
                     context.UpdateGlobalWeights(learningRate, ...); }
  }
>> *)
Definition send_residuals (g : setup) (p : process) : process :=
  let p := MPI_Send h_gdpconv1 0
             (int_size (ConvBiasLayer.pconv (conv1 g))) 0 COMM_GDCONV1 p in
  let p := MPI_Send h_gdpconv1bias 0
             (int_size (ConvBiasLayer.pbias (conv1 g))) 0 COMM_GDCONV1BIAS p in
  let p := MPI_Send h_gdpconv2 0
             (int_size (ConvBiasLayer.pconv (conv2 g))) 0 COMM_GDCONV2 p in
  let p := MPI_Send h_gdpconv2bias 0
             (int_size (ConvBiasLayer.pbias (conv2 g))) 0 COMM_GDCONV2BIAS p in
  let p := MPI_Send h_gdpfc1 0
             (int_size (FullyConnectedLayer.pneurons (fc1 g))) 0
             COMM_GDFC1NEURON p in
  let p := MPI_Send h_gdpfc1bias 0
             (int_size (FullyConnectedLayer.pbias (fc1 g))) 0
             COMM_GDFC1BIAS p in
  let p := MPI_Send h_gdpfc2 0
             (int_size (FullyConnectedLayer.pneurons (fc2 g))) 0
             COMM_GDFC2NEURON p in
  MPI_Send h_gdpfc2bias 0
    (int_size (FullyConnectedLayer.pbias (fc2 g))) 0 COMM_GDFC2BIAS p.

Definition recv_residuals (w : World) (g : setup) (i : Z) (p : process)
  : process :=
  let p := MPI_Recv w h_gdpconv1
             (int_size (ConvBiasLayer.pconv (conv1 g))) i COMM_GDCONV1 p in
  let p := MPI_Recv w h_gdpconv1bias
             (int_size (ConvBiasLayer.pbias (conv1 g))) i COMM_GDCONV1BIAS p in
  let p := MPI_Recv w h_gdpconv2
             (int_size (ConvBiasLayer.pconv (conv2 g))) i COMM_GDCONV2 p in
  let p := MPI_Recv w h_gdpconv2bias
             (int_size (ConvBiasLayer.pbias (conv2 g))) i COMM_GDCONV2BIAS p in
  let p := MPI_Recv w h_gdpfc1
             (int_size (FullyConnectedLayer.pneurons (fc1 g))) i
             COMM_GDFC1NEURON p in
  let p := MPI_Recv w h_gdpfc1bias
             (int_size (FullyConnectedLayer.pbias (fc1 g))) i
             COMM_GDFC1BIAS p in
  let p := MPI_Recv w h_gdpfc2
             (int_size (FullyConnectedLayer.pneurons (fc2 g))) i
             COMM_GDFC2NEURON p in
  MPI_Recv w h_gdpfc2bias
    (int_size (FullyConnectedLayer.pbias (fc2 g))) i COMM_GDFC2BIAS p.

Definition collect_body (w : World) (g : setup) (learningRate : float32)
    (rank i : Z) (p : process) : process :=
  let p := if rank =? i then send_residuals g p else p in
  if rank =? 0 then
    let p := recv_residuals w g i p in
    let p := on_mem (copy_tensors w g cudaMemcpyHostToDevice
                       d_gdpconv1 d_gdpconv1bias d_gdpconv2 d_gdpconv2bias
                       d_gdpfc1 d_gdpfc1bias d_gdpfc2 d_gdpfc2bias
                       h_gdpconv1 h_gdpconv1bias h_gdpconv2 h_gdpconv2bias
                       h_gdpfc1 h_gdpfc1bias h_gdpfc2 h_gdpfc2bias) p in
    let p := issue (GlobalUpdate learningRate) p in
    on_mem (call_UpdateGlobalWeights g learningRate) p
  else p.

Definition collect (w : World) (g : setup) (learningRate : float32)
    (rank : Z) : process -> process :=
  for_upto 1 rank (collect_body w g learningRate rank).

(** ** One iteration of the training loop, and the loop *)

Definition iteration (w : World) (g : setup) (rank iter : Z) (p : process)
  : process :=
  let p := fan_out w g rank p in
  (* Forward and Backward propogation on all worker GPUs *)
  let p := if negb (rank =? 0) then on_mem (forward_backward w) p else p in
  (* Copy global weights from device *)
  let p :=
    if rank =? 0 then
      on_mem (copy_tensors w g cudaMemcpyDeviceToHost
                d_gpconv1 d_gpconv1bias d_gpconv2 d_gpconv2bias
                d_gpfc1 d_gpfc1bias d_gpfc2 d_gpfc2bias
                h_gpconv1 h_gpconv1bias h_gpconv2 h_gpconv2bias
                h_gpfc1 h_gpfc1bias h_gpfc2 h_gpfc2bias) p
    else p in
  let p := broadcast_global w g rank p in
  (* Compute learning rate *)
  let learningRate := learningRate w g iter in
  let rho := Float32.of_int 10 in
  let p := if negb (rank =? 0) then update_local w g learningRate rho p
           else p in
  collect w g learningRate rank p.

(** [for (int iter = 0; iter < FLAGS_iterations; ++iter)]. *)
Definition training_loop (w : World) (g : setup) (rank : Z)
  : process -> process :=
  for_upto 0 (FLAGS_iterations g - 1) (iteration w g rank).

(** ** Exit codes *)

(** What decides how [main] ends: the answers of the dataset reader, the
    device count, whether the checked CUDA/cuDNN/cuBLAS calls succeed, and
    the files. *)
Record inputs : Type := mkInputs {
  rank : Z;
  (* ReadUByteDataset, sizes only, then into the buffers *)
  train_size : Z;
  test_size : Z;
  train_read : Z;
  test_read : Z;
  (* cudaGetDeviceCount *)
  devcount_status : Z;
  num_gpus : Z;
  FLAGS_gpu : Z;
  (* every checked call from the context's construction to the end of the
     training loop reports success *)
  training_ok : bool;
  FLAGS_save_data : bool;
  (* the eight checked copies of the trained weights to the host, which
     come before the first file is opened, report success *)
  copies_ok : bool;
  trained : network;
  disk : FS;
  (* every checked call of the classification pass and of the clean-up
     reports success *)
  closing_ok : bool
}.

(** [FatalError]: message, [cudaDeviceReset()], [exit(1)]. *)
Definition FatalError : Z := 1.

(** The dataset block, run by rank 0 only: [Some c] is [return c]. *)
Definition read_input_data (e : inputs) : option Z :=
  if rank e =? 0 then
    if train_size e =? 0 then Some 1
    else if negb (train_read e =? train_size e) then Some 2
    else if negb (test_read e =? test_size e) then Some 3
    else None
  else None.

(** "Now save data". *)
Definition save_data (e : inputs) : FS * outcome unit :=
  let n := trained e in
  match ConvBiasLayer.ToFile "conv1" (n_conv1 n) (disk e) with
  | (fs, Exits c) => (fs, Exits c)
  | (fs, Returns _) =>
  match ConvBiasLayer.ToFile "conv2" (n_conv2 n) fs with
  | (fs, Exits c) => (fs, Exits c)
  | (fs, Returns _) =>
  match FullyConnectedLayer.ToFile "ip1" (n_fc1 n) fs with
  | (fs, Exits c) => (fs, Exits c)
  | (fs, Returns _) => FullyConnectedLayer.ToFile "ip2" (n_fc2 n) fs
  end end end.

(** The block under [if (FLAGS_save_data)]: the checked copies, then the
    four [ToFile] calls. *)
Definition save_block (e : inputs) : outcome unit :=
  if FLAGS_save_data e then
    if negb (copies_ok e) then Exits FatalError
    else snd (save_data e)
  else Returns tt.

Definition exit_code (e : inputs) : Z :=
  match read_input_data e with
  | Some c => c
  | None =>
      (* Choose GPU *)
      if negb (devcount_status e =? 0) then FatalError
      else if (FLAGS_gpu e <? 0) || (FLAGS_gpu e >=? num_gpus e) then 4
      else if negb (training_ok e) then FatalError
      else
        match save_block e with
        | Exits c => c
        | Returns _ => if negb (closing_ok e) then FatalError else 0
        end
  end.

End Main.

(* ===================================================================== *)
(** * Concrete data for the examples *)

(** An empty disk on which every path can be created. *)
Definition example_disk : FS := mkFS ∅ ∅.

(** A 1-to-2 channel, 1x1 convolution on 3x3 images holding 1.0f, -1.0f
    and biases 10.0f, -0.0f. *)
Definition example_conv : ConvBiasLayer.t :=
  ConvBiasLayer.mk 1 2 1 3 3 3 3
    [1065353216; 3212836864] [1092616192; 2147483648].

(** The same layer freshly constructed. *)
Definition blank_conv : ConvBiasLayer.t :=
  ConvBiasLayer.mk 1 2 1 3 3 3 3 [0; 0] [0; 0].

(** A disk with the weights file of "conv1" only: 2.0f and 3.0f. *)
Definition weights_only_disk : FS :=
  mkFS {[ "conv1.bin" := [0; 0; 0; 64; 0; 0; 64; 64] ]} ∅.

(** A disk with a weights file of "conv1" cut short: 2.0f and two more
    bytes. *)
Definition short_weights_only_disk : FS :=
  mkFS {[ "conv1.bin" := [0; 0; 0; 64; 170; 187] ]} ∅.

(** A disk on which "conv1.bin" exists and is empty, without
    "conv1.bias.bin". *)
Definition empty_weights_disk : FS :=
  mkFS {[ "conv1.bin" := [] ]} ∅.

(** A 2-input, 1-output fully-connected layer. *)
Definition example_fc : FullyConnectedLayer.t :=
  FullyConnectedLayer.mk 2 1 [1065353216; 1073741824] [1077936128].

(** The same layer freshly constructed. *)
Definition blank_fc : FullyConnectedLayer.t :=
  FullyConnectedLayer.mk 2 1 [0; 0] [0].

Definition example_network : Main.network :=
  Main.mkNetwork example_conv (MaxPoolLayer.new 2 2) example_conv
    (MaxPoolLayer.new 2 2) example_fc example_fc.

(** Rank 0 with a 60000-image training set and a 10000-image test set that
    read back in full, one GPU, every checked call succeeding, nothing
    saved: the run that exits with 0. *)
Definition clean_run : Main.inputs :=
  Main.mkInputs 0 60000 10000 60000 10000 0 1 0 true false true
    example_network example_disk true.


(** The same as [clean_run], but saving is asked for and "conv1.bin"
    cannot be opened for writing. *)
Definition save_blocked_run : Main.inputs :=
  Main.mkInputs 0 60000 10000 60000 10000 0 1 0 true true true
    example_network (mkFS ∅ {[ "conv1.bin" ]}) true.

(** The same as [save_blocked_run], but one of the copies of the trained
    weights to the host fails before any file is opened. *)
Definition copy_failure_run : Main.inputs :=
  Main.mkInputs 0 60000 10000 60000 10000 0 1 0 true true false
    example_network (mkFS ∅ {[ "conv1.bin" ]}) true.


(* ===================================================================== *)
(** * Conditions named by the statements on exit codes *)






(** A world for the examples: [rand()] returns 0, every message holds
    1.0f and 2.0f, copies and the forward/backward pass leave the store
    alone, and [pow(x, y)] is [1 / x], which is [pow] at [y = -1]. *)
Definition example_world : World :=
  mkWorld (fun _ => 0) (fun _ => [1065353216; 1073741824])
    (fun _ _ _ _ s => s) (fun s => s)
    (fun x _ => Float64.div (Float64.of_int 1) x).

(** Two iterations on 3x3 one-channel images in batches of one, with
    base learning rate 1, gamma 1 and power 1: the schedule is
    [1 / (1 + iter)]. *)
Definition example_setup : Main.setup :=
  Main.mkSetup
    (TrainingContext.new 0 1 example_conv (MaxPoolLayer.new 2 2)
       example_conv (MaxPoolLayer.new 2 2) example_fc example_fc)
    example_conv example_conv example_fc example_fc
    3 3 1 1 2
    (Float64.of_int 1) (Float64.of_int 1) (Float64.of_int 1).

(** A process that has done nothing yet, all buffers empty. *)
Definition fresh_process : process := mkProcess (fun _ => []) [] O O.

(* ===================================================================== *)
(** * Readings of a process's calls *)

Definition is_send (c : call) : bool :=
  match c with Send _ _ _ => true | _ => false end.

Definition is_recv (c : call) : bool :=
  match c with Recv _ _ _ _ => true | _ => false end.

Definition is_bcast (c : call) : bool :=
  match c with Bcast _ _ _ => true | _ => false end.

Definition is_local_update (c : call) : bool :=
  match c with LocalUpdate _ _ => true | _ => false end.

Definition is_global_update (c : call) : bool :=
  match c with GlobalUpdate _ => true | _ => false end.

(** The eight broadcasts of one iteration. *)
Definition broadcast_calls (g : Main.setup) : list call :=
  [Bcast h_gpconv1 (int_size (ConvBiasLayer.pconv (Main.conv1 g))) 0;
   Bcast h_gpconv1bias (int_size (ConvBiasLayer.pbias (Main.conv1 g))) 0;
   Bcast h_gpconv2 (int_size (ConvBiasLayer.pconv (Main.conv2 g))) 0;
   Bcast h_gpconv2bias (int_size (ConvBiasLayer.pbias (Main.conv2 g))) 0;
   Bcast h_gpfc1 (int_size (FullyConnectedLayer.pneurons (Main.fc1 g))) 0;
   Bcast h_gpfc1bias (int_size (FullyConnectedLayer.pbias (Main.fc1 g))) 0;
   Bcast h_gpfc2 (int_size (FullyConnectedLayer.pneurons (Main.fc2 g))) 0;
   Bcast h_gpfc2bias (int_size (FullyConnectedLayer.pbias (Main.fc2 g))) 0].

(** The two receives a worker posts for its batch. *)
Definition batch_recvs (g : Main.setup) : list call :=
  let batch := TrainingContext.m_batchSize (Main.context g) in
  [Recv train_images_mBatch_float (Main.batch_count g) 0 COMM_XDATA;
   Recv train_labels_mBatch_float batch 0 COMM_XLABEL].

(** Destinations and tags of the sends among some calls. *)
Definition send_headers (cs : list call) : list (Z * Z) :=
  flat_map (fun c => match c with
                     | Send dest tag _ => [(dest, tag)]
                     | _ => []
                     end) cs.

(** The learning rates and penalties of the local updates among some
    calls. *)
Definition local_updates (cs : list call) : list (float32 * float32) :=
  flat_map (fun c => match c with
                     | LocalUpdate lr rho => [(lr, rho)]
                     | _ => []
                     end) cs.

(** Iteration indices [0 .. n-1]. *)
Definition iterations (n : Z) : list Z :=
  map Z.of_nat (seq 0 (Z.to_nat n)).

(** A call without the data it carries. *)
Definition erase_payload (c : call) : call :=
  match c with
  | Send dest tag _ => Send dest tag []
  | other => other
  end.

Definition protocol (cs : list call) : list call := map erase_payload cs.

(** The eight sends of a worker's residuals, payloads left out. *)
Definition residual_sends : list call :=
  [Send 0 COMM_GDCONV1 []; Send 0 COMM_GDCONV1BIAS [];
   Send 0 COMM_GDCONV2 []; Send 0 COMM_GDCONV2BIAS [];
   Send 0 COMM_GDFC1NEURON []; Send 0 COMM_GDFC1BIAS [];
   Send 0 COMM_GDFC2NEURON []; Send 0 COMM_GDFC2BIAS []].

(** What a worker issues in iteration [iter], payloads left out. *)
Definition worker_iteration_calls (w : World) (g : Main.setup) (iter : Z)
  : list call :=
  batch_recvs g ++ broadcast_calls g
  ++ [LocalUpdate (Main.learningRate w g iter) (Float32.of_int 10)]
  ++ residual_sends.

(* ===================================================================== *)
(** * Readings of the weight updates *)

(** The number of elements a [cublasSaxpy] over vector [v] covers. *)
Definition count (v : list float32) : nat := Z.to_nat (int_size v).

(** The list-level effect of [cudaMemset(b, 0, sizeof(float) * v.size())]
    on a buffer holding [old]. *)
Definition memset0 (v old : list float32) : list float32 :=
  let n := Z.to_nat (byte_size v / sizeof_float) in
  overwrite n (repeat Float32.zero n) old.

(** A zeroed buffer, plus [rho_alpha * local], plus [rho_alpha * global]. *)
Definition dual_residual (v : list float32) (rho_alpha : float32)
    (local global old : list float32) : list float32 :=
  saxpy (count v) rho_alpha global
    (saxpy (count v) rho_alpha local (memset0 v old)).

(** [local + (-1) * dual + alpha * grad]: with [alpha = - learning_rate]
    this is the floating-point [local - dual - learning_rate * grad]. *)
Definition local_step (v : list float32) (alpha : float32)
    (grad dual local : list float32) : list float32 :=
  saxpy (count v) alpha grad
    (saxpy (count v) (Float32.of_int (-1)) dual local).


Definition is_dual (b : buf) : bool :=
  match b with
  | d_gdpconv1 | d_gdpconv1bias | d_gdpconv2 | d_gdpconv2bias
  | d_gdpfc1 | d_gdpfc1bias | d_gdpfc2 | d_gdpfc2bias => true
  | _ => false
  end.



(** Plain SGD on one element: [local - learning_rate * g]. *)
Definition sgd_step (learning_rate local grad : float32) : float32 :=
  Float32.sub local (Float32.mul learning_rate grad).

(** The local weight buffers, tensor by tensor. *)
Definition local_buffers : list buf :=
  [d_pconv1; d_pconv1bias; d_pconv2; d_pconv2bias;
   d_pfc1; d_pfc1bias; d_pfc2; d_pfc2bias].

Definition dual_buffers : list buf :=
  [d_gdpconv1; d_gdpconv1bias; d_gdpconv2; d_gdpconv2bias;
   d_gdpfc1; d_gdpfc1bias; d_gdpfc2; d_gdpfc2bias].

(** A store for the examples: every tensor has one element (the layers
    of [tiny_setup] below); local weights 8.0f, global weights 2.0f,
    gradients [grad], residual buffers 0.0f. *)
Definition tiny_store (grad : float32) : store :=
  fun b =>
    match b with
    | d_pconv1 | d_pconv1bias | d_pconv2 | d_pconv2bias
    | d_pfc1 | d_pfc1bias | d_pfc2 | d_pfc2bias => [1090519040]
    | d_gpconv1 | d_gpconv1bias | d_gpconv2 | d_gpconv2bias
    | d_gpfc1 | d_gpfc1bias | d_gpfc2 | d_gpfc2bias => [1073741824]
    | d_gconv1 | d_gconv1bias | d_gconv2 | d_gconv2bias
    | d_gfc1 | d_gfc1bias | d_gfc2 | d_gfc2bias => [grad]
    | d_gdpconv1 | d_gdpconv1bias | d_gdpconv2 | d_gdpconv2bias
    | d_gdpfc1 | d_gdpfc1bias | d_gdpfc2 | d_gdpfc2bias => [0]
    | _ => []
    end.

(** The same store with 7.0f left in every residual buffer. *)
Definition stale_store (grad : float32) : store :=
  fun b => if is_dual b then [1088421888] else tiny_store grad b.


Definition tiny_conv : ConvBiasLayer.t :=
  ConvBiasLayer.mk 1 1 1 1 1 1 1 [0] [0].

Definition tiny_fc : FullyConnectedLayer.t :=
  FullyConnectedLayer.mk 1 1 [0] [0].

Definition tiny_setup : Main.setup :=
  Main.mkSetup
    (TrainingContext.new 0 1 tiny_conv (MaxPoolLayer.new 2 2)
       tiny_conv (MaxPoolLayer.new 2 2) tiny_fc tiny_fc)
    tiny_conv tiny_conv tiny_fc tiny_fc
    1 1 1 1 1
    (Float64.of_int 1) (Float64.of_int 1) (Float64.of_int 1).

(** The contents of some buffers. *)
Definition read (bs : list buf) (s : store) : list (list float32) :=
  map s bs.

(* ===================================================================== *)
(** * Comparison, division and square root of floats *)

Module FloatOps.

(** [a < b], [a == b] and [a <= b] on [float]: false as soon as one side
    is a NaN. *)
Definition lt (a b : float32) : bool :=
  SFltb (Float32.to_spec a) (Float32.to_spec b).

Definition eqb (a b : float32) : bool :=
  SFeqb (Float32.to_spec a) (Float32.to_spec b).

Definition leb (a b : float32) : bool :=
  SFleb (Float32.to_spec a) (Float32.to_spec b).

Definition div (a b : float32) : float32 :=
  Float32.of_spec
    (SFdiv Float32.prec Float32.emax (Float32.to_spec a) (Float32.to_spec b)).

Definition sqrt (a : float32) : float32 :=
  Float32.of_spec (SFsqrt Float32.prec Float32.emax (Float32.to_spec a)).

Definition one : float32 := Float32.of_int 1.

End FloatOps.

(* ===================================================================== *)
(** * The start of [main]: dataset, parameters, initial network *)

Module Startup.

(** ** Preparing the dataset

<<
  for (size_t i = 0; i < train_size * channels * width * height; ++i)
      train_images_float[i] = (float)train_images[i] / 255.0f;
>>
    The vector was resized to exactly this count, so the loop visits
    every element. *)
Definition normalize (pixel : Z) : float32 :=
  FloatOps.div (Float32.of_int pixel) (Float32.of_int 255).

Definition prepare_images (train_images : list Z) : list float32 :=
  map normalize train_images.

(** ** Broadcast of the dataset parameters

<<
  size_t width, height, ...;
  MPI_Bcast(&height, 1, MPI_INT, 0, MPI_COMM_WORLD);
>>
    One [MPI_INT] is four bytes; the variable is a [size_t] of eight
    (LP64), stored least significant byte first as the floats of the
    weight files are. On the ranks other than the root the first four
    bytes of the variable are replaced by the root's, the other four keep
    what the (uninitialised) variable held. *)
Definition size_t_bytes (x : Z) : list Z :=
  map (fun k => (x / 256 ^ k) mod 256) [0; 1; 2; 3; 4; 5; 6; 7].

Definition size_t_of_bytes (bytes : list Z) : Z :=
  fold_right (fun b acc => b + 256 * acc) 0 bytes.

Definition sizeof_int : nat := 4.

Definition MPI_Bcast_int_to_size_t (rank root_value held : Z) : Z :=
  if rank =? 0 then held
  else size_t_of_bytes
         (take sizeof_int (size_t_bytes root_value)
          ++ drop sizeof_int (size_t_bytes held)).

(** ** Initial network structure

<<
  bool bRet = true;
  if (FLAGS_pretrained) {
    bRet = conv1.FromFile("conv1");
    bRet &= conv2.FromFile("conv2");
    bRet &= fc1.FromFile("ip1");
    bRet &= fc2.FromFile("ip2");
  }
  if (!bRet || !FLAGS_pretrained) { ... randomize network ... }
>> *)
Definition load_pretrained (fs : FS) (n : Main.network)
  : bool * Main.network :=
  let '(bRet, c1) := ConvBiasLayer.FromFile "conv1" fs (Main.n_conv1 n) in
  let '(b, c2) := ConvBiasLayer.FromFile "conv2" fs (Main.n_conv2 n) in
  let bRet := bRet && b in
  let '(b, f1) := FullyConnectedLayer.FromFile "ip1" fs (Main.n_fc1 n) in
  let bRet := bRet && b in
  let '(b, f2) := FullyConnectedLayer.FromFile "ip2" fs (Main.n_fc2 n) in
  let bRet := bRet && b in
  (bRet, Main.mkNetwork c1 (Main.n_pool1 n) c2 (Main.n_pool2 n) f1 f2).

(** Xavier bound [sqrt(3.0f / count)] for an [int] count. (The square
    root rounded to [float]: computing it in [double] first gives the same
    [float].) *)
Definition xavier (count : Z) : float32 :=
  FloatOps.sqrt (FloatOps.div (Float32.of_int 3) (Float32.of_int count)).

Section Random.

(** The generator [std::mt19937] and one draw
    [static_cast<float>(d(gen))] from
    [std::uniform_real_distribution<> d(-w, w)]. *)
Variable G : Type.
Variable uniform : float32 -> G -> float32 * G.

(** [for (auto&& iter : v) iter = static_cast<float>(d(gen));] *)
Fixpoint randomize (w : float32) (v : list float32) (gen : G)
  : list float32 * G :=
  match v with
  | [] => ([], gen)
  | _ :: v' =>
      let '(x, gen) := uniform w gen in
      let '(v', gen) := randomize w v' gen in
      (x :: v', gen)
  end.

Definition randomize_network (n : Main.network) (gen : G) : Main.network :=
  let conv1 := Main.n_conv1 n in
  let conv2 := Main.n_conv2 n in
  let fc1 := Main.n_fc1 n in
  let fc2 := Main.n_fc2 n in
  let wconv1 :=
    xavier (Int32.mul (Int32.mul (ConvBiasLayer.kernel_size conv1)
                         (ConvBiasLayer.kernel_size conv1))
              (ConvBiasLayer.in_channels conv1)) in
  let wconv2 :=
    xavier (Int32.mul (Int32.mul (ConvBiasLayer.kernel_size conv2)
                         (ConvBiasLayer.kernel_size conv2))
              (ConvBiasLayer.in_channels conv2)) in
  let wfc1 :=
    xavier (Int32.mul (FullyConnectedLayer.inputs fc1)
              (FullyConnectedLayer.outputs fc1)) in
  let wfc2 :=
    xavier (Int32.mul (FullyConnectedLayer.inputs fc2)
              (FullyConnectedLayer.outputs fc2)) in
  let '(v, gen) := randomize wconv1 (ConvBiasLayer.pconv conv1) gen in
  let conv1 := ConvBiasLayer.with_pconv v conv1 in
  let '(v, gen) := randomize wconv1 (ConvBiasLayer.pbias conv1) gen in
  let conv1 := ConvBiasLayer.with_pbias v conv1 in
  let '(v, gen) := randomize wconv2 (ConvBiasLayer.pconv conv2) gen in
  let conv2 := ConvBiasLayer.with_pconv v conv2 in
  let '(v, gen) := randomize wconv2 (ConvBiasLayer.pbias conv2) gen in
  let conv2 := ConvBiasLayer.with_pbias v conv2 in
  let '(v, gen) := randomize wfc1 (FullyConnectedLayer.pneurons fc1) gen in
  let fc1 := FullyConnectedLayer.with_pneurons v fc1 in
  let '(v, gen) := randomize wfc1 (FullyConnectedLayer.pbias fc1) gen in
  let fc1 := FullyConnectedLayer.with_pbias v fc1 in
  let '(v, gen) := randomize wfc2 (FullyConnectedLayer.pneurons fc2) gen in
  let fc2 := FullyConnectedLayer.with_pneurons v fc2 in
  let '(v, _) := randomize wfc2 (FullyConnectedLayer.pbias fc2) gen in
  let fc2 := FullyConnectedLayer.with_pbias v fc2 in
  Main.mkNetwork conv1 (Main.n_pool1 n) conv2 (Main.n_pool2 n) fc1 fc2.

(** [gen] is the generator as seeded in the block. *)
Definition initial_network (FLAGS_pretrained : bool) (fs : FS) (gen : G)
    (n : Main.network) : Main.network :=
  let '(bRet, n) :=
    if FLAGS_pretrained then load_pretrained fs n else (true, n) in
  if negb bRet || negb FLAGS_pretrained then randomize_network n gen
  else n.

End Random.

End Startup.

(* ===================================================================== *)
(** * The scratch workspace of the convolutions *)

Module Workspace.

(** The sizes cuDNN reports for the algorithms it picked, one per query
    of a training context. *)
Record cudnn_sizes : Type := mkSizes {
  fwd_conv1 : Z;          (* cudnnGetConvolutionForwardWorkspaceSize *)
  bwd_filter_conv1 : Z;   (* ...BackwardFilterWorkspaceSize *)
  fwd_conv2 : Z;
  bwd_filter_conv2 : Z;
  bwd_data_conv2 : Z      (* ...BackwardDataWorkspaceSize *)
}.

(** [SetBwdConvolutionTensors]: each argument is the size reported for
    the algorithm that was asked for, [None] for a null [falgo]/[dalgo]. *)
Definition SetBwdConvolutionTensors (falgo dalgo : option Z) : Z :=
  let sizeInBytes := 0 in
  let sizeInBytes :=
    match falgo with
    | Some tmpsize => Z.max sizeInBytes tmpsize
    | None => sizeInBytes
    end in
  match dalgo with
  | Some tmpsize => Z.max sizeInBytes tmpsize
  | None => sizeInBytes
  end.

(** "Set convolution tensor sizes and compute workspace size", the end of
    the [TrainingContext] constructor. *)
Definition m_workspaceSize (q : cudnn_sizes) : Z :=
  let workspace := 0 in
  let workspace := Z.max workspace (fwd_conv1 q) in
  let workspace :=
    Z.max workspace
      (SetBwdConvolutionTensors (Some (bwd_filter_conv1 q)) None) in
  let workspace := Z.max workspace (fwd_conv2 q) in
  let workspace :=
    Z.max workspace
      (SetBwdConvolutionTensors (Some (bwd_filter_conv2 q))
         (Some (bwd_data_conv2 q))) in
  workspace.

(** [d_cudnn_workspace]: the size of the allocation it points to,
    [None] for [nullptr].
<<
  void *d_cudnn_workspace = nullptr;
  if (context.m_workspaceSize > 0)
      cudaMalloc(&d_cudnn_workspace, context.m_workspaceSize);
>> *)
Definition training_workspace (context : cudnn_sizes) : option Z :=
  if 0 <? m_workspaceSize context then Some (m_workspaceSize context)
  else None.

(** "Ensure correct workspaceSize is allocated for testing". *)
Definition testing_workspace (context test_context : cudnn_sizes)
  : option Z :=
  let d_cudnn_workspace := training_workspace context in
  if m_workspaceSize context <? m_workspaceSize test_context then
    Some (m_workspaceSize test_context)
  else d_cudnn_workspace.

(** The bytes behind the pointer. *)
Definition allocated (d_cudnn_workspace : option Z) : Z :=
  default 0 d_cudnn_workspace.

Definition queries (q : cudnn_sizes) : list Z :=
  [fwd_conv1 q; bwd_filter_conv1 q; fwd_conv2 q; bwd_filter_conv2 q;
   bwd_data_conv2 q].

End Workspace.

(* ===================================================================== *)
(** * The classification pass at the end of [main] *)

Module Evaluation.

(** What the pass reads: the test vectors as they are on this process
    (empty on the ranks that did not read the dataset) and the image
    geometry. *)
Record test_set : Type := mkTestSet {
  test_images : list Z;
  test_labels : list Z;
  width : Z; height : Z; channels : Z
}.

(** <<
  int classifications = FLAGS_classify;
  if (classifications < 0) classifications = (int)test_size;
>> *)
Definition classifications (FLAGS_classify test_size : Z) : Z :=
  let classifications := FLAGS_classify in
  if classifications <? 0 then Int32.wrap test_size else classifications.

(** [i * width*height*channels + j], in [size_t]. *)
Definition image_index (d : test_set) (i j : Z) : Z :=
  (i * width d * height d * channels d + j) mod 2 ^ 64.

(** <<
  std::vector<float> data(width * height);
  for (int j = 0; j < width * height; ++j)
      data[j] = (float)test_images[i * width*height*channels + j] / 255.0f;
>>
    [None]: an element past the end of [test_images] is read. ([j] is an
    [int]: the loop is meant for [width * height] within [int].) *)
Definition test_image (d : test_set) (i : Z) : option (list float32) :=
  mapM (fun j => pixel ← test_images d !! Z.to_nat (image_index d i j);
                 Some (Startup.normalize pixel))
    (map Z.of_nat (seq 0 (Z.to_nat ((width d * height d) mod 2 ^ 64)))).

(** [std::vector<float> class_vec(10)] after the copy of ten floats from
    [d_fc2smax]. *)
Definition class_vec (d_fc2smax : list float32) : list float32 :=
  overwrite 10 d_fc2smax (repeat Float32.zero 10).

Definition at_index (v : list float32) (i : Z) : float32 :=
  nth (Z.to_nat i) v Float32.zero.

(** "Determine classification according to maximal response":
<<
  int chosen = 0;
  for (int id = 1; id < 10; ++id)
      if (class_vec[chosen] < class_vec[id]) chosen = id;
>> *)
Definition chosen_class (class_vec : list float32) : Z :=
  fold_left
    (fun chosen id =>
       if FloatOps.lt (at_index class_vec chosen) (at_index class_vec id)
       then id else chosen)
    [1; 2; 3; 4; 5; 6; 7; 8; 9] 0.

(** The loop over the images, from image [i] on, [n] images to go.
    [forward] is the forward pass of the test context: from the image in
    [d_data] to the contents of [d_fc2smax]. *)
Fixpoint classify_from (forward : list float32 -> list float32)
    (d : test_set) (n : nat) (i num_errors : Z) : option Z :=
  match n with
  | O => Some num_errors
  | S n' =>
      data ← test_image d i;
      let chosen := chosen_class (class_vec (forward data)) in
      label ← test_labels d !! Z.to_nat i;
      classify_from forward d n' (i + 1)
        (if negb (chosen =? label) then Int32.add num_errors 1
         else num_errors)
  end.

(** [classification_error] at the end of [main]; [None] when the pass
    reads past the end of a vector. *)
Definition classification_error (forward : list float32 -> list float32)
    (d : test_set) (FLAGS_classify test_size : Z) : option float32 :=
  let classification_error := FloatOps.one in
  let classifications := classifications FLAGS_classify test_size in
  if 0 <? classifications then
    num_errors ← classify_from forward d (Z.to_nat classifications) 0 0;
    Some (FloatOps.div (Float32.of_int num_errors)
            (Float32.of_int classifications))
  else Some classification_error.

End Evaluation.

(* ===================================================================== *)
(** * Readings used by the statements on start-up, saving and updates *)

(** All four layers have the shape their constructors give. *)
Definition network_shaped (n : Main.network) : Prop :=
  ConvBiasLayer.shaped (Main.n_conv1 n) /\
  ConvBiasLayer.shaped (Main.n_conv2 n) /\
  FullyConnectedLayer.shaped (Main.n_fc1 n) /\
  FullyConnectedLayer.shaped (Main.n_fc2 n).

(** The eight parameter vectors of a network, in the order [main] walks
    them. *)
Definition parameters (n : Main.network) : list (list float32) :=
  [ConvBiasLayer.pconv (Main.n_conv1 n); ConvBiasLayer.pbias (Main.n_conv1 n);
   ConvBiasLayer.pconv (Main.n_conv2 n); ConvBiasLayer.pbias (Main.n_conv2 n);
   FullyConnectedLayer.pneurons (Main.n_fc1 n);
   FullyConnectedLayer.pbias (Main.n_fc1 n);
   FullyConnectedLayer.pneurons (Main.n_fc2 n);
   FullyConnectedLayer.pbias (Main.n_fc2 n)].

(** Every parameter is a 32-bit word. *)
Definition network_wf (n : Main.network) : Prop :=
  Forall (Forall Float32.wf) (parameters n).

(** The counts the file functions use, in the order of [parameters]. *)
Definition file_counts (n : Main.network) : list Z :=
  [ConvBiasLayer.weight_count (Main.n_conv1 n);
   ConvBiasLayer.out_channels (Main.n_conv1 n);
   ConvBiasLayer.weight_count (Main.n_conv2 n);
   ConvBiasLayer.out_channels (Main.n_conv2 n);
   FullyConnectedLayer.weight_count (Main.n_fc1 n);
   FullyConnectedLayer.outputs (Main.n_fc1 n);
   FullyConnectedLayer.weight_count (Main.n_fc2 n);
   FullyConnectedLayer.outputs (Main.n_fc2 n)].

(** Two networks built for the same architecture: same counts, same
    vector sizes. *)
Definition same_architecture (n0 n : Main.network) : Prop :=
  file_counts n0 = file_counts n /\
  map (@length float32) (parameters n0) = map (@length float32) (parameters n).

(** The buffers [UpdateLocalWeights] writes when called as in [main]: the
    local weights, the residuals, and the gradient [d_gfc1]. *)
Definition local_update_writes (b : buf) : bool :=
  match b with
  | d_pconv1 | d_pconv1bias | d_pconv2 | d_pconv2bias
  | d_pfc1 | d_pfc1bias | d_pfc2 | d_pfc2bias
  | d_gdpconv1 | d_gdpconv1bias | d_gdpconv2 | d_gdpconv2bias
  | d_gdpfc1 | d_gdpfc1bias | d_gdpfc2 | d_gdpfc2bias
  | d_gfc1 => true
  | _ => false
  end.

(** The buffers [UpdateGlobalWeights] writes when called as in [main]. *)
Definition global_update_writes (b : buf) : bool :=
  match b with
  | d_gpconv1 | d_gpconv1bias | d_gpconv2 | d_gpconv2bias
  | d_gpfc1 | d_gpfc1bias | d_gpfc2 | d_gpfc2bias => true
  | _ => false
  end.

(** "Objects to hold mini-batches": [train_images_mBatch_float] is
    allocated with
<<
  malloc(sizeof(float) * context.m_batchSize * train_images_size / train_size)
>>
    bytes, computed in [size_t]. *)
Definition mBatch_bytes (m_batchSize train_images_size train_size : Z) : Z :=
  ((sizeof_float * m_batchSize * train_images_size) mod 2 ^ 64) / train_size.

(** A call that involves no process but this one and rank 0. *)
Definition to_rank_0 (c : call) : Prop :=
  match c with
  | Send dest _ _ => dest = 0
  | Recv _ _ source _ => source = 0
  | Bcast _ _ root => root = 0
  | LocalUpdate _ _ => True
  | GlobalUpdate _ => False
  end.

(** The runtime's copies write nothing but the two buffers they are
    given (whichever of the two a copy with a contradictory [kind]
    writes). *)
Definition copies_touch_operands_only (w : World) : Prop :=
  forall dst src count k s b,
    b <> dst -> b <> src -> cudaMemcpy w dst src count k s b = s b.

(** The buffers named in the copies rank 0 makes in the training loop:
    the global weights, on the device and on the host. *)
Definition coordinator_copy_operand (b : buf) : bool :=
  match b with
  | d_gpconv1 | d_gpconv1bias | d_gpconv2 | d_gpconv2bias
  | d_gpfc1 | d_gpfc1bias | d_gpfc2 | d_gpfc2bias
  | h_gpconv1 | h_gpconv1bias | h_gpconv2 | h_gpconv2bias
  | h_gpfc1 | h_gpfc1bias | h_gpfc2 | h_gpfc2bias => true
  | _ => false
  end.

(** A test on calls that does not look at the data sent. *)
Definition payload_blind (f : call -> bool) : Prop :=
  forall c, f (erase_payload c) = f c.

(** The 256 values of a [uint8_t] pixel. *)
Definition pixels : list Z := map Z.of_nat (seq 0 256).

(** A float between 0.0f and 1.0f, bounds included. *)
Definition in_unit_interval (x : float32) : Prop :=
  FloatOps.leb Float32.zero x = true /\ FloatOps.leb x FloatOps.one = true.

(** One step of the scan for the maximal response. *)
Definition scan (v : list float32) (chosen id : Z) : Z :=
  if FloatOps.lt (Evaluation.at_index v chosen) (Evaluation.at_index v id)
  then id else chosen.

(** Among the entries [0 .. k-1] of [v], entry [c] is the first maximal
    one: no entry is greater, and no entry before it is equal. *)
Definition first_maximum (v : list float32) (k c : Z) : Prop :=
  0 <= c < k /\
  (forall id, 0 <= id < k ->
     FloatOps.lt (Evaluation.at_index v c) (Evaluation.at_index v id)
     = false) /\
  (forall id, 0 <= id < c ->
     FloatOps.eqb (Evaluation.at_index v c) (Evaluation.at_index v id)
     = false).

Definition not_nan (x : float32) : Prop := Float32.to_spec x <> S754_nan.

(** What [FromFile] never changes in a layer: the geometry and the
    vector sizes. *)
Definition conv_frame (l : ConvBiasLayer.t) :=
  (ConvBiasLayer.in_channels l, ConvBiasLayer.out_channels l,
   ConvBiasLayer.kernel_size l, ConvBiasLayer.in_width l,
   ConvBiasLayer.in_height l, ConvBiasLayer.out_width l,
   ConvBiasLayer.out_height l, length (ConvBiasLayer.pconv l),
   length (ConvBiasLayer.pbias l)).

Definition fc_frame (l : FullyConnectedLayer.t) :=
  (FullyConnectedLayer.inputs l, FullyConnectedLayer.outputs l,
   length (FullyConnectedLayer.pneurons l),
   length (FullyConnectedLayer.pbias l)).

(** ** Concrete data for the examples *)

(** A generator that counts its draws and returns the count as the
    word drawn. *)
Definition counting_uniform (w : float32) (gen : Z) : float32 * Z :=
  (gen, gen + 1).

(** [example_network] as its constructors would leave it. *)
Definition blank_network : Main.network :=
  Main.mkNetwork blank_conv (MaxPoolLayer.new 2 2) blank_conv
    (MaxPoolLayer.new 2 2) blank_fc blank_fc.

(** Saving [example_network] is asked for on an empty, writable disk. *)
Definition saving_run : Main.inputs :=
  Main.mkInputs 0 60000 10000 60000 10000 0 1 0 true true true
    example_network example_disk true.

(** A disk on which "conv1.bias.bin" cannot be opened for writing and
    "conv1.bin" holds one old byte. *)
Definition bias_blocked_disk : FS :=
  mkFS {[ "conv1.bin" := [7] ]} {[ "conv1.bias.bin" ]}.

(** A disk with both files of "conv1" cut short: the weights file holds
    2.0f and two more bytes, the bias file 2.0f and one more byte. *)
Definition short_files_disk : FS :=
  mkFS {[ "conv1.bin" := [0; 0; 0; 64; 170; 187];
          "conv1.bias.bin" := [0; 0; 0; 64; 1] ]} ∅.

(** Two 2x2 one-channel test images with labels 3 and 1. *)
Definition example_test_set : Evaluation.test_set :=
  Evaluation.mkTestSet [0; 255; 128; 1; 2; 3; 4; 5] [3; 1] 2 2 1.

(** The test vectors of a rank that did not read the dataset. *)
Definition worker_test_set : Evaluation.test_set :=
  Evaluation.mkTestSet [] [] 28 28 1.

(** A forward pass that answers class 3 whatever the image: 1.0f at
    index 3, zeros elsewhere. *)
Definition always_three (data : list float32) : list float32 :=
  [0; 0; 0; 1065353216; 0; 0; 0; 0; 0; 0].

(** Rank 0 after the training loop of [tiny_setup], started with local
    weights 8.0f. *)
Definition trained_coordinator : process :=
  Main.training_loop example_world tiny_setup 0
    (mkProcess (tiny_store 1082130432) [] O O).

(* ===================================================================== *)
(** * Proof steps used more than once *)

(** One step of the option monad, and nothing else. *)
Ltac bind_some :=
  cbv beta iota zeta delta
    [mbind option_bind MaxPoolLayer.stride MaxPoolLayer.new].
Ltac bind_some_in H :=
  cbv beta iota zeta delta
    [mbind option_bind MaxPoolLayer.stride MaxPoolLayer.new] in H.



(** Symbolic execution of the two update functions on the buffers [main]
    passes: every read of a buffer is resolved against the writes before
    it. *)
Ltac run_update :=
  unfold Main.call_UpdateLocalWeights, Main.call_UpdateGlobalWeights,
    TrainingContext.UpdateLocalWeights, TrainingContext.UpdateGlobalWeights;
  cbv beta iota zeta delta
    [seq_steps fold_left cublasSaxpy cudaMemset write buf_eqb buf_id Pos.eqb].

(** Conjunctions only: an equation is left for the step that follows. *)
Ltac split_conj := repeat match goal with |- _ /\ _ => split end.

(** Boolean bounds tests against their arithmetic meaning. *)
Ltac range_b :=
  repeat match goal with
         | |- context [?a <=? ?b] => destruct (Z.leb_spec a b)
         | |- context [?a <? ?b] => destruct (Z.ltb_spec a b)
         end;
  simpl; first [reflexivity | lia].

(** The cases of a comparison of exponents or mantissas. *)
Ltac compare_cases :=
  repeat match goal with
  | |- context [Z.compare ?a ?b] => destruct (Z.compare_spec a b)
  | |- context [Pos.compare_cont Eq ?a ?b] =>
      change (Pos.compare_cont Eq a b) with (Pos.compare a b);
      destruct (Pos.compare_spec a b)
  end; simpl; try congruence; try lia.

(** Two file names given as literals are different. *)
Ltac names_differ :=
  let Heq := fresh "Heq" in
  intros Heq; vm_compute in Heq; discriminate Heq.

(* ===================================================================== *)
(** * Properties *)

(** ** Arithmetic sanity of the float model *)

Example f32_one : Float32.of_int 1 = 1065353216.
Proof. reflexivity. Qed.

Example f32_minus_one : Float32.minus_one = 3212836864.
Proof. reflexivity. Qed.

Example f32_add_1_2 :
  Float32.add (Float32.of_int 1) (Float32.of_int 2) = Float32.of_int 3.
Proof. reflexivity. Qed.

Example f32_mul_m3_5 :
  Float32.mul (Float32.of_int (-3)) (Float32.of_int 5) = Float32.of_int (-15).
Proof. reflexivity. Qed.

(** 0.1f + 0.2f rounds to 0.3f's neighbour 0x3E99999A. *)
Example f32_inexact_add :
  Float32.add 1036831949 1045220557 = 1050253722.
Proof. reflexivity. Qed.

(** ** The store *)

Lemma buf_id_inj a b : buf_id a = buf_id b -> a = b.
Proof. destruct a, b; simpl; intros H; first [reflexivity | discriminate H]. Qed.

Lemma buf_eqb_eq a b : buf_eqb a b = true <-> a = b.
Proof.
  unfold buf_eqb. rewrite Pos.eqb_eq. split.
  - apply buf_id_inj.
  - now intros ->.
Qed.

Lemma write_same b v s : write b v s b = v.
Proof.
  unfold write. destruct (buf_eqb b b) eqn:E; [reflexivity|].
  assert (buf_eqb b b = true) by now apply buf_eqb_eq. congruence.
Qed.

Lemma write_other b b' v s : b <> b' -> write b v s b' = s b'.
Proof.
  intros Hne. unfold write. destruct (buf_eqb b b') eqn:E; [|reflexivity].
  apply buf_eqb_eq in E. contradiction.
Qed.

Lemma seq_steps_nil s : seq_steps [] s = s.
Proof. reflexivity. Qed.

Lemma seq_steps_cons f fs s : seq_steps (f :: fs) s = seq_steps fs (f s).
Proof. reflexivity. Qed.

Lemma length_overwrite n src dst : length (overwrite n src dst) = length dst.
Proof.
  revert src dst. induction n as [|n IH]; intros [|x src] [|y dst];
    simpl; try reflexivity. now rewrite IH.
Qed.

Lemma length_saxpy n a x y : length (saxpy n a x y) = length y.
Proof.
  revert x y. induction n as [|n IH]; intros [|xi x] [|yi y];
    simpl; try reflexivity. now rewrite IH.
Qed.

(** Inside the range of the call, [saxpy] is element-wise. *)
Lemma lookup_saxpy n a x y (i : nat) xi yi :
  (i < n)%nat -> x !! i = Some xi -> y !! i = Some yi ->
  saxpy n a x y !! i = Some (Float32.axpy a xi yi).
Proof.
  revert x y i. induction n as [|n IH]; intros x y i Hi Hx Hy; [lia|].
  destruct x as [|x0 x], y as [|y0 y]; try discriminate.
  destruct i as [|i]; simpl in *.
  - congruence.
  - apply IH; [lia | assumption | assumption].
Qed.

(** Outside it, [y] is untouched. *)
Lemma lookup_saxpy_ge n a x y (i : nat) :
  (n <= i)%nat -> saxpy n a x y !! i = y !! i.
Proof.
  revert x y i. induction n as [|n IH]; intros x y i Hi.
  - now destruct x, y.
  - destruct x as [|x0 x], y as [|y0 y]; try reflexivity.
    destruct i as [|i]; [lia|]. simpl. apply IH. lia.
Qed.

Lemma overwrite_all n src dst :
  length src = length dst -> (length dst <= n)%nat -> overwrite n src dst = src.
Proof.
  revert src dst. induction n as [|n IH]; intros [|x src] [|y dst] Hl Hn;
    simpl in *; try reflexivity; try discriminate; try lia.
  f_equal. apply IH; lia.
Qed.

Lemma overwrite_prefix n src dst :
  (n <= length src)%nat -> length dst = n -> overwrite n src dst = take n src.
Proof.
  revert src dst. induction n as [|n IH]; intros src dst Hs Hd.
  - destruct dst; [|discriminate]. now destruct src.
  - destruct src as [|x src]; [simpl in Hs; lia|].
    destruct dst as [|y dst]; [discriminate|]. simpl.
    f_equal. apply IH; simpl in *; lia.
Qed.

Lemma lookup_overwrite_lt n src dst (i : nat) x :
  (i < n)%nat -> (i < length dst)%nat -> src !! i = Some x ->
  overwrite n src dst !! i = Some x.
Proof.
  revert src dst i. induction n as [|n IH]; intros src dst i Hi Hd Hx; [lia|].
  destruct src as [|x0 src]; [discriminate|].
  destruct dst as [|y0 dst]; [simpl in Hd; lia|].
  destruct i as [|i]; simpl in *; [assumption|].
  apply IH; [lia | lia | assumption].
Qed.

(** ** Weight files *)

Lemma testbit_255 n : Z.testbit 255 n = (0 <=? n) && (n <? 8).
Proof.
  change 255 with (Z.ones 8).
  destruct (Z.leb_spec 0 n); simpl.
  - destruct (Z.ltb_spec n 8).
    + apply Z.ones_spec_low. lia.
    + apply Z.ones_spec_high. lia.
  - apply Z.testbit_neg_r. lia.
Qed.

Lemma bytes_float_float_bytes w :
  Float32.wf w ->
  bytes_float (Z.land w 255) (Z.land (Z.shiftr w 8) 255)
    (Z.land (Z.shiftr w 16) 255) (Z.land (Z.shiftr w 24) 255) = w.
Proof.
  intros [Hlo Hhi]. unfold bytes_float.
  apply Z.bits_inj'. intros n Hn.
  rewrite !Z.lor_spec, !Z.shiftl_spec, !Z.land_spec by lia.
  rewrite !testbit_255.
  destruct (Z.ltb_spec n 8).
  { rewrite (Z.testbit_neg_r _ (n - 8)), (Z.testbit_neg_r _ (n - 16)), (Z.testbit_neg_r _ (n - 24)) by lia.
    replace (0 <=? n) with true by (symmetry; apply Z.leb_le; lia).
    replace (n <? 8) with true by (symmetry; apply Z.ltb_lt; lia).
    simpl. rewrite !andb_true_r, !orb_false_r. reflexivity. }
  replace (n <? 8) with false by (symmetry; apply Z.ltb_ge; lia).
  rewrite andb_false_r, andb_false_r, orb_false_l.
  rewrite !Z.shiftr_spec by lia.
  destruct (Z.ltb_spec n 16).
  { rewrite (Z.testbit_neg_r _ (n - 16)), (Z.testbit_neg_r _ (n - 24)) by lia.
    replace (0 <=? n - 8) with true by (symmetry; apply Z.leb_le; lia).
    replace (n - 8 <? 8) with true by (symmetry; apply Z.ltb_lt; lia).
    simpl. rewrite !andb_true_r, !orb_false_r. f_equal; lia. }
  replace (n - 8 <? 8) with false by (symmetry; apply Z.ltb_ge; lia).
  rewrite andb_false_r, andb_false_r, orb_false_l.
  destruct (Z.ltb_spec n 24).
  { rewrite (Z.testbit_neg_r _ (n - 24)) by lia.
    replace (0 <=? n - 16) with true by (symmetry; apply Z.leb_le; lia).
    replace (n - 16 <? 8) with true by (symmetry; apply Z.ltb_lt; lia).
    simpl. rewrite !andb_true_r, !orb_false_r.
    rewrite Z.shiftr_spec by lia. f_equal; lia. }
  replace (n - 16 <? 8) with false by (symmetry; apply Z.ltb_ge; lia).
  rewrite andb_false_r, andb_false_r, orb_false_l.
  replace (0 <=? n - 24) with true by (symmetry; apply Z.leb_le; lia).
  destruct (Z.ltb_spec (n - 24) 8).
  { simpl. rewrite andb_true_r. rewrite Z.shiftr_spec by lia. f_equal; lia. }
  simpl. rewrite andb_false_r.
  symmetry. destruct (Z.eq_dec w 0) as [->|Hw]; [apply Z.testbit_0_l|].
  apply Z.bits_above_log2; [lia|].
  assert (Z.log2 w < 32) by (apply Z.log2_lt_pow2; lia). lia.
Qed.

Lemma decode_vector_bytes v :
  Forall Float32.wf v -> decode_floats (vector_bytes v) = v.
Proof.
  induction 1 as [|w v Hw _ IH]; [reflexivity|].
  unfold vector_bytes in *. simpl. rewrite IH.
  now rewrite bytes_float_float_bytes.
Qed.

Lemma file_names_differ (fileprefix : string) :
  fileprefix +:+ ".bin" <> fileprefix +:+ ".bias.bin".
Proof. intros H. apply (inj (String.app fileprefix)) in H. discriminate H. Qed.

Lemma size_t_of_count z : 0 <= z <= Int32.max_signed -> size_t_of_int z = z.
Proof.
  intros H. unfold size_t_of_int, Int32.max_signed in *.
  apply Z.mod_small. lia.
Qed.

(** What a stream written in one go holds. *)
Lemma fopen_wb_fwrite fs fs1 path v count :
  fopen_wb fs path = Some fs1 ->
  files (fwrite v count path fs1) !! path
  = Some (vector_bytes (take (Z.to_nat (size_t_of_int count)) v)).
Proof.
  unfold fopen_wb. destruct (decide _); [discriminate|].
  intros [= <-]. unfold fwrite. simpl.
  rewrite lookup_insert_eq. simpl. now rewrite lookup_insert_eq.
Qed.

Lemma fopen_wb_other fs fs1 path path' :
  fopen_wb fs path = Some fs1 -> path <> path' ->
  files fs1 !! path' = files fs !! path'.
Proof.
  unfold fopen_wb. destruct (decide _); [discriminate|].
  intros [= <-] Hne. simpl. now rewrite lookup_insert_ne.
Qed.

Lemma fwrite_other fs path path' v count :
  path <> path' -> files (fwrite v count path fs) !! path' = files fs !! path'.
Proof. intros Hne. unfold fwrite. simpl. now rewrite lookup_insert_ne. Qed.

Lemma length_fread_elements n : forall fp v,
  length (fread_elements n fp v) = length v.
Proof.
  induction n as [|n IH]; intros fp [|x v]; try reflexivity.
  destruct fp as [|b0 [|b1 [|b2 [|b3 rest]]]]; try reflexivity.
  cbn [fread_elements length]. now rewrite IH.
Qed.

Lemma length_fread v count fp : length (fread v count fp) = length v.
Proof. apply length_fread_elements. Qed.

(** A stream made of whole elements, as many as the vector has. *)
Lemma fread_elements_vector_bytes src : forall dst n,
  Forall Float32.wf src -> length src = length dst ->
  (length dst <= n)%nat ->
  fread_elements n (vector_bytes src) dst = src.
Proof.
  induction src as [|x src IH]; intros dst n Hwf Hl Hn.
  - destruct dst; [|discriminate]. now destruct n.
  - destruct dst as [|y dst]; [discriminate|].
    destruct n as [|n]; [simpl in Hn; lia|].
    apply Forall_cons_1 in Hwf as [Hx Hwf].
    change (vector_bytes (x :: src))
      with (Z.land x 255 :: Z.land (Z.shiftr x 8) 255
            :: Z.land (Z.shiftr x 16) 255 :: Z.land (Z.shiftr x 24) 255
            :: vector_bytes src).
    cbn [fread_elements]. rewrite bytes_float_float_bytes by assumption.
    f_equal. apply IH; [assumption | simpl in Hl; lia | simpl in Hn; lia].
Qed.

Lemma fread_whole v v0 count :
  Forall Float32.wf v -> 0 <= count <= Int32.max_signed ->
  Z.of_nat (length v) = count -> length v0 = length v ->
  fread v0 count
    (vector_bytes (take (Z.to_nat (size_t_of_int count)) v)) = v.
Proof.
  intros Hwf Hc Hv Hv0. unfold fread.
  rewrite size_t_of_count by assumption.
  rewrite firstn_all2 by lia.
  apply fread_elements_vector_bytes; [assumption | lia | lia].
Qed.

(** Elements the stream holds no byte of are left alone. *)
Lemma lookup_fread_elements_past n : forall fp v (i : nat),
  (length fp <= 4 * i)%nat -> fread_elements n fp v !! i = v !! i.
Proof.
  induction n as [|n IH]; intros fp [|x v] i Hi; try reflexivity.
  destruct fp as [|b0 [|b1 [|b2 [|b3 rest]]]]; try reflexivity;
    (destruct i as [|i]; [simpl in Hi; lia|]); try reflexivity.
  cbn [fread_elements]. simpl. apply IH. simpl in Hi. lia.
Qed.

Lemma lookup_fread_past v count fp (i : nat) :
  (length fp <= 4 * i)%nat -> fread v count fp !! i = v !! i.
Proof. apply lookup_fread_elements_past. Qed.

(** Elements the stream holds all four bytes of are the stream's. *)
Lemma lookup_fread_elements_whole n : forall fp v (i : nat) x,
  (i < n)%nat -> (i < length v)%nat -> decode_floats fp !! i = Some x ->
  fread_elements n fp v !! i = Some x.
Proof.
  induction n as [|n IH]; intros fp v i x Hn Hv Hx; [lia|].
  destruct v as [|y v]; [simpl in Hv; lia|].
  destruct fp as [|b0 [|b1 [|b2 [|b3 rest]]]]; try discriminate Hx.
  cbn [fread_elements]. destruct i as [|i]; [exact Hx|].
  simpl in *. apply IH; [lia | lia | exact Hx].
Qed.

(** An empty stream changes nothing. *)
Lemma fread_empty v count : fread v count [] = v.
Proof.
  unfold fread. destruct (Z.to_nat _); destruct v; reflexivity.
Qed.

Lemma ConvBiasLayer_ToFile_files fileprefix l fs fs' :
  ConvBiasLayer.ToFile fileprefix l fs = (fs', Returns tt) ->
  files fs' !! (fileprefix +:+ ".bin")
  = Some (vector_bytes
            (take (Z.to_nat (size_t_of_int (ConvBiasLayer.weight_count l)))
               (ConvBiasLayer.pconv l))) /\
  files fs' !! (fileprefix +:+ ".bias.bin")
  = Some (vector_bytes
            (take (Z.to_nat (size_t_of_int (ConvBiasLayer.out_channels l)))
               (ConvBiasLayer.pbias l))).
Proof.
  unfold ConvBiasLayer.ToFile.
  destruct (fopen_wb fs _) as [fs1|] eqn:E1; [|discriminate].
  destruct (fopen_wb (fwrite _ _ _ fs1) _) as [fs2|] eqn:E2; [|discriminate].
  intros [= <-]. pose proof (file_names_differ fileprefix) as Hne.
  split.
  - rewrite fwrite_other by congruence.
    rewrite (fopen_wb_other _ _ _ _ E2) by congruence.
    eapply fopen_wb_fwrite; eassumption.
  - eapply fopen_wb_fwrite; eassumption.
Qed.

Lemma FullyConnectedLayer_ToFile_files fileprefix l fs fs' :
  FullyConnectedLayer.ToFile fileprefix l fs = (fs', Returns tt) ->
  files fs' !! (fileprefix +:+ ".bin")
  = Some (vector_bytes
            (take (Z.to_nat
                     (size_t_of_int (FullyConnectedLayer.weight_count l)))
               (FullyConnectedLayer.pneurons l))) /\
  files fs' !! (fileprefix +:+ ".bias.bin")
  = Some (vector_bytes
            (take (Z.to_nat (size_t_of_int (FullyConnectedLayer.outputs l)))
               (FullyConnectedLayer.pbias l))).
Proof.
  unfold FullyConnectedLayer.ToFile.
  destruct (fopen_wb fs _) as [fs1|] eqn:E1; [|discriminate].
  destruct (fopen_wb (fwrite _ _ _ fs1) _) as [fs2|] eqn:E2; [|discriminate].
  intros [= <-]. pose proof (file_names_differ fileprefix) as Hne.
  split.
  - rewrite fwrite_other by congruence.
    rewrite (fopen_wb_other _ _ _ _ E2) by congruence.
    eapply fopen_wb_fwrite; eassumption.
  - eapply fopen_wb_fwrite; eassumption.
Qed.

(** Wrap-around is compatible with products, so the element count of the
    constructor and the count of the file functions are the same [int]. *)
Lemma wrap_mul_l a b : Int32.wrap (Int32.wrap a * b) = Int32.wrap (a * b).
Proof.
  unfold Int32.wrap. f_equal.
  rewrite (Z.mod_eq (a + 2 ^ 31) (2 ^ 32)) by lia.
  replace ((a + 2 ^ 31 - 2 ^ 32 * ((a + 2 ^ 31) / 2 ^ 32) - 2 ^ 31) * b
           + 2 ^ 31)
    with (a * b + 2 ^ 31 + (- ((a + 2 ^ 31) / 2 ^ 32) * b) * 2 ^ 32) by ring.
  apply Z_mod_plus_full.
Qed.

Lemma ConvBiasLayer_count_agrees ic oc k :
  Int32.mul (Int32.mul (Int32.mul ic k) k) oc
  = Int32.mul (Int32.mul (Int32.mul ic oc) k) k.
Proof.
  unfold Int32.mul.
  rewrite !wrap_mul_l, <- !Z.mul_assoc, !wrap_mul_l. f_equal. ring.
Qed.

(** A layer as its constructor returns it has the shape the file
    functions rely on. *)
Lemma ConvBiasLayer_new_shaped ic oc k in_w in_h l :
  oc <= Int32.max_signed ->
  ConvBiasLayer.new ic oc k in_w in_h = Some l -> ConvBiasLayer.shaped l.
Proof.
  intros Hoc. unfold ConvBiasLayer.new.
  destruct (Z.ltb_spec (Int32.mul (Int32.mul (Int32.mul ic k) k) oc) 0);
    [discriminate|].
  destruct (Z.ltb_spec oc 0); [discriminate|]. simpl.
  intros [= <-]. unfold ConvBiasLayer.shaped, ConvBiasLayer.weight_count.
  simpl. rewrite <- ConvBiasLayer_count_agrees, !repeat_length.
  repeat split; lia.
Qed.

Lemma FullyConnectedLayer_new_shaped inputs outputs l :
  outputs <= Int32.max_signed ->
  FullyConnectedLayer.new inputs outputs = Some l ->
  FullyConnectedLayer.shaped l.
Proof.
  intros Hoc. unfold FullyConnectedLayer.new.
  destruct (Z.ltb_spec (Int32.mul inputs outputs) 0); [discriminate|].
  destruct (Z.ltb_spec outputs 0); [discriminate|]. simpl.
  intros [= <-]. unfold FullyConnectedLayer.shaped,
    FullyConnectedLayer.weight_count.
  simpl. rewrite !repeat_length. repeat split; lia.
Qed.

Lemma ConvBiasLayer_round_trip fileprefix fs fs' (l l0 : ConvBiasLayer.t) :
  ConvBiasLayer.shaped l ->
  Forall Float32.wf (ConvBiasLayer.pconv l) ->
  Forall Float32.wf (ConvBiasLayer.pbias l) ->
  ConvBiasLayer.ToFile fileprefix l fs = (fs', Returns tt) ->
  ConvBiasLayer.weight_count l0 = ConvBiasLayer.weight_count l ->
  ConvBiasLayer.out_channels l0 = ConvBiasLayer.out_channels l ->
  length (ConvBiasLayer.pconv l0) = length (ConvBiasLayer.pconv l) ->
  length (ConvBiasLayer.pbias l0) = length (ConvBiasLayer.pbias l) ->
  exists l',
    ConvBiasLayer.FromFile fileprefix fs' l0 = (true, l') /\
    ConvBiasLayer.pconv l' = ConvBiasLayer.pconv l /\
    ConvBiasLayer.pbias l' = ConvBiasLayer.pbias l.
Proof.
  intros (Hn0 & Hn & Hoc & Hb) Hwc Hwb Hsave Hcount Hout Hlc Hlb.
  destruct (ConvBiasLayer_ToFile_files _ _ _ _ Hsave) as [Hw Hbf].
  assert (Hmax : ConvBiasLayer.weight_count l <= Int32.max_signed).
  { unfold ConvBiasLayer.weight_count, Int32.mul, Int32.wrap, Int32.max_signed.
    match goal with |- ?a mod ?b - ?c <= _ =>
      pose proof (Z.mod_pos_bound a b ltac:(lia)) end. lia. }
  unfold ConvBiasLayer.FromFile, fopen_rb. rewrite Hw. simpl. rewrite Hbf.
  eexists. split; [reflexivity|]. simpl. rewrite Hcount, Hout. split.
  - apply fread_whole; auto with lia.
  - apply fread_whole; auto with lia.
Qed.

Lemma FullyConnectedLayer_round_trip fileprefix fs fs'
    (l l0 : FullyConnectedLayer.t) :
  FullyConnectedLayer.shaped l ->
  Forall Float32.wf (FullyConnectedLayer.pneurons l) ->
  Forall Float32.wf (FullyConnectedLayer.pbias l) ->
  FullyConnectedLayer.ToFile fileprefix l fs = (fs', Returns tt) ->
  FullyConnectedLayer.weight_count l0 = FullyConnectedLayer.weight_count l ->
  FullyConnectedLayer.outputs l0 = FullyConnectedLayer.outputs l ->
  length (FullyConnectedLayer.pneurons l0)
  = length (FullyConnectedLayer.pneurons l) ->
  length (FullyConnectedLayer.pbias l0) = length (FullyConnectedLayer.pbias l) ->
  exists l',
    FullyConnectedLayer.FromFile fileprefix fs' l0 = (true, l') /\
    FullyConnectedLayer.pneurons l' = FullyConnectedLayer.pneurons l /\
    FullyConnectedLayer.pbias l' = FullyConnectedLayer.pbias l.
Proof.
  intros (Hn0 & Hn & Hoc & Hb) Hwc Hwb Hsave Hcount Hout Hlc Hlb.
  destruct (FullyConnectedLayer_ToFile_files _ _ _ _ Hsave) as [Hw Hbf].
  assert (Hmax : FullyConnectedLayer.weight_count l <= Int32.max_signed).
  { unfold FullyConnectedLayer.weight_count, Int32.mul, Int32.wrap,
      Int32.max_signed.
    match goal with |- ?a mod ?b - ?c <= _ =>
      pose proof (Z.mod_pos_bound a b ltac:(lia)) end. lia. }
  unfold FullyConnectedLayer.FromFile, fopen_rb. rewrite Hw. simpl.
  rewrite Hbf.
  eexists. split; [reflexivity|]. simpl. rewrite Hcount, Hout. split.
  - apply fread_whole; auto with lia.
  - apply fread_whole; auto with lia.
Qed.

Lemma fopen_wb_writable fs path :
  path ∉ unwritable fs ->
  fopen_wb fs path = Some (mkFS (<[path := []]> (files fs)) (unwritable fs)).
Proof.
  intros H. unfold fopen_wb. destruct (decide _); [contradiction|reflexivity].
Qed.

(** [ToFile] returns when its two files can be opened. *)
Lemma ConvBiasLayer_ToFile_returns fileprefix l fs :
  (fileprefix +:+ ".bin") ∉ unwritable fs ->
  (fileprefix +:+ ".bias.bin") ∉ unwritable fs ->
  exists fs', ConvBiasLayer.ToFile fileprefix l fs = (fs', Returns tt).
Proof.
  intros H1 H2. unfold ConvBiasLayer.ToFile.
  rewrite (fopen_wb_writable _ _ H1).
  rewrite fopen_wb_writable by exact H2. eauto.
Qed.

Lemma FullyConnectedLayer_ToFile_returns fileprefix l fs :
  (fileprefix +:+ ".bin") ∉ unwritable fs ->
  (fileprefix +:+ ".bias.bin") ∉ unwritable fs ->
  exists fs', FullyConnectedLayer.ToFile fileprefix l fs = (fs', Returns tt).
Proof.
  intros H1 H2. unfold FullyConnectedLayer.ToFile.
  rewrite (fopen_wb_writable _ _ H1).
  rewrite fopen_wb_writable by exact H2. eauto.
Qed.

(** C8. Saving a layer (convolution or fully-connected) whose vectors hold
    arbitrary 32-bit words and have the sizes its constructor gave them
    ([shaped]) to two files that can be opened for writing returns, and
    loading the two files into a layer of the same geometry then reports
    success and leaves the weight and bias vectors equal, word for word
    and byte for byte, to the ones saved. *)
Theorem weight_file_round_trip (fileprefix : string) (fs : FS) :
  (fileprefix +:+ ".bin") ∉ unwritable fs ->
  (fileprefix +:+ ".bias.bin") ∉ unwritable fs ->
  (forall l l0 : ConvBiasLayer.t,
     ConvBiasLayer.shaped l ->
     Forall Float32.wf (ConvBiasLayer.pconv l) ->
     Forall Float32.wf (ConvBiasLayer.pbias l) ->
     ConvBiasLayer.weight_count l0 = ConvBiasLayer.weight_count l ->
     ConvBiasLayer.out_channels l0 = ConvBiasLayer.out_channels l ->
     length (ConvBiasLayer.pconv l0) = length (ConvBiasLayer.pconv l) ->
     length (ConvBiasLayer.pbias l0) = length (ConvBiasLayer.pbias l) ->
     exists fs' l',
       ConvBiasLayer.ToFile fileprefix l fs = (fs', Returns tt) /\
       ConvBiasLayer.FromFile fileprefix fs' l0 = (true, l') /\
       ConvBiasLayer.pconv l' = ConvBiasLayer.pconv l /\
       ConvBiasLayer.pbias l' = ConvBiasLayer.pbias l /\
       vector_bytes (ConvBiasLayer.pconv l')
       = vector_bytes (ConvBiasLayer.pconv l) /\
       vector_bytes (ConvBiasLayer.pbias l')
       = vector_bytes (ConvBiasLayer.pbias l)) /\
  (forall l l0 : FullyConnectedLayer.t,
     FullyConnectedLayer.shaped l ->
     Forall Float32.wf (FullyConnectedLayer.pneurons l) ->
     Forall Float32.wf (FullyConnectedLayer.pbias l) ->
     FullyConnectedLayer.weight_count l0
     = FullyConnectedLayer.weight_count l ->
     FullyConnectedLayer.outputs l0 = FullyConnectedLayer.outputs l ->
     length (FullyConnectedLayer.pneurons l0)
     = length (FullyConnectedLayer.pneurons l) ->
     length (FullyConnectedLayer.pbias l0)
     = length (FullyConnectedLayer.pbias l) ->
     exists fs' l',
       FullyConnectedLayer.ToFile fileprefix l fs = (fs', Returns tt) /\
       FullyConnectedLayer.FromFile fileprefix fs' l0 = (true, l') /\
       FullyConnectedLayer.pneurons l' = FullyConnectedLayer.pneurons l /\
       FullyConnectedLayer.pbias l' = FullyConnectedLayer.pbias l /\
       vector_bytes (FullyConnectedLayer.pneurons l')
       = vector_bytes (FullyConnectedLayer.pneurons l) /\
       vector_bytes (FullyConnectedLayer.pbias l')
       = vector_bytes (FullyConnectedLayer.pbias l)).
Proof.
  intros W1 W2. split; intros l l0 Hs Hwc Hwb Hc Ho Hlc Hlb.
  - destruct (ConvBiasLayer_ToFile_returns fileprefix l fs W1 W2)
      as [fs' Hsave].
    destruct (ConvBiasLayer_round_trip _ _ _ _ _ Hs Hwc Hwb Hsave Hc Ho Hlc Hlb)
      as (l' & Hload & Hpc & Hpb).
    exists fs', l'. split; [exact Hsave|]. split; [exact Hload|].
    rewrite Hpc, Hpb. auto.
  - destruct (FullyConnectedLayer_ToFile_returns fileprefix l fs W1 W2)
      as [fs' Hsave].
    destruct (FullyConnectedLayer_round_trip _ _ _ _ _ Hs Hwc Hwb Hsave Hc Ho
                Hlc Hlb) as (l' & Hload & Hpc & Hpb).
    exists fs', l'. split; [exact Hsave|]. split; [exact Hload|].
    rewrite Hpc, Hpb. auto.
Qed.

(** Both layer kinds on an empty disk: a convolution layer holding 1.0f,
    -1.0f and biases 10.0f, -0.0f, and a fully-connected layer holding
    1.0f, 2.0f and bias 3.0f, loaded into zeroed layers. *)
Lemma weight_file_round_trip_witness :
  (exists fs' l',
     ConvBiasLayer.ToFile "conv1" example_conv example_disk
     = (fs', Returns tt) /\
     ConvBiasLayer.FromFile "conv1" fs' blank_conv = (true, l') /\
     ConvBiasLayer.pconv l' = [1065353216; 3212836864] /\
     ConvBiasLayer.pbias l' = [1092616192; 2147483648]) /\
  (exists fs' l',
     FullyConnectedLayer.ToFile "ip1" example_fc example_disk
     = (fs', Returns tt) /\
     FullyConnectedLayer.FromFile "ip1" fs' blank_fc = (true, l') /\
     FullyConnectedLayer.pneurons l' = [1065353216; 1073741824] /\
     FullyConnectedLayer.pbias l' = [1077936128]).
Proof.
  split.
  - destruct (proj1 (weight_file_round_trip "conv1" example_disk
                       (not_elem_of_empty _) (not_elem_of_empty _))
                example_conv blank_conv) as (fs' & l' & Hs & Hl & Hc & Hb & _).
    + vm_compute. repeat split; congruence.
    + repeat constructor; vm_compute; congruence.
    + repeat constructor; vm_compute; congruence.
    + reflexivity.
    + reflexivity.
    + reflexivity.
    + reflexivity.
    + exists fs', l'. auto.
  - destruct (proj2 (weight_file_round_trip "ip1" example_disk
                       (not_elem_of_empty _) (not_elem_of_empty _))
                example_fc blank_fc) as (fs' & l' & Hs & Hl & Hc & Hb & _).
    + vm_compute. repeat split; congruence.
    + repeat constructor; vm_compute; congruence.
    + repeat constructor; vm_compute; congruence.
    + reflexivity.
    + reflexivity.
    + reflexivity.
    + reflexivity.
    + exists fs', l'. auto.
Defined.

Lemma fread_elements_enough v : forall fp,
  (length v <= length (decode_floats fp))%nat ->
  fread_elements (length v) fp v = take (length v) (decode_floats fp).
Proof.
  induction v as [|x v IH]; intros fp Hlen; [reflexivity|].
  destruct fp as [|b0 [|b1 [|b2 [|b3 rest]]]]; try (simpl in Hlen; lia).
  cbn [length fread_elements decode_floats take]. f_equal.
  apply IH. simpl in Hlen. lia.
Qed.

Lemma fread_enough v count fp :
  0 <= count <= Int32.max_signed -> Z.of_nat (length v) = count ->
  (length v <= length (decode_floats fp))%nat ->
  fread v count fp = take (length v) (decode_floats fp).
Proof.
  intros Hc Hv Hlen. unfold fread. rewrite size_t_of_count by assumption.
  rewrite <- Hv, Nat2Z.id. now apply fread_elements_enough.
Qed.

(** C10, as the code has it. [FromFile] is not atomic on failure. With
    the weights file present and the bias file absent it returns [false],
    the bias vector is as before, and the weight vector is what [fread]
    made of it: its size is unchanged, the bytes of the weights file have
    been stored from its start (all of its elements are the file's, when
    the file holds that many floats) and the elements the file holds no
    byte of are as before. With the weights file absent it returns
    [false] and the layer is untouched. Both layer kinds. *)
Theorem FromFile_fails_after_loading_weights (fileprefix : string) (fs : FS) :
  (forall (l : ConvBiasLayer.t) (weights : list Z),
     files fs !! (fileprefix +:+ ".bin") = Some weights ->
     files fs !! (fileprefix +:+ ".bias.bin") = None ->
     exists l',
       ConvBiasLayer.FromFile fileprefix fs l = (false, l') /\
       ConvBiasLayer.pbias l' = ConvBiasLayer.pbias l /\
       ConvBiasLayer.pconv l'
       = fread (ConvBiasLayer.pconv l) (ConvBiasLayer.weight_count l) weights /\
       length (ConvBiasLayer.pconv l') = length (ConvBiasLayer.pconv l) /\
       (forall i : nat, (length weights <= 4 * i)%nat ->
          ConvBiasLayer.pconv l' !! i = ConvBiasLayer.pconv l !! i) /\
       (ConvBiasLayer.shaped l ->
        (length (ConvBiasLayer.pconv l) <= length (decode_floats weights))%nat ->
        ConvBiasLayer.pconv l'
        = take (length (ConvBiasLayer.pconv l)) (decode_floats weights))) /\
  (forall l : ConvBiasLayer.t,
     files fs !! (fileprefix +:+ ".bin") = None ->
     ConvBiasLayer.FromFile fileprefix fs l = (false, l)) /\
  (forall (l : FullyConnectedLayer.t) (weights : list Z),
     files fs !! (fileprefix +:+ ".bin") = Some weights ->
     files fs !! (fileprefix +:+ ".bias.bin") = None ->
     exists l',
       FullyConnectedLayer.FromFile fileprefix fs l = (false, l') /\
       FullyConnectedLayer.pbias l' = FullyConnectedLayer.pbias l /\
       FullyConnectedLayer.pneurons l'
       = fread (FullyConnectedLayer.pneurons l)
           (FullyConnectedLayer.weight_count l) weights /\
       length (FullyConnectedLayer.pneurons l')
       = length (FullyConnectedLayer.pneurons l) /\
       (forall i : nat, (length weights <= 4 * i)%nat ->
          FullyConnectedLayer.pneurons l' !! i
          = FullyConnectedLayer.pneurons l !! i) /\
       (FullyConnectedLayer.shaped l ->
        (length (FullyConnectedLayer.pneurons l)
         <= length (decode_floats weights))%nat ->
        FullyConnectedLayer.pneurons l'
        = take (length (FullyConnectedLayer.pneurons l))
            (decode_floats weights))) /\
  (forall l : FullyConnectedLayer.t,
     files fs !! (fileprefix +:+ ".bin") = None ->
     FullyConnectedLayer.FromFile fileprefix fs l = (false, l)).
Proof.
  split; [|split; [|split]].
  - intros l weights Hw Hb.
    unfold ConvBiasLayer.FromFile, fopen_rb. rewrite Hw, Hb.
    eexists. split; [reflexivity|].
    cbn [ConvBiasLayer.with_pconv ConvBiasLayer.pconv ConvBiasLayer.pbias].
    split; [reflexivity|]. split; [reflexivity|].
    split; [apply length_fread|].
    split; [intros i Hi; now apply lookup_fread_past|].
    intros (Hn0 & Hn & _) Hlen. apply fread_enough; [|assumption|assumption].
    split; [assumption|]. rewrite <- Hn.
    unfold ConvBiasLayer.weight_count, Int32.mul, Int32.wrap, Int32.max_signed
      in *.
    match type of Hn with _ = ?a mod ?b - ?c =>
      pose proof (Z.mod_pos_bound a b ltac:(lia)) end. lia.
  - intros l Hw. unfold ConvBiasLayer.FromFile, fopen_rb. now rewrite Hw.
  - intros l weights Hw Hb.
    unfold FullyConnectedLayer.FromFile, fopen_rb. rewrite Hw, Hb.
    eexists. split; [reflexivity|].
    cbn [FullyConnectedLayer.with_pneurons FullyConnectedLayer.pneurons
         FullyConnectedLayer.pbias].
    split; [reflexivity|]. split; [reflexivity|].
    split; [apply length_fread|].
    split; [intros i Hi; now apply lookup_fread_past|].
    intros (Hn0 & Hn & _) Hlen. apply fread_enough; [|assumption|assumption].
    split; [assumption|]. rewrite <- Hn.
    unfold FullyConnectedLayer.weight_count, Int32.mul, Int32.wrap,
      Int32.max_signed in *.
    match type of Hn with _ = ?a mod ?b - ?c =>
      pose proof (Z.mod_pos_bound a b ltac:(lia)) end. lia.
  - intros l Hw. unfold FullyConnectedLayer.FromFile, fopen_rb. now rewrite Hw.
Qed.

(** Two disks without "conv1.bias.bin": on the first "conv1.bin" holds
    2.0f and 3.0f, on the second 2.0f and two more bytes. The layer held
    1.0f, -1.0f. *)
Lemma FromFile_fails_after_loading_weights_witness :
  (exists l',
     ConvBiasLayer.FromFile "conv1" weights_only_disk example_conv
     = (false, l')
     /\ ConvBiasLayer.pbias l' = [1092616192; 2147483648]
     /\ ConvBiasLayer.pconv l' = [1073741824; 1077936128]
     /\ ConvBiasLayer.pconv example_conv = [1065353216; 3212836864]) /\
  (exists l',
     ConvBiasLayer.FromFile "conv1" short_weights_only_disk example_conv
     = (false, l')
     /\ ConvBiasLayer.pbias l' = [1092616192; 2147483648]
     /\ ConvBiasLayer.pconv l' = [1073741824; 3212884906]).
Proof.
  split.
  - destruct (proj1 (FromFile_fails_after_loading_weights "conv1"
                       weights_only_disk)
                example_conv [0; 0; 0; 64; 0; 0; 64; 64])
      as (l' & Hl & Hb & Hc & _).
    + vm_compute. reflexivity.
    + vm_compute. reflexivity.
    + exists l'. rewrite Hb, Hc. repeat split. exact Hl.
  - destruct (proj1 (FromFile_fails_after_loading_weights "conv1"
                       short_weights_only_disk)
                example_conv [0; 0; 0; 64; 170; 187])
      as (l' & Hl & Hb & Hc & _).
    + vm_compute. reflexivity.
    + vm_compute. reflexivity.
    + exists l'. rewrite Hb, Hc. repeat split. exact Hl.
Defined.

(** C10 as stated fails in its last clause: the weights file need not be
    absent for both buffers to be left unchanged. With "conv1.bin"
    present but empty and "conv1.bias.bin" absent, [FromFile] returns
    [false] and the layer is what it was. *)
Lemma FromFile_fails_after_loading_weights_counterexample :
  files empty_weights_disk !! "conv1.bin" = Some [] /\
  files empty_weights_disk !! "conv1.bias.bin" = None /\
  ConvBiasLayer.FromFile "conv1" empty_weights_disk example_conv
  = (false, example_conv).
Proof. vm_compute. repeat split. Qed.

(** ** Geometry *)

Lemma wrap_small z : Int32.in_range z -> Int32.wrap z = z.
Proof.
  unfold Int32.in_range, Int32.wrap, Int32.min_signed, Int32.max_signed.
  intros H. rewrite Z.mod_small; lia.
Qed.

Lemma wrap_in_range z : Int32.in_range (Int32.wrap z).
Proof.
  unfold Int32.in_range, Int32.wrap, Int32.min_signed, Int32.max_signed.
  pose proof (Z.mod_pos_bound (z + 2 ^ 31) (2 ^ 32) ltac:(lia)). lia.
Qed.

Lemma mul_small a b : Int32.in_range (a * b) -> Int32.mul a b = a * b.
Proof. apply wrap_small. Qed.

(** The source's [in - kernel + 1] on valid shapes. *)
Lemma conv_out_dim in_ kernel :
  0 < kernel -> kernel <= in_ <= Int32.max_signed ->
  Int32.add (Int32.sub in_ kernel) 1 = in_ - kernel + 1.
Proof.
  intros Hk Hin. unfold Int32.add, Int32.sub.
  unfold Int32.max_signed in Hin.
  rewrite (wrap_small (in_ - kernel));
    [apply wrap_small|]; unfold Int32.in_range, Int32.min_signed,
    Int32.max_signed; lia.
Qed.

(** C's [/] on a non-negative dimension and a positive stride is the
    floor of the quotient. *)
Lemma pool_out_dim d stride :
  0 <= d <= Int32.max_signed -> 0 < stride ->
  Int32.div d stride = d / stride.
Proof.
  intros Hd Hs. unfold Int32.div. rewrite Z.quot_div_nonneg by lia.
  apply wrap_small. unfold Int32.in_range, Int32.min_signed, Int32.max_signed in *.
  assert (0 <= d / stride) by (apply Z.div_pos; lia).
  assert (d / stride <= d) by (apply Z.div_le_upper_bound; nia).
  lia.
Qed.

Lemma ConvBiasLayer_new_dims ic oc k in_w in_h l :
  0 < k -> k <= in_w <= Int32.max_signed -> k <= in_h <= Int32.max_signed ->
  ConvBiasLayer.new ic oc k in_w in_h = Some l ->
  ConvBiasLayer.in_width l = in_w /\ ConvBiasLayer.in_height l = in_h /\
  ConvBiasLayer.kernel_size l = k /\ ConvBiasLayer.out_channels l = oc /\
  ConvBiasLayer.out_width l = in_w - k + 1 /\
  ConvBiasLayer.out_height l = in_h - k + 1.
Proof.
  intros Hk Hw Hh. unfold ConvBiasLayer.new.
  destruct (_ || _); [discriminate|]. intros [= <-]. simpl.
  rewrite !conv_out_dim by assumption. repeat split.
Qed.

Lemma ConvBiasLayer_new_Some ic oc k in_w in_h :
  0 <= ic * k <= Int32.max_signed -> 0 <= ic * k * k <= Int32.max_signed ->
  0 <= ic * k * k * oc <= Int32.max_signed -> 0 <= oc ->
  exists l, ConvBiasLayer.new ic oc k in_w in_h = Some l.
Proof.
  intros H1 H2 Hn Hoc. unfold ConvBiasLayer.new.
  assert (Hm : Int32.mul (Int32.mul (Int32.mul ic k) k) oc = ic * k * k * oc).
  { unfold Int32.max_signed in *.
    rewrite (mul_small ic k), (mul_small (ic * k) k), mul_small;
      unfold Int32.in_range, Int32.min_signed, Int32.max_signed; lia. }
  rewrite Hm.
  destruct (Z.ltb_spec (ic * k * k * oc) 0); [lia|].
  destruct (Z.ltb_spec oc 0); [lia|]. simpl. eauto.
Qed.

Lemma FullyConnectedLayer_new_Some inputs outputs :
  0 <= inputs * outputs <= Int32.max_signed -> 0 <= outputs ->
  exists l, FullyConnectedLayer.new inputs outputs = Some l /\
            FullyConnectedLayer.outputs l = outputs.
Proof.
  intros Hn Ho. unfold FullyConnectedLayer.new.
  rewrite mul_small
    by (unfold Int32.in_range, Int32.min_signed, Int32.max_signed in *; lia).
  destruct (Z.ltb_spec (inputs * outputs) 0); [lia|].
  destruct (Z.ltb_spec outputs 0); [lia|]. simpl. eauto.
Qed.

Lemma LeNet_is_created width height :
  14 <= width <= 1000 -> 14 <= height <= 1000 ->
  exists net, Main.create_network 1 width height = Some net.
Proof.
  intros Hw Hh. unfold Main.create_network.
  destruct (ConvBiasLayer_new_Some 1 20 5 width height) as [c1 Hc1];
    [unfold Int32.max_signed; lia .. | lia |].
  rewrite Hc1. bind_some.
  destruct (ConvBiasLayer_new_dims 1 20 5 width height c1 ltac:(lia)
              ltac:(unfold Int32.max_signed; lia)
              ltac:(unfold Int32.max_signed; lia) Hc1)
    as (_ & _ & _ & Hoc1 & How1 & Hoh1).
  rewrite Hoc1, How1, Hoh1.
  rewrite !pool_out_dim by (unfold Int32.max_signed; lia).
  assert (5 <= (width - 5 + 1) / 2 <= 498).
  { split; [apply Z.div_le_lower_bound; lia|apply Z.div_le_upper_bound; lia]. }
  assert (5 <= (height - 5 + 1) / 2 <= 498).
  { split; [apply Z.div_le_lower_bound; lia|apply Z.div_le_upper_bound; lia]. }
  set (w2 := (width - 5 + 1) / 2) in *. set (h2 := (height - 5 + 1) / 2) in *.
  destruct (ConvBiasLayer_new_Some 20 50 5 w2 h2) as [c2 Hc2];
    [unfold Int32.max_signed; lia .. | lia |].
  rewrite Hc2. bind_some.
  destruct (ConvBiasLayer_new_dims 20 50 5 w2 h2 c2 ltac:(lia)
              ltac:(unfold Int32.max_signed; lia)
              ltac:(unfold Int32.max_signed; lia) Hc2)
    as (_ & _ & _ & Hoc2 & How2 & Hoh2).
  rewrite Hoc2, How2, Hoh2.
  assert (Hprod : 0 <= 50 * (w2 - 5 + 1) * (h2 - 5 + 1) <= 50 * 494 * 494) by nia.
  rewrite (mul_small 50 (w2 - 5 + 1))
    by (unfold Int32.in_range, Int32.min_signed, Int32.max_signed; lia).
  rewrite (mul_small (50 * (w2 - 5 + 1)) (h2 - 5 + 1))
    by (unfold Int32.in_range, Int32.min_signed, Int32.max_signed; lia).
  change (Int32.mul 2 2) with 4.
  rewrite pool_out_dim by (unfold Int32.max_signed; lia).
  set (n1 := 50 * (w2 - 5 + 1) * (h2 - 5 + 1) / 4).
  assert (0 <= n1 <= 3050450).
  { subst n1. split; [apply Z.div_pos; lia|apply Z.div_le_upper_bound; lia]. }
  destruct (FullyConnectedLayer_new_Some n1 500) as (f1 & Hf1 & Ho1);
    [unfold Int32.max_signed; lia | lia |].
  rewrite Hf1. bind_some. rewrite Ho1.
  destruct (FullyConnectedLayer_new_Some 500 10) as (f2 & Hf2 & _);
    [unfold Int32.max_signed; lia | lia |].
  rewrite Hf2. bind_some. eauto.
Qed.

Lemma create_network_inv channels width height net :
  Main.create_network channels width height = Some net ->
  ConvBiasLayer.new channels 20 5 width height = Some (Main.n_conv1 net) /\
  Main.n_pool1 net = MaxPoolLayer.new 2 2 /\
  ConvBiasLayer.new (ConvBiasLayer.out_channels (Main.n_conv1 net)) 50 5
    (Int32.div (ConvBiasLayer.out_width (Main.n_conv1 net)) 2)
    (Int32.div (ConvBiasLayer.out_height (Main.n_conv1 net)) 2)
  = Some (Main.n_conv2 net) /\
  Main.n_pool2 net = MaxPoolLayer.new 2 2.
Proof.
  unfold Main.create_network. intros H.
  apply bind_Some in H as (c1 & Hc1 & H).
  apply bind_Some in H as (c2 & Hc2 & H).
  apply bind_Some in H as (f1 & Hf1 & H).
  apply bind_Some in H as (f2 & Hf2 & H).
  injection H as <-. repeat split; assumption.
Qed.

(** C6. On valid shapes (positive kernel not larger than the input,
    dimensions that fit an [int], positive stride) every convolution layer
    is constructed with output width and height [in - kernel + 1], and
    every pooling stage has output dimension [floor(in / stride)]: the
    first pooling stage as the input shape of the second convolution in
    [main], the second as the shape of [pool2Tensor] in the training
    context. The LeNet of [main] is constructed for every image of 14 to
    1000 pixels a side. *)
Theorem output_dimensions :
  (forall ic oc k in_w in_h l,
     0 < k -> k <= in_w <= Int32.max_signed -> k <= in_h <= Int32.max_signed ->
     ConvBiasLayer.new ic oc k in_w in_h = Some l ->
     ConvBiasLayer.out_width l = in_w - k + 1 /\
     ConvBiasLayer.out_height l = in_h - k + 1) /\
  (forall channels width height net,
     14 <= width <= Int32.max_signed -> 14 <= height <= Int32.max_signed ->
     Main.create_network channels width height = Some net ->
     let c1 := Main.n_conv1 net in
     let c2 := Main.n_conv2 net in
     let p1 := Main.n_pool1 net in
     ConvBiasLayer.out_width c1 = width - 5 + 1 /\
     ConvBiasLayer.out_height c1 = height - 5 + 1 /\
     ConvBiasLayer.in_width c2
     = ConvBiasLayer.out_width c1 / MaxPoolLayer.stride p1 /\
     ConvBiasLayer.in_height c2
     = ConvBiasLayer.out_height c1 / MaxPoolLayer.stride p1 /\
     ConvBiasLayer.out_width c2 = ConvBiasLayer.in_width c2 - 5 + 1 /\
     ConvBiasLayer.out_height c2 = ConvBiasLayer.in_height c2 - 5 + 1) /\
  (forall gpuid batch_size c1 p1 c2 p2 f1 f2,
     0 <= ConvBiasLayer.out_width c2 <= Int32.max_signed ->
     0 <= ConvBiasLayer.out_height c2 <= Int32.max_signed ->
     0 < MaxPoolLayer.stride p2 ->
     let ctx := TrainingContext.new gpuid batch_size c1 p1 c2 p2 f1 f2 in
     TrainingContext.sw (TrainingContext.pool2Tensor ctx)
     = ConvBiasLayer.out_width c2 / MaxPoolLayer.stride p2 /\
     TrainingContext.sh (TrainingContext.pool2Tensor ctx)
     = ConvBiasLayer.out_height c2 / MaxPoolLayer.stride p2) /\
  (forall width height,
     14 <= width <= 1000 -> 14 <= height <= 1000 ->
     exists net, Main.create_network 1 width height = Some net).
Proof.
  split; [|split; [|split]].
  - intros ic oc k in_w in_h l Hk Hw Hh Hnew.
    destruct (ConvBiasLayer_new_dims _ _ _ _ _ _ Hk Hw Hh Hnew)
      as (_ & _ & _ & _ & How & Hoh). auto.
  - intros channels width height net Hw Hh Hnet c1 c2 p1.
    destruct (create_network_inv _ _ _ _ Hnet) as (Hc1 & Hp1 & Hc2 & _).
    fold c1 in Hc1, Hc2. fold c2 in Hc2. fold p1 in Hp1.
    destruct (ConvBiasLayer_new_dims channels 20 5 width height c1
                ltac:(lia) ltac:(lia) ltac:(lia) Hc1)
      as (_ & _ & _ & _ & How1 & Hoh1).
    rewrite How1, Hoh1 in *. rewrite Hp1. simpl MaxPoolLayer.stride.
    unfold Int32.max_signed in *.
    rewrite !pool_out_dim in Hc2 by (unfold Int32.max_signed; lia).
    assert (5 <= (width - 5 + 1) / 2 <= 2 ^ 31 - 1).
    { split; [apply Z.div_le_lower_bound; lia
             |apply Z.div_le_upper_bound; lia]. }
    assert (5 <= (height - 5 + 1) / 2 <= 2 ^ 31 - 1).
    { split; [apply Z.div_le_lower_bound; lia
             |apply Z.div_le_upper_bound; lia]. }
    destruct (ConvBiasLayer_new_dims (ConvBiasLayer.out_channels c1) 50 5
                ((width - 5 + 1) / 2) ((height - 5 + 1) / 2) c2 ltac:(lia)
                ltac:(unfold Int32.max_signed; lia)
                ltac:(unfold Int32.max_signed; lia) Hc2)
      as (Hiw2 & Hih2 & _ & _ & How2 & Hoh2).
    rewrite Hiw2, Hih2, How2, Hoh2. repeat split.
  - intros gpuid batch_size c1 p1 c2 p2 f1 f2 Hw Hh Hs ctx. subst ctx. simpl.
    rewrite !pool_out_dim by assumption. auto.
  - apply LeNet_is_created.
Qed.

Lemma output_dimensions_witness :
  exists net,
    Main.create_network 1 28 28 = Some net /\
    ConvBiasLayer.out_width (Main.n_conv1 net) = 24 /\
    ConvBiasLayer.out_height (Main.n_conv1 net) = 24 /\
    ConvBiasLayer.in_width (Main.n_conv2 net) = 12 /\
    ConvBiasLayer.in_height (Main.n_conv2 net) = 12 /\
    ConvBiasLayer.out_width (Main.n_conv2 net) = 8 /\
    ConvBiasLayer.out_height (Main.n_conv2 net) = 8.
Proof.
  destruct output_dimensions as (_ & Hnet & _ & Hex).
  destruct (Hex 28 28) as [net Hcreate]; [lia | lia |].
  exists net. split; [exact Hcreate|].
  destruct (Hnet 1 28 28 net) as (H1 & H2 & H3 & H4 & H5 & H6);
    [unfold Int32.max_signed; lia | unfold Int32.max_signed; lia
    | exact Hcreate |].
  destruct (create_network_inv _ _ _ _ Hcreate) as (_ & Hp1 & _).
  rewrite Hp1 in H3, H4. simpl in H3, H4.
  rewrite H1 in H3. rewrite H2 in H4. rewrite H5, H6, H3, H4.
  repeat split; assumption.
Defined.

(** ** How [main] ends *)

Lemma fopen_wb_None fs path :
  fopen_wb fs path = None <-> path ∈ unwritable fs.
Proof. unfold fopen_wb. destruct (decide _); split; intros; try done. Qed.

Lemma fopen_wb_unwritable fs fs1 path :
  fopen_wb fs path = Some fs1 -> unwritable fs1 = unwritable fs.
Proof. unfold fopen_wb. destruct (decide _); [done|]. now intros [= <-]. Qed.

(** [ToFile] only ever exits with 2, exactly when one of its two files
    cannot be opened; the set of such paths is left as it is. *)
Lemma ConvBiasLayer_ToFile_outcome fileprefix l fs :
  unwritable (fst (ConvBiasLayer.ToFile fileprefix l fs)) = unwritable fs /\
  (((fileprefix +:+ ".bin") ∈ unwritable fs \/
    (fileprefix +:+ ".bias.bin") ∈ unwritable fs) /\
   snd (ConvBiasLayer.ToFile fileprefix l fs) = Exits 2 \/
   (((fileprefix +:+ ".bin") ∉ unwritable fs) /\
    ((fileprefix +:+ ".bias.bin") ∉ unwritable fs)) /\
   snd (ConvBiasLayer.ToFile fileprefix l fs) = Returns tt).
Proof.
  unfold ConvBiasLayer.ToFile.
  destruct (fopen_wb fs _) as [fs1|] eqn:E1.
  - pose proof (fopen_wb_unwritable _ _ _ E1) as U1.
    assert (N1 : (fileprefix +:+ ".bin") ∉ unwritable fs).
    { intros Hin. apply fopen_wb_None in Hin. congruence. }
    destruct (fopen_wb (fwrite _ _ _ fs1) _) as [fs2|] eqn:E2.
    + pose proof (fopen_wb_unwritable _ _ _ E2) as U2. simpl in *.
      split; [congruence|]. right. split; [|reflexivity]. split; [done|].
      intros Hin. rewrite <- U1 in Hin.
      change (unwritable fs1) with
        (unwritable (fwrite (ConvBiasLayer.pconv l)
                       (ConvBiasLayer.weight_count l)
                       (fileprefix +:+ ".bin") fs1)) in Hin.
      apply fopen_wb_None in Hin. congruence.
    + apply fopen_wb_None in E2. simpl in *.
      split; [congruence|]. left. split; [|reflexivity]. right. congruence.
  - apply fopen_wb_None in E1. simpl. split; [reflexivity|]. left. auto.
Qed.




Example exit_code_clean_run : Main.exit_code clean_run = 0.
Proof. vm_compute. reflexivity. Qed.

(** A failed copy of the trained weights ends the process with 1 before
    any weight file is opened, writable or not. *)
Example exit_code_copy_failure :
  Main.exit_code copy_failure_run = 1 /\
  Main.exit_code save_blocked_run = 2.
Proof. vm_compute. split; reflexivity. Qed.


(** ** The weight updates *)

(** The dual residuals after the local update. *)
Lemma UpdateLocalWeights_duals g lr rho s :
  let rho_alpha := Float32.mul (Float32.neg rho) (Float32.neg lr) in
  let s' := Main.call_UpdateLocalWeights g lr rho s in
  let fc1 := TrainingContext.ref_fc1 (Main.context g) in
  let fc2 := TrainingContext.ref_fc2 (Main.context g) in
  s' d_gdpconv1
  = dual_residual (ConvBiasLayer.pconv (Main.conv1 g)) rho_alpha
      (s d_pconv1) (s d_gpconv1) (s d_gdpconv1) /\
  s' d_gdpconv1bias
  = dual_residual (ConvBiasLayer.pbias (Main.conv1 g)) rho_alpha
      (s d_pconv1bias) (s d_gpconv1bias) (s d_gdpconv1bias) /\
  s' d_gdpconv2
  = dual_residual (ConvBiasLayer.pconv (Main.conv2 g)) rho_alpha
      (s d_pconv2) (s d_gpconv2) (s d_gdpconv2) /\
  s' d_gdpconv2bias
  = dual_residual (ConvBiasLayer.pbias (Main.conv2 g)) rho_alpha
      (s d_pconv2bias) (s d_gpconv2) (s d_gdpconv2bias) /\
  s' d_gdpfc1
  = saxpy (count (FullyConnectedLayer.pneurons fc1)) rho_alpha (s d_gpfc1)
      (saxpy (count (FullyConnectedLayer.pneurons fc1)) rho_alpha (s d_pfc1)
         (s d_gdpfc1)) /\
  s' d_gdpfc1bias
  = dual_residual (FullyConnectedLayer.pbias fc1) rho_alpha
      (s d_pfc1bias) (s d_gpfc1bias) (s d_gdpfc1bias) /\
  s' d_gdpfc2
  = dual_residual (FullyConnectedLayer.pneurons fc2) rho_alpha
      (s d_pfc2) (s d_gpfc2) (s d_gdpfc2) /\
  s' d_gdpfc2bias
  = dual_residual (FullyConnectedLayer.pbias fc2) rho_alpha
      (s d_pfc2bias) (s d_gpfc2bias) (s d_gdpfc2bias).
Proof.
  intros rho_alpha s' fc1 fc2. subst rho_alpha s' fc1 fc2.
  split_conj; run_update; reflexivity.
Qed.


(** The global weights are read, never written, by the local update. *)
Lemma UpdateLocalWeights_globals g lr rho s b :
  In b [d_gpconv1; d_gpconv1bias; d_gpconv2; d_gpconv2bias;
        d_gpfc1; d_gpfc1bias; d_gpfc2; d_gpfc2bias] ->
  Main.call_UpdateLocalWeights g lr rho s b = s b.
Proof.
  intros Hb. repeat (destruct Hb as [<-|Hb]; [run_update; reflexivity|]).
  destruct Hb.
Qed.

(** The global update adds [learning_rate] times the received residual
    to each global tensor. *)
Lemma UpdateGlobalWeights_adds_residuals g lr s :
  let s' := Main.call_UpdateGlobalWeights g lr s in
  let fc1 := TrainingContext.ref_fc1 (Main.context g) in
  let fc2 := TrainingContext.ref_fc2 (Main.context g) in
  s' d_gpconv1
  = saxpy (count (ConvBiasLayer.pconv (Main.conv1 g))) lr
      (s d_gdpconv1) (s d_gpconv1) /\
  s' d_gpconv1bias
  = saxpy (count (ConvBiasLayer.pbias (Main.conv1 g))) lr
      (s d_gdpconv1bias) (s d_gpconv1bias) /\
  s' d_gpconv2
  = saxpy (count (ConvBiasLayer.pconv (Main.conv2 g))) lr
      (s d_gdpconv2) (s d_gpconv2) /\
  s' d_gpconv2bias
  = saxpy (count (ConvBiasLayer.pbias (Main.conv2 g))) lr
      (s d_gdpconv2bias) (s d_gpconv2bias) /\
  s' d_gpfc1
  = saxpy (count (FullyConnectedLayer.pneurons fc1)) lr
      (s d_gdpfc1) (s d_gpfc1) /\
  s' d_gpfc1bias
  = saxpy (count (FullyConnectedLayer.pbias fc1)) lr
      (s d_gdpfc1bias) (s d_gpfc1bias) /\
  s' d_gpfc2
  = saxpy (count (FullyConnectedLayer.pneurons fc2)) lr
      (s d_gdpfc2) (s d_gpfc2) /\
  s' d_gpfc2bias
  = saxpy (count (FullyConnectedLayer.pbias fc2)) lr
      (s d_gdpfc2bias) (s d_gpfc2bias).
Proof.
  intros s' fc1 fc2. subst s' fc1 fc2.
  split_conj; run_update; reflexivity.
Qed.

(** Element by element. *)
Lemma lookup_repeat (x : float32) (n i : nat) :
  (i < n)%nat -> repeat x n !! i = Some x.
Proof.
  revert i. induction n as [|n IH]; intros i Hi; [lia|].
  destruct i as [|i]; [reflexivity|]. simpl. apply IH. lia.
Qed.

Lemma lookup_memset0 v old (i : nat) :
  (i < Z.to_nat (byte_size v / sizeof_float))%nat -> (i < length old)%nat ->
  memset0 v old !! i = Some Float32.zero.
Proof.
  intros Hn Ho. unfold memset0. apply lookup_overwrite_lt; try assumption.
  apply lookup_repeat. assumption.
Qed.

Lemma lookup_local_step v alpha grad dual local (i : nat) gi di li :
  (i < count v)%nat ->
  grad !! i = Some gi -> dual !! i = Some di -> local !! i = Some li ->
  local_step v alpha grad dual local !! i
  = Some (Float32.axpy alpha gi (Float32.axpy (Float32.of_int (-1)) di li)).
Proof.
  intros Hi Hg Hd Hl. unfold local_step.
  apply lookup_saxpy; try assumption. now apply lookup_saxpy.
Qed.

Lemma lookup_dual_residual v rho_alpha local global old (i : nat) li gi :
  (i < count v)%nat -> (i < Z.to_nat (byte_size v / sizeof_float))%nat ->
  (i < length old)%nat ->
  local !! i = Some li -> global !! i = Some gi ->
  dual_residual v rho_alpha local global old !! i
  = Some (Float32.axpy rho_alpha gi (Float32.axpy rho_alpha li Float32.zero)).
Proof.
  intros Hi Hn Ho Hl Hg. unfold dual_residual.
  apply lookup_saxpy; try assumption. apply lookup_saxpy; try assumption.
  now apply lookup_memset0.
Qed.



(** The residual buffer of the fc1 weights is the one that is not
    zeroed: started with 7 in every residual buffer, the update leaves
    50 in seven of them and [7 + 50 = 57] in that of the fc1 weights. *)
Example stale_residual_buffers :
  read dual_buffers
    (Main.call_UpdateLocalWeights tiny_setup 1056964608 1092616192
       (stale_store 1082130432))
  = [[1112014848]; [1112014848]; [1112014848]; [1112014848];
     [1113849856]; [1112014848]; [1112014848]; [1112014848]].
Proof. vm_compute. reflexivity. Qed.


(** C2, at a failing input. With penalty 0 and learning rate 0.5 on
    one-element tensors (local 8, global 2, gradient 4) plain SGD gives
    [8 - 0.5 * 4 = 6] for every tensor; the update gives 6 for six of
    them, 7 for the conv1 weights (the global weight 2 is used in place of
    the gradient) and 8 for the fc1 weights (the gradient buffer is
    zeroed before it is used). *)
Theorem rho_zero_update_misses_sgd :
  read local_buffers
    (Main.call_UpdateLocalWeights tiny_setup 1056964608 Float32.zero
       (tiny_store 1082130432))
  = [[1088421888]; [1086324736]; [1086324736]; [1086324736];
     [1090519040]; [1086324736]; [1086324736]; [1086324736]] /\
  sgd_step 1056964608 1090519040 1082130432 = 1086324736 /\
  read dual_buffers
    (Main.call_UpdateLocalWeights tiny_setup 1056964608 Float32.zero
       (tiny_store 1082130432))
  = replicate 8 [Float32.zero].
Proof. vm_compute. repeat split. Qed.

(** C5, in the code. The conv2 bias residual is built from the conv2
    bias local weights and the leading elements of the conv2 *weight*
    global tensor; the conv2 bias global tensor is not read. On
    one-element tensors with local bias 8 and penalty times learning rate
    5, changing the global conv2 weight from 2 to 3 changes the bias
    residual from 50 to 55. *)
Theorem conv2_bias_residual_reads_conv2_weights (g : Main.setup)
    (lr rho : float32) (s : store) :
  Main.call_UpdateLocalWeights g lr rho s d_gdpconv2bias
  = dual_residual (ConvBiasLayer.pbias (Main.conv2 g))
      (Float32.mul (Float32.neg rho) (Float32.neg lr))
      (s d_pconv2bias) (s d_gpconv2) (s d_gdpconv2bias) /\
  Main.call_UpdateLocalWeights tiny_setup 1056964608 1092616192
    (tiny_store 1082130432) d_gdpconv2bias = [1112014848] /\
  Main.call_UpdateLocalWeights tiny_setup 1056964608 1092616192
    (write d_gpconv2 [1077936128] (tiny_store 1082130432)) d_gdpconv2bias
  = [1113325568].
Proof.
  split; [|vm_compute; split; reflexivity].
  destruct (UpdateLocalWeights_duals g lr rho s) as (_ & _ & _ & D4 & _).
  exact D4.
Qed.

(** ** The training loop, process by process *)

Lemma for_steps_ind (P : process -> Prop) body n i p :
  P p -> (forall j q, P q -> P (body j q)) -> P (for_steps n i body p).
Proof.
  intros Hp Hbody. revert i p Hp.
  induction n as [|n IH]; intros i p Hp; simpl; auto.
Qed.

Lemma for_upto_empty lo hi body p : hi < lo -> for_upto lo hi body p = p.
Proof.
  intros H. unfold for_upto. replace (Z.to_nat (hi - lo + 1)) with O by lia.
  reflexivity.
Qed.

Lemma calls_on_mem f p : calls (on_mem f p) = calls p.
Proof. reflexivity. Qed.

Lemma calls_issue c p : calls (issue c p) = calls p ++ [c].
Proof. reflexivity. Qed.

Lemma calls_MPI_Send b o n d t p :
  exists data, calls (MPI_Send b o n d t p) = calls p ++ [Send d t data].
Proof. eexists. reflexivity. Qed.

Lemma calls_MPI_Recv w b n s t p :
  calls (MPI_Recv w b n s t p) = calls p ++ [Recv b n s t].
Proof. reflexivity. Qed.

Lemma calls_MPI_Bcast w rank b n root p :
  calls (MPI_Bcast w rank b n root p) = calls p ++ [Bcast b n root].
Proof. unfold MPI_Bcast. destruct (rank =? root); reflexivity. Qed.

Lemma calls_broadcast_global w g rank p :
  calls (Main.broadcast_global w g rank p) = calls p ++ broadcast_calls g.
Proof.
  unfold Main.broadcast_global, broadcast_calls.
  rewrite !calls_MPI_Bcast. rewrite <- !app_assoc. reflexivity.
Qed.

(** On rank 0 neither loop over the workers runs its body. *)
Lemma fan_out_rank0 w g p : Main.fan_out w g 0 p = p.
Proof. unfold Main.fan_out. apply for_upto_empty. lia. Qed.

Lemma collect_rank0 w g lr p : Main.collect w g lr 0 p = p.
Proof. unfold Main.collect. apply for_upto_empty. lia. Qed.

Lemma iteration_rank0_calls w g iter p :
  calls (Main.iteration w g 0 iter p) = calls p ++ broadcast_calls g.
Proof.
  unfold Main.iteration. rewrite fan_out_rank0, collect_rank0.
  change (negb (0 =? 0)) with false. change (0 =? 0) with true.
  cbv beta iota zeta. rewrite calls_broadcast_global, calls_on_mem.
  reflexivity.
Qed.

Lemma for_steps_calls_rank0 w g n i p :
  calls (for_steps n i (Main.iteration w g 0) p)
  = calls p ++ concat (replicate n (broadcast_calls g)).
Proof.
  revert i p. induction n as [|n IH]; intros i p.
  - simpl. now rewrite app_nil_r.
  - cbn [for_steps replicate concat]. rewrite IH, iteration_rank0_calls.
    now rewrite <- app_assoc.
Qed.

Lemma training_loop_rank0_calls w g p :
  calls (Main.training_loop w g 0 p)
  = calls p
    ++ concat (replicate (Z.to_nat (Main.FLAGS_iterations g))
                 (broadcast_calls g)).
Proof.
  unfold Main.training_loop, for_upto. rewrite for_steps_calls_rank0.
  do 3 f_equal. lia.
Qed.

Lemma send_headers_app cs cs' :
  send_headers (cs ++ cs') = send_headers cs ++ send_headers cs'.
Proof. unfold send_headers. apply flat_map_app. Qed.

Lemma send_headers_broadcasts g n :
  send_headers (concat (replicate n (broadcast_calls g))) = [].
Proof.
  induction n as [|n IH]; [reflexivity|].
  cbn [replicate concat]. rewrite send_headers_app, IH. reflexivity.
Qed.

Lemma filter_broadcasts (P : call -> bool) g n :
  (forall b c r, P (Bcast b c r) = false) ->
  List.filter P (concat (replicate n (broadcast_calls g))) = [].
Proof.
  intros HP. induction n as [|n IH]; [reflexivity|].
  cbn [replicate concat]. rewrite List.filter_app, IH.
  unfold broadcast_calls. cbn [List.filter]. rewrite !HP. reflexivity.
Qed.

(** A worker's side of the two loops. *)

Lemma protocol_app cs cs' : protocol (cs ++ cs') = protocol cs ++ protocol cs'.
Proof. apply map_app. Qed.

Lemma fan_out_body_worker w g rank i p :
  rank <> 0 ->
  calls (Main.fan_out_body w g rank i p)
  = calls p ++ (if rank =? i then batch_recvs g else []).
Proof.
  intros Hr. unfold Main.fan_out_body, rand.
  destruct (Z.eqb_spec rank 0) as [|_]; [contradiction|].
  destruct (rank =? i).
  - rewrite !calls_MPI_Recv. cbn [calls]. now rewrite <- app_assoc.
  - cbn [calls]. now rewrite app_nil_r.
Qed.

Lemma for_steps_fan_out w g rank n i p :
  rank <> 0 ->
  calls (for_steps n i (Main.fan_out_body w g rank) p)
  = calls p
    ++ (if (i <=? rank) && (rank <? i + Z.of_nat n) then batch_recvs g
        else []).
Proof.
  intros Hr. revert i p. induction n as [|n IH]; intros i p.
  - cbn [for_steps].
    replace ((i <=? rank) && (rank <? i + Z.of_nat 0)) with false
      by range_b.
    now rewrite app_nil_r.
  - cbn [for_steps]. rewrite IH, fan_out_body_worker by assumption.
    rewrite <- app_assoc. f_equal.
    destruct (Z.eqb_spec rank i) as [->|Hne].
    + replace ((i + 1 <=? i) && (i <? i + 1 + Z.of_nat n)) with false
        by range_b.
      replace ((i <=? i) && (i <? i + Z.of_nat (S n))) with true
        by range_b.
      now rewrite app_nil_r.
    + cbn [app].
      replace ((i <=? rank) && (rank <? i + Z.of_nat (S n)))
        with ((i + 1 <=? rank) && (rank <? i + 1 + Z.of_nat n)).
      * reflexivity.
      * range_b.
Qed.

Lemma fan_out_worker_calls w g rank p :
  1 <= rank -> calls (Main.fan_out w g rank p) = calls p ++ batch_recvs g.
Proof.
  intros Hr. unfold Main.fan_out, for_upto.
  rewrite for_steps_fan_out by lia.
  replace ((1 <=? rank) && (rank <? 1 + Z.of_nat (Z.to_nat (rank - 1 + 1))))
    with true by range_b.
  reflexivity.
Qed.

Lemma protocol_send_residuals g p :
  protocol (calls (Main.send_residuals g p))
  = protocol (calls p) ++ residual_sends.
Proof.
  unfold Main.send_residuals, MPI_Send. rewrite !calls_issue.
  rewrite !protocol_app. rewrite <- !app_assoc. reflexivity.
Qed.

Lemma collect_body_worker w g lr rank i p :
  rank <> 0 ->
  protocol (calls (Main.collect_body w g lr rank i p))
  = protocol (calls p) ++ (if rank =? i then residual_sends else []).
Proof.
  intros Hr. unfold Main.collect_body.
  destruct (Z.eqb_spec rank 0) as [|_]; [contradiction|].
  destruct (rank =? i).
  - apply protocol_send_residuals.
  - now rewrite app_nil_r.
Qed.

Lemma for_steps_collect w g lr rank n i p :
  rank <> 0 ->
  protocol (calls (for_steps n i (Main.collect_body w g lr rank) p))
  = protocol (calls p)
    ++ (if (i <=? rank) && (rank <? i + Z.of_nat n) then residual_sends
        else []).
Proof.
  intros Hr. revert i p. induction n as [|n IH]; intros i p.
  - cbn [for_steps].
    replace ((i <=? rank) && (rank <? i + Z.of_nat 0)) with false
      by range_b.
    now rewrite app_nil_r.
  - cbn [for_steps]. rewrite IH, collect_body_worker by assumption.
    rewrite <- app_assoc. f_equal.
    destruct (Z.eqb_spec rank i) as [->|Hne].
    + replace ((i + 1 <=? i) && (i <? i + 1 + Z.of_nat n)) with false
        by range_b.
      replace ((i <=? i) && (i <? i + Z.of_nat (S n))) with true
        by range_b.
      now rewrite app_nil_r.
    + cbn [app].
      replace ((i <=? rank) && (rank <? i + Z.of_nat (S n)))
        with ((i + 1 <=? rank) && (rank <? i + 1 + Z.of_nat n)).
      * reflexivity.
      * range_b.
Qed.

Lemma collect_worker_calls w g lr rank p :
  1 <= rank ->
  protocol (calls (Main.collect w g lr rank p))
  = protocol (calls p) ++ residual_sends.
Proof.
  intros Hr. unfold Main.collect, for_upto.
  rewrite for_steps_collect by lia.
  replace ((1 <=? rank) && (rank <? 1 + Z.of_nat (Z.to_nat (rank - 1 + 1))))
    with true by range_b.
  reflexivity.
Qed.

(** One iteration of a worker, call by call. *)
Lemma iteration_worker_calls w g rank iter p :
  1 <= rank ->
  protocol (calls (Main.iteration w g rank iter p))
  = protocol (calls p) ++ worker_iteration_calls w g iter.
Proof.
  intros Hr. unfold Main.iteration.
  destruct (Z.eqb_spec rank 0) as [|_]; [lia|]. cbv beta iota zeta.
  cbn [negb]. rewrite collect_worker_calls by assumption.
  unfold Main.update_local. rewrite calls_on_mem, calls_on_mem, calls_issue.
  rewrite calls_on_mem, calls_broadcast_global, calls_on_mem.
  rewrite fan_out_worker_calls by assumption.
  rewrite !protocol_app. unfold worker_iteration_calls.
  rewrite <- !app_assoc. reflexivity.
Qed.

Lemma iterations_from i n :
  map (fun k => i + Z.of_nat k) (seq 0 (S n))
  = i :: map (fun k => (i + 1) + Z.of_nat k) (seq 0 n).
Proof.
  cbn [seq map]. f_equal; [lia|].
  rewrite <- seq_shift, map_map. apply map_ext. intros k. lia.
Qed.

Lemma for_steps_worker_calls w g rank n i p :
  1 <= rank ->
  protocol (calls (for_steps n i (Main.iteration w g rank) p))
  = protocol (calls p)
    ++ flat_map (worker_iteration_calls w g)
         (map (fun k => i + Z.of_nat k) (seq 0 n)).
Proof.
  intros Hr. revert i p. induction n as [|n IH]; intros i p.
  - cbn. now rewrite app_nil_r.
  - rewrite iterations_from. cbn [for_steps flat_map].
    rewrite IH, iteration_worker_calls by assumption.
    now rewrite <- app_assoc.
Qed.

(** The whole training loop of a worker, call by call. *)
Lemma training_loop_worker_calls w g rank p :
  1 <= rank ->
  protocol (calls (Main.training_loop w g rank p))
  = protocol (calls p)
    ++ flat_map (worker_iteration_calls w g)
         (iterations (Main.FLAGS_iterations g)).
Proof.
  intros Hr. unfold Main.training_loop, for_upto.
  rewrite for_steps_worker_calls by assumption. unfold iterations.
  replace (Main.FLAGS_iterations g - 1 - 0 + 1) with (Main.FLAGS_iterations g)
    by lia.
  reflexivity.
Qed.

Lemma local_updates_app cs cs' :
  local_updates (cs ++ cs') = local_updates cs ++ local_updates cs'.
Proof. unfold local_updates. apply flat_map_app. Qed.

Lemma local_updates_protocol cs : local_updates (protocol cs) = local_updates cs.
Proof.
  induction cs as [|c cs IH]; [reflexivity|].
  unfold local_updates, protocol in *. cbn [map flat_map]. rewrite IH.
  now destruct c.
Qed.

Lemma local_updates_schedule w g l :
  local_updates (flat_map (worker_iteration_calls w g) l)
  = map (fun iter => (Main.learningRate w g iter, Float32.of_int 10)) l.
Proof.
  induction l as [|iter l IH]; [reflexivity|].
  cbn [flat_map map]. rewrite local_updates_app, IH. reflexivity.
Qed.

(** C9. On a worker, the local updates of the training loop are made, in
    order, with the learning rates
    [float(base_rate * pow(1 + gamma * iter, - power))] for
    [iter = 0, 1, ..., iterations - 1] (and penalty 10): the rate of an
    iteration is a function of the three configuration values and the
    iteration index alone, whatever the process has computed or received
    before. *)
Theorem learning_rate_schedule (w : World) (g : Main.setup) (rank : Z)
    (p : process) :
  1 <= rank ->
  local_updates (calls (Main.training_loop w g rank p))
  = local_updates (calls p)
    ++ map (fun iter =>
              (Float64.to_float
                 (Float64.mul (Main.FLAGS_learning_rate g)
                    (pow w
                       (Float64.add (Float64.of_int 1)
                          (Float64.mul (Main.FLAGS_lr_gamma g)
                             (Float64.of_int iter)))
                       (Float64.neg (Main.FLAGS_lr_power g)))),
               Float32.of_int 10))
         (iterations (Main.FLAGS_iterations g)).
Proof.
  intros Hr.
  rewrite <- (local_updates_protocol (calls (Main.training_loop w g rank p))).
  rewrite training_loop_worker_calls by assumption.
  rewrite local_updates_app, local_updates_protocol, local_updates_schedule.
  reflexivity.
Qed.

(** Worker 1 of the example run updates with 1.0f, then with 0.5f. *)
Lemma learning_rate_schedule_witness :
  local_updates (calls (Main.training_loop example_world example_setup 1
                          fresh_process))
  = [(1065353216, 1092616192); (1056964608, 1092616192)].
Proof.
  rewrite (learning_rate_schedule example_world example_setup 1 fresh_process)
    by lia.
  vm_compute. reflexivity.
Defined.

(** C1, at ranks 0 and 1. Whatever the number of workers, the
    coordinator issues no send at all during the whole training loop: its
    fan-out loop runs from 1 to its own rank, 0. Worker 1 all the same
    posts, in its fan-out, the two receives of its batch from rank 0. No
    worker is sent a batch. *)
Theorem coordinator_sends_no_batch (w : World) (g : Main.setup)
    (p : process) :
  Main.fan_out w g 0 p = p /\
  send_headers (calls (Main.training_loop w g 0 p)) = send_headers (calls p) /\
  calls (Main.fan_out w g 1 p) = calls p ++ batch_recvs g.
Proof.
  split; [apply fan_out_rank0|]. split.
  - rewrite training_loop_rank0_calls, send_headers_app.
    rewrite send_headers_broadcasts. apply app_nil_r.
  - apply fan_out_worker_calls. lia.
Qed.

(** C4, at ranks 0 and 1. The coordinator's collection loop also runs
    from 1 to 0: during the whole training loop it posts no receive and
    makes no global update, while worker 1 sends its eight residual
    tensors to rank 0, one tag per tensor. ([UpdateGlobalWeights] itself,
    were it called, adds [learning_rate] times the residual buffer to each
    global tensor.) *)
Theorem coordinator_collects_no_residual (w : World) (g : Main.setup)
    (lr : float32) (p : process) :
  Main.collect w g lr 0 p = p /\
  List.filter (fun c => is_recv c || is_global_update c)
    (calls (Main.training_loop w g 0 p))
  = List.filter (fun c => is_recv c || is_global_update c) (calls p) /\
  protocol (calls (Main.collect w g lr 1 p))
  = protocol (calls p) ++ residual_sends /\
  Main.call_UpdateGlobalWeights g lr (mem p) d_gpconv1
  = saxpy (count (ConvBiasLayer.pconv (Main.conv1 g))) lr
      (mem p d_gdpconv1) (mem p d_gpconv1).
Proof.
  split; [apply collect_rank0|]. split; [|split].
  - rewrite training_loop_rank0_calls, List.filter_app.
    rewrite filter_broadcasts by reflexivity. apply app_nil_r.
  - apply collect_worker_calls. lia.
  - destruct (UpdateGlobalWeights_adds_residuals g lr (mem p)) as (G1 & _).
    exact G1.
Qed.

(** ** Further properties of the update and of the protocol *)

(** X1. [UpdateGlobalWeights], as [main] calls it, adds [learning_rate]
    times the received residual to each of the eight global tensors, over
    the tensor's size. *)
Theorem global_update_adds_scaled_residuals (g : Main.setup) (lr : float32)
    (s : store) :
  let s' := Main.call_UpdateGlobalWeights g lr s in
  let fc1 := TrainingContext.ref_fc1 (Main.context g) in
  let fc2 := TrainingContext.ref_fc2 (Main.context g) in
  s' d_gpconv1
  = saxpy (count (ConvBiasLayer.pconv (Main.conv1 g))) lr
      (s d_gdpconv1) (s d_gpconv1) /\
  s' d_gpconv1bias
  = saxpy (count (ConvBiasLayer.pbias (Main.conv1 g))) lr
      (s d_gdpconv1bias) (s d_gpconv1bias) /\
  s' d_gpconv2
  = saxpy (count (ConvBiasLayer.pconv (Main.conv2 g))) lr
      (s d_gdpconv2) (s d_gpconv2) /\
  s' d_gpconv2bias
  = saxpy (count (ConvBiasLayer.pbias (Main.conv2 g))) lr
      (s d_gdpconv2bias) (s d_gpconv2bias) /\
  s' d_gpfc1
  = saxpy (count (FullyConnectedLayer.pneurons fc1)) lr
      (s d_gdpfc1) (s d_gpfc1) /\
  s' d_gpfc1bias
  = saxpy (count (FullyConnectedLayer.pbias fc1)) lr
      (s d_gdpfc1bias) (s d_gpfc1bias) /\
  s' d_gpfc2
  = saxpy (count (FullyConnectedLayer.pneurons fc2)) lr
      (s d_gdpfc2) (s d_gpfc2) /\
  s' d_gpfc2bias
  = saxpy (count (FullyConnectedLayer.pbias fc2)) lr
      (s d_gdpfc2bias) (s d_gpfc2bias).
Proof. exact (UpdateGlobalWeights_adds_residuals g lr s). Qed.

(** X2. One iteration of a worker (rank 1 or more) issues, in this order:
    the two receives of its batch from rank 0 (images, then labels), the
    eight broadcasts of the global weights rooted at rank 0, the local
    update with the learning rate of the iteration and penalty 10, and
    the eight sends of its residuals to rank 0, one tag per tensor. *)
Theorem worker_iteration_protocol (w : World) (g : Main.setup)
    (rank iter : Z) (p : process) :
  1 <= rank ->
  protocol (calls (Main.iteration w g rank iter p))
  = protocol (calls p)
    ++ batch_recvs g ++ broadcast_calls g
    ++ [LocalUpdate (Main.learningRate w g iter) (Float32.of_int 10)]
    ++ residual_sends.
Proof. intros Hr. now apply iteration_worker_calls. Qed.

Lemma worker_iteration_protocol_witness :
  protocol (calls (Main.iteration example_world example_setup 1 0
                     fresh_process))
  = [Recv train_images_mBatch_float 9 0 0;
     Recv train_labels_mBatch_float 1 0 1;
     Bcast h_gpconv1 2 0; Bcast h_gpconv1bias 2 0;
     Bcast h_gpconv2 2 0; Bcast h_gpconv2bias 2 0;
     Bcast h_gpfc1 2 0; Bcast h_gpfc1bias 1 0;
     Bcast h_gpfc2 2 0; Bcast h_gpfc2bias 1 0;
     LocalUpdate 1065353216 1092616192;
     Send 0 14 []; Send 0 15 []; Send 0 16 []; Send 0 17 [];
     Send 0 18 []; Send 0 19 []; Send 0 20 []; Send 0 21 []].
Proof.
  rewrite (worker_iteration_protocol example_world example_setup 1 0
             fresh_process) by lia.
  vm_compute. reflexivity.
Defined.

(** X3. The local update reads the global weights and never writes
    them: the eight global-weight buffers are the same after it. *)
Theorem local_update_keeps_global_weights (g : Main.setup)
    (lr rho : float32) (s : store) :
  map (Main.call_UpdateLocalWeights g lr rho s)
    [d_gpconv1; d_gpconv1bias; d_gpconv2; d_gpconv2bias;
     d_gpfc1; d_gpfc1bias; d_gpfc2; d_gpfc2bias]
  = map s
      [d_gpconv1; d_gpconv1bias; d_gpconv2; d_gpconv2bias;
       d_gpfc1; d_gpfc1bias; d_gpfc2; d_gpfc2bias].
Proof.
  cbn [map].
  rewrite !(UpdateLocalWeights_globals g lr rho s) by (simpl; tauto).
  reflexivity.
Qed.

(** X4. [ToFile] of a convolution layer either returns, exactly when both
    of its files can be opened for writing, or ends the process with exit
    code 2; it never changes which paths can be opened. *)
Theorem ToFile_returns_or_exits_2 (fileprefix : string)
    (l : ConvBiasLayer.t) (fs : FS) :
  unwritable (fst (ConvBiasLayer.ToFile fileprefix l fs)) = unwritable fs /\
  (((fileprefix +:+ ".bin") ∈ unwritable fs \/
    (fileprefix +:+ ".bias.bin") ∈ unwritable fs) /\
   snd (ConvBiasLayer.ToFile fileprefix l fs) = Exits 2 \/
   (((fileprefix +:+ ".bin") ∉ unwritable fs) /\
    ((fileprefix +:+ ".bias.bin") ∉ unwritable fs)) /\
   snd (ConvBiasLayer.ToFile fileprefix l fs) = Returns tt).
Proof. exact (ConvBiasLayer_ToFile_outcome fileprefix l fs). Qed.

(** X5. Every layer a constructor returns has vectors of the sizes the
    file functions count with, although the constructor and the file
    functions multiply the dimensions in different orders. *)
Theorem constructed_layers_are_shaped :
  (forall ic oc k in_w in_h l,
     oc <= Int32.max_signed ->
     ConvBiasLayer.new ic oc k in_w in_h = Some l -> ConvBiasLayer.shaped l) /\
  (forall inputs outputs l,
     outputs <= Int32.max_signed ->
     FullyConnectedLayer.new inputs outputs = Some l ->
     FullyConnectedLayer.shaped l).
Proof.
  split.
  - intros ic oc k in_w in_h l. apply ConvBiasLayer_new_shaped.
  - intros inputs outputs l. apply FullyConnectedLayer_new_shaped.
Qed.

Lemma constructed_layers_are_shaped_witness :
  exists l, ConvBiasLayer.new 1 20 5 28 28 = Some l /\ ConvBiasLayer.shaped l.
Proof.
  eexists. split; [vm_compute; reflexivity|].
  apply (proj1 constructed_layers_are_shaped 1 20 5 28 28);
    [unfold Int32.max_signed; lia | vm_compute; reflexivity].
Defined.

(** ** Saving and loading the whole network *)

(** [ToFile] changes no file but its own two, however it ends. *)
Lemma ConvBiasLayer_ToFile_other fileprefix l fs path :
  path <> fileprefix +:+ ".bin" -> path <> fileprefix +:+ ".bias.bin" ->
  files (fst (ConvBiasLayer.ToFile fileprefix l fs)) !! path
  = files fs !! path.
Proof.
  intros H1 H2. unfold ConvBiasLayer.ToFile.
  destruct (fopen_wb fs _) as [fs1|] eqn:E1; [|reflexivity].
  destruct (fopen_wb (fwrite _ _ _ fs1) _) as [fs2|] eqn:E2; cbn [fst].
  - rewrite fwrite_other by congruence.
    rewrite (fopen_wb_other _ _ _ _ E2) by congruence.
    rewrite fwrite_other by congruence.
    apply (fopen_wb_other _ _ _ _ E1). congruence.
  - rewrite fwrite_other by congruence.
    apply (fopen_wb_other _ _ _ _ E1). congruence.
Qed.

Lemma FullyConnectedLayer_ToFile_other fileprefix l fs path :
  path <> fileprefix +:+ ".bin" -> path <> fileprefix +:+ ".bias.bin" ->
  files (fst (FullyConnectedLayer.ToFile fileprefix l fs)) !! path
  = files fs !! path.
Proof.
  intros H1 H2. unfold FullyConnectedLayer.ToFile.
  destruct (fopen_wb fs _) as [fs1|] eqn:E1; [|reflexivity].
  destruct (fopen_wb (fwrite _ _ _ fs1) _) as [fs2|] eqn:E2; cbn [fst].
  - rewrite fwrite_other by congruence.
    rewrite (fopen_wb_other _ _ _ _ E2) by congruence.
    rewrite fwrite_other by congruence.
    apply (fopen_wb_other _ _ _ _ E1). congruence.
  - rewrite fwrite_other by congruence.
    apply (fopen_wb_other _ _ _ _ E1). congruence.
Qed.

(** [FromFile] looks at its two files only. *)
Lemma ConvBiasLayer_FromFile_ext fileprefix fs1 fs2 l :
  files fs1 !! (fileprefix +:+ ".bin") = files fs2 !! (fileprefix +:+ ".bin") ->
  files fs1 !! (fileprefix +:+ ".bias.bin")
  = files fs2 !! (fileprefix +:+ ".bias.bin") ->
  ConvBiasLayer.FromFile fileprefix fs1 l
  = ConvBiasLayer.FromFile fileprefix fs2 l.
Proof.
  intros H1 H2. unfold ConvBiasLayer.FromFile, fopen_rb.
  now rewrite H1, H2.
Qed.

Lemma FullyConnectedLayer_FromFile_ext fileprefix fs1 fs2 l :
  files fs1 !! (fileprefix +:+ ".bin") = files fs2 !! (fileprefix +:+ ".bin") ->
  files fs1 !! (fileprefix +:+ ".bias.bin")
  = files fs2 !! (fileprefix +:+ ".bias.bin") ->
  FullyConnectedLayer.FromFile fileprefix fs1 l
  = FullyConnectedLayer.FromFile fileprefix fs2 l.
Proof.
  intros H1 H2. unfold FullyConnectedLayer.FromFile, fopen_rb.
  now rewrite H1, H2.
Qed.

(** The four saves of [main], one after the other. *)
Lemma save_data_returns e fs' :
  Main.save_data e = (fs', Returns tt) ->
  exists fs1 fs2 fs3,
    ConvBiasLayer.ToFile "conv1" (Main.n_conv1 (Main.trained e)) (Main.disk e)
    = (fs1, Returns tt) /\
    ConvBiasLayer.ToFile "conv2" (Main.n_conv2 (Main.trained e)) fs1
    = (fs2, Returns tt) /\
    FullyConnectedLayer.ToFile "ip1" (Main.n_fc1 (Main.trained e)) fs2
    = (fs3, Returns tt) /\
    FullyConnectedLayer.ToFile "ip2" (Main.n_fc2 (Main.trained e)) fs3
    = (fs', Returns tt).
Proof.
  unfold Main.save_data.
  destruct (ConvBiasLayer.ToFile "conv1" _ _) as [fs1 [[]|c1]] eqn:T1;
    [|discriminate].
  destruct (ConvBiasLayer.ToFile "conv2" _ _) as [fs2 [[]|c2]] eqn:T2;
    [|discriminate].
  destruct (FullyConnectedLayer.ToFile "ip1" _ _) as [fs3 [[]|c3]] eqn:T3;
    [|discriminate].
  intros T4. exists fs1, fs2, fs3. auto.
Qed.

(** X6. A run started with [FLAGS_pretrained] on the files a previous run
    saved starts from the saved network: when the four [ToFile] calls of
    [main] returned (all eight files could be opened), the pretrained
    start of a network of the same architecture ends with the eight
    parameter vectors equal to the saved ones, and nothing is drawn from
    the random generator. *)
Theorem pretrained_start_restores_saved_network (G : Type)
    (uniform : float32 -> G -> float32 * G) (gen : G)
    (e : Main.inputs) (fs' : FS) (n0 : Main.network) :
  network_shaped (Main.trained e) -> network_wf (Main.trained e) ->
  same_architecture n0 (Main.trained e) ->
  Main.save_data e = (fs', Returns tt) ->
  parameters (Startup.initial_network G uniform true fs' gen n0)
  = parameters (Main.trained e) /\
  Startup.initial_network G uniform true fs' gen n0
  = snd (Startup.load_pretrained fs' n0).
Proof.
  intros (S1 & S2 & S3 & S4) Hwf [Hcounts Hlens] Hsave.
  unfold network_wf, parameters in Hwf.
  repeat match goal with
         | H : Forall _ (_ :: _) |- _ => apply Forall_cons_1 in H as [? H]
         end.
  injection Hcounts as C1 C2 C3 C4 C5 C6 C7 C8.
  injection Hlens as L1 L2 L3 L4 L5 L6 L7 L8.
  destruct (save_data_returns e fs' Hsave)
    as (fs1 & fs2 & fs3 & T1 & T2 & T3 & T4).
  destruct (ConvBiasLayer_round_trip "conv1" _ _ _ (Main.n_conv1 n0) S1
              ltac:(assumption) ltac:(assumption) T1 C1 C2 L1 L2)
    as (c1 & F1 & Pc1 & Pb1).
  destruct (ConvBiasLayer_round_trip "conv2" _ _ _ (Main.n_conv2 n0) S2
              ltac:(assumption) ltac:(assumption) T2 C3 C4 L3 L4)
    as (c2 & F2 & Pc2 & Pb2).
  destruct (FullyConnectedLayer_round_trip "ip1" _ _ _ (Main.n_fc1 n0) S3
              ltac:(assumption) ltac:(assumption) T3 C5 C6 L5 L6)
    as (f1 & F3 & Pf1 & Pg1).
  destruct (FullyConnectedLayer_round_trip "ip2" _ _ _ (Main.n_fc2 n0) S4
              ltac:(assumption) ltac:(assumption) T4 C7 C8 L7 L8)
    as (f2 & F4 & Pf2 & Pg2).
  assert (E4 : fs' = fst (FullyConnectedLayer.ToFile "ip2"
                            (Main.n_fc2 (Main.trained e)) fs3))
    by now rewrite T4.
  assert (E3 : fs3 = fst (FullyConnectedLayer.ToFile "ip1"
                            (Main.n_fc1 (Main.trained e)) fs2))
    by now rewrite T3.
  assert (E2 : fs2 = fst (ConvBiasLayer.ToFile "conv2"
                            (Main.n_conv2 (Main.trained e)) fs1))
    by now rewrite T2.
  assert (F1' : ConvBiasLayer.FromFile "conv1" fs' (Main.n_conv1 n0)
                = (true, c1)).
  { rewrite <- F1. apply ConvBiasLayer_FromFile_ext.
    - rewrite E4, FullyConnectedLayer_ToFile_other by names_differ.
      rewrite E3, FullyConnectedLayer_ToFile_other by names_differ.
      rewrite E2. apply ConvBiasLayer_ToFile_other; names_differ.
    - rewrite E4, FullyConnectedLayer_ToFile_other by names_differ.
      rewrite E3, FullyConnectedLayer_ToFile_other by names_differ.
      rewrite E2. apply ConvBiasLayer_ToFile_other; names_differ. }
  assert (F2' : ConvBiasLayer.FromFile "conv2" fs' (Main.n_conv2 n0)
                = (true, c2)).
  { rewrite <- F2. apply ConvBiasLayer_FromFile_ext.
    - rewrite E4, FullyConnectedLayer_ToFile_other by names_differ.
      rewrite E3. apply FullyConnectedLayer_ToFile_other; names_differ.
    - rewrite E4, FullyConnectedLayer_ToFile_other by names_differ.
      rewrite E3. apply FullyConnectedLayer_ToFile_other; names_differ. }
  assert (F3' : FullyConnectedLayer.FromFile "ip1" fs' (Main.n_fc1 n0)
                = (true, f1)).
  { rewrite <- F3. apply FullyConnectedLayer_FromFile_ext.
    - rewrite E4. apply FullyConnectedLayer_ToFile_other; names_differ.
    - rewrite E4. apply FullyConnectedLayer_ToFile_other; names_differ. }
  unfold Startup.initial_network, Startup.load_pretrained.
  rewrite F1', F2', F3', F4. cbn [andb negb orb snd].
  split; [|reflexivity].
  unfold parameters. cbn [Main.n_conv1 Main.n_conv2 Main.n_fc1 Main.n_fc2].
  congruence.
Qed.

Lemma pretrained_start_restores_saved_network_witness :
  parameters (Startup.initial_network Z counting_uniform true
                (fst (Main.save_data saving_run)) 0 blank_network)
  = parameters example_network.
Proof.
  apply (pretrained_start_restores_saved_network Z counting_uniform 0
           saving_run (fst (Main.save_data saving_run)) blank_network).
  - vm_compute. repeat split; congruence.
  - repeat constructor; vm_compute; congruence.
  - split; reflexivity.
  - vm_compute. reflexivity.
Defined.

(** ** A load that fails *)

Lemma randomize_lengths_only (G : Type)
    (uniform : float32 -> G -> float32 * G) (w : float32) :
  forall (v1 v2 : list float32) (gen : G),
    length v1 = length v2 ->
    Startup.randomize G uniform w v1 gen = Startup.randomize G uniform w v2 gen.
Proof.
  induction v1 as [|x v1 IH]; intros [|y v2] gen Hl; try discriminate.
  - reflexivity.
  - simpl. destruct (uniform w gen) as [z gen'].
    rewrite (IH v2 gen') by (simpl in Hl; lia). reflexivity.
Qed.

Lemma ConvBiasLayer_FromFile_frame fileprefix fs l :
  conv_frame (snd (ConvBiasLayer.FromFile fileprefix fs l)) = conv_frame l.
Proof.
  unfold ConvBiasLayer.FromFile.
  destruct (fopen_rb fs _) as [fp|]; [|reflexivity].
  destruct (fopen_rb fs _) as [fp'|]; unfold conv_frame; simpl;
    now rewrite ?length_fread.
Qed.

Lemma FullyConnectedLayer_FromFile_frame fileprefix fs l :
  fc_frame (snd (FullyConnectedLayer.FromFile fileprefix fs l)) = fc_frame l.
Proof.
  unfold FullyConnectedLayer.FromFile.
  destruct (fopen_rb fs _) as [fp|]; [|reflexivity].
  destruct (fopen_rb fs _) as [fp'|]; unfold fc_frame; simpl;
    now rewrite ?length_fread.
Qed.

(** The random network depends on the geometry and the vector sizes of
    the network it replaces, not on what the vectors hold. *)
Lemma randomize_network_frame (G : Type)
    (uniform : float32 -> G -> float32 * G) (n1 n2 : Main.network) (gen : G) :
  conv_frame (Main.n_conv1 n1) = conv_frame (Main.n_conv1 n2) ->
  conv_frame (Main.n_conv2 n1) = conv_frame (Main.n_conv2 n2) ->
  fc_frame (Main.n_fc1 n1) = fc_frame (Main.n_fc1 n2) ->
  fc_frame (Main.n_fc2 n1) = fc_frame (Main.n_fc2 n2) ->
  Main.n_pool1 n1 = Main.n_pool1 n2 -> Main.n_pool2 n1 = Main.n_pool2 n2 ->
  Startup.randomize_network G uniform n1 gen
  = Startup.randomize_network G uniform n2 gen.
Proof.
  destruct n1 as [[] p1 [] p2 [] []], n2 as [[] q1 [] q2 [] []].
  unfold conv_frame, fc_frame. simpl.
  intros [= -> -> -> -> -> -> -> L1 L2] [= -> -> -> -> -> -> -> L3 L4]
    [= -> -> L5 L6] [= -> -> L7 L8] -> ->.
  unfold Startup.randomize_network. simpl.
  repeat match goal with
  | |- context [Startup.randomize G uniform ?w ?v ?g] =>
      match goal with
      | L : length v = length ?v' |- _ =>
          rewrite (randomize_lengths_only G uniform w v v' g L); clear L;
          destruct (Startup.randomize G uniform w v' g)
      end
  end.
  reflexivity.
Qed.

(** X7. A pretrained start that fails on any of the four layers is
    discarded as a whole: the network the run starts from is the random
    network a run without [FLAGS_pretrained] draws from the same
    generator, whatever the files that could be read had put into the
    layers. *)
Theorem failed_pretrained_load_is_discarded (G : Type)
    (uniform : float32 -> G -> float32 * G) (gen : G) (fs : FS)
    (n : Main.network) :
  fst (Startup.load_pretrained fs n) = false ->
  Startup.initial_network G uniform true fs gen n
  = Startup.initial_network G uniform false fs gen n.
Proof.
  intros Hfail. unfold Startup.initial_network.
  destruct (Startup.load_pretrained fs n) as [bRet n'] eqn:E.
  simpl in Hfail. subst bRet. cbn [negb orb].
  apply randomize_network_frame;
    revert E; unfold Startup.load_pretrained;
    pose proof (ConvBiasLayer_FromFile_frame "conv1" fs (Main.n_conv1 n));
    pose proof (ConvBiasLayer_FromFile_frame "conv2" fs (Main.n_conv2 n));
    pose proof (FullyConnectedLayer_FromFile_frame "ip1" fs (Main.n_fc1 n));
    pose proof (FullyConnectedLayer_FromFile_frame "ip2" fs (Main.n_fc2 n));
    destruct (ConvBiasLayer.FromFile "conv1" _ _);
    destruct (ConvBiasLayer.FromFile "conv2" _ _);
    destruct (FullyConnectedLayer.FromFile "ip1" _ _);
    destruct (FullyConnectedLayer.FromFile "ip2" _ _);
    intros [= _ <-]; simpl in *; congruence.
Qed.

Lemma failed_pretrained_load_is_discarded_witness :
  parameters (Startup.initial_network Z counting_uniform true
                weights_only_disk 0 example_network)
  = [[0; 1]; [2; 3]; [4; 5]; [6; 7]; [8; 9]; [10]; [11; 12]; [13]].
Proof.
  rewrite (failed_pretrained_load_is_discarded Z counting_uniform 0
             weights_only_disk example_network).
  - vm_compute. reflexivity.
  - vm_compute. reflexivity.
Defined.

(** ** Files of the wrong size, files that cannot be written *)

(** X8. [FromFile] does not look at how much [fread] has read: as soon
    as both files can be opened it returns [true], for both layer kinds,
    whatever the sizes of the files. The vectors keep their sizes, every
    element a file holds all four bytes of is the file's (within the
    count asked for), and every element a file holds no byte of keeps the
    value it had before the call. (An element the file ends in the middle
    of gets the bytes read and keeps its other bytes, as the example
    shows.) *)
Theorem FromFile_accepts_short_files (fileprefix : string) (fs : FS)
    (weights bias : list Z) :
  files fs !! (fileprefix +:+ ".bin") = Some weights ->
  files fs !! (fileprefix +:+ ".bias.bin") = Some bias ->
  (forall l : ConvBiasLayer.t,
     exists l',
       ConvBiasLayer.FromFile fileprefix fs l = (true, l') /\
       ConvBiasLayer.pconv l'
       = fread (ConvBiasLayer.pconv l) (ConvBiasLayer.weight_count l) weights /\
       ConvBiasLayer.pbias l'
       = fread (ConvBiasLayer.pbias l) (ConvBiasLayer.out_channels l) bias /\
       length (ConvBiasLayer.pconv l') = length (ConvBiasLayer.pconv l) /\
       length (ConvBiasLayer.pbias l') = length (ConvBiasLayer.pbias l) /\
       (forall i : nat, (length weights <= 4 * i)%nat ->
          ConvBiasLayer.pconv l' !! i = ConvBiasLayer.pconv l !! i) /\
       (forall i : nat, (length bias <= 4 * i)%nat ->
          ConvBiasLayer.pbias l' !! i = ConvBiasLayer.pbias l !! i) /\
       (forall (i : nat) (x : float32),
          (i < Z.to_nat (size_t_of_int (ConvBiasLayer.weight_count l)))%nat ->
          (i < length (ConvBiasLayer.pconv l))%nat ->
          decode_floats weights !! i = Some x ->
          ConvBiasLayer.pconv l' !! i = Some x)) /\
  (forall l : FullyConnectedLayer.t,
     exists l',
       FullyConnectedLayer.FromFile fileprefix fs l = (true, l') /\
       FullyConnectedLayer.pneurons l'
       = fread (FullyConnectedLayer.pneurons l)
           (FullyConnectedLayer.weight_count l) weights /\
       FullyConnectedLayer.pbias l'
       = fread (FullyConnectedLayer.pbias l) (FullyConnectedLayer.outputs l)
           bias /\
       length (FullyConnectedLayer.pneurons l')
       = length (FullyConnectedLayer.pneurons l) /\
       length (FullyConnectedLayer.pbias l')
       = length (FullyConnectedLayer.pbias l) /\
       (forall i : nat, (length weights <= 4 * i)%nat ->
          FullyConnectedLayer.pneurons l' !! i
          = FullyConnectedLayer.pneurons l !! i) /\
       (forall i : nat, (length bias <= 4 * i)%nat ->
          FullyConnectedLayer.pbias l' !! i
          = FullyConnectedLayer.pbias l !! i) /\
       (forall (i : nat) (x : float32),
          (i < Z.to_nat
                 (size_t_of_int (FullyConnectedLayer.weight_count l)))%nat ->
          (i < length (FullyConnectedLayer.pneurons l))%nat ->
          decode_floats weights !! i = Some x ->
          FullyConnectedLayer.pneurons l' !! i = Some x)).
Proof.
  intros Hw Hb. split; intros l.
  - unfold ConvBiasLayer.FromFile, fopen_rb. rewrite Hw, Hb.
    eexists. split; [reflexivity|].
    cbn [ConvBiasLayer.with_pconv ConvBiasLayer.with_pbias
         ConvBiasLayer.pconv ConvBiasLayer.pbias ConvBiasLayer.out_channels].
    split; [reflexivity|]. split; [reflexivity|].
    split; [apply length_fread|]. split; [apply length_fread|].
    split; [intros i Hi; now apply lookup_fread_past|].
    split; [intros i Hi; now apply lookup_fread_past|].
    intros i x Hn Hl Hx. now apply lookup_fread_elements_whole.
  - unfold FullyConnectedLayer.FromFile, fopen_rb. rewrite Hw, Hb.
    eexists. split; [reflexivity|].
    cbn [FullyConnectedLayer.with_pneurons FullyConnectedLayer.with_pbias
         FullyConnectedLayer.pneurons FullyConnectedLayer.pbias
         FullyConnectedLayer.outputs].
    split; [reflexivity|]. split; [reflexivity|].
    split; [apply length_fread|]. split; [apply length_fread|].
    split; [intros i Hi; now apply lookup_fread_past|].
    split; [intros i Hi; now apply lookup_fread_past|].
    intros i x Hn Hl Hx. now apply lookup_fread_elements_whole.
Qed.

(** A weights file of six bytes and a bias file of five, read into a
    layer holding 1.0f, -1.0f and biases 10.0f, -0.0f: the first elements
    become 2.0f, the second elements get the two bytes (one byte) left in
    the file and keep their high bytes. *)
Lemma FromFile_accepts_short_files_witness :
  exists l',
    ConvBiasLayer.FromFile "conv1" short_files_disk example_conv = (true, l') /\
    ConvBiasLayer.pconv l' = [1073741824; 3212884906] /\
    ConvBiasLayer.pbias l' = [1073741824; 2147483649].
Proof.
  destruct (proj1 (FromFile_accepts_short_files "conv1" short_files_disk
                     [0; 0; 0; 64; 170; 187] [0; 0; 0; 64; 1]
                     eq_refl eq_refl)
              example_conv) as (l' & Hl & Hc & Hb & _).
  exists l'. split; [exact Hl|]. rewrite Hc, Hb.
  split; vm_compute; reflexivity.
Defined.

(** X9. [ToFile] is not atomic either. When the weights file can be
    opened and the bias file cannot, the call ends the process with exit
    code 2 after the weights file has been replaced by the layer's
    weights; every other file is as before. Both layer kinds. *)
Theorem ToFile_exit_leaves_weights_file (fileprefix : string) (fs : FS) :
  (fileprefix +:+ ".bin") ∉ unwritable fs ->
  (fileprefix +:+ ".bias.bin") ∈ unwritable fs ->
  (forall l : ConvBiasLayer.t,
     exists fs',
       ConvBiasLayer.ToFile fileprefix l fs = (fs', Exits 2) /\
       files fs' !! (fileprefix +:+ ".bin")
       = Some (vector_bytes
                 (take (Z.to_nat
                          (size_t_of_int (ConvBiasLayer.weight_count l)))
                    (ConvBiasLayer.pconv l))) /\
       forall path, path <> fileprefix +:+ ".bin" ->
                    files fs' !! path = files fs !! path) /\
  (forall l : FullyConnectedLayer.t,
     exists fs',
       FullyConnectedLayer.ToFile fileprefix l fs = (fs', Exits 2) /\
       files fs' !! (fileprefix +:+ ".bin")
       = Some (vector_bytes
                 (take (Z.to_nat
                          (size_t_of_int
                             (FullyConnectedLayer.weight_count l)))
                    (FullyConnectedLayer.pneurons l))) /\
       forall path, path <> fileprefix +:+ ".bin" ->
                    files fs' !! path = files fs !! path).
Proof.
  intros Hw Hb. split; intros l.
  - unfold ConvBiasLayer.ToFile.
    destruct (fopen_wb fs _) as [fs1|] eqn:E1;
      [|apply fopen_wb_None in E1; contradiction].
    pose proof (fopen_wb_unwritable _ _ _ E1) as U1.
    destruct (fopen_wb (fwrite _ _ _ fs1) _) as [fs2|] eqn:E2.
    { assert (E2' : fopen_wb (fwrite (ConvBiasLayer.pconv l)
                                (ConvBiasLayer.weight_count l)
                                (fileprefix +:+ ".bin") fs1)
                      (fileprefix +:+ ".bias.bin") = None).
      { apply fopen_wb_None. cbn [unwritable fwrite]. now rewrite U1. }
      congruence. }
    eexists. split; [reflexivity|]. split.
    + eapply fopen_wb_fwrite; eassumption.
    + intros path Hne. rewrite fwrite_other by congruence.
      apply (fopen_wb_other _ _ _ _ E1). congruence.
  - unfold FullyConnectedLayer.ToFile.
    destruct (fopen_wb fs _) as [fs1|] eqn:E1;
      [|apply fopen_wb_None in E1; contradiction].
    pose proof (fopen_wb_unwritable _ _ _ E1) as U1.
    destruct (fopen_wb (fwrite _ _ _ fs1) _) as [fs2|] eqn:E2.
    { assert (E2' : fopen_wb (fwrite (FullyConnectedLayer.pneurons l)
                                (FullyConnectedLayer.weight_count l)
                                (fileprefix +:+ ".bin") fs1)
                      (fileprefix +:+ ".bias.bin") = None).
      { apply fopen_wb_None. cbn [unwritable fwrite]. now rewrite U1. }
      congruence. }
    eexists. split; [reflexivity|]. split.
    + eapply fopen_wb_fwrite; eassumption.
    + intros path Hne. rewrite fwrite_other by congruence.
      apply (fopen_wb_other _ _ _ _ E1). congruence.
Qed.

Lemma ToFile_exit_leaves_weights_file_witness :
  exists fs',
    ConvBiasLayer.ToFile "conv1" example_conv bias_blocked_disk
    = (fs', Exits 2) /\
    files bias_blocked_disk !! "conv1.bin" = Some [7] /\
    files fs' !! "conv1.bin" = Some [0; 0; 128; 63; 0; 0; 128; 191].
Proof.
  destruct (ToFile_exit_leaves_weights_file "conv1" bias_blocked_disk)
    as [Hconv _].
  - unfold bias_blocked_disk. cbn [unwritable].
    rewrite elem_of_singleton. discriminate.
  - unfold bias_blocked_disk. cbn [unwritable].
    apply elem_of_singleton. reflexivity.
  - destruct (Hconv example_conv) as (fs' & Hexit & Hfile & _).
    exists fs'. split; [exact Hexit|]. split; [reflexivity|].
    refine (eq_trans Hfile _). vm_compute. reflexivity.
Defined.

(** ** Comparison of floats *)

Lemma SFltb_trans x y z :
  SFltb x y = true -> SFltb y z = true -> SFltb x z = true.
Proof.
  unfold SFltb.
  destruct x as [sx|sx| |sx mx ex], y as [sy|sy| |sy my ey],
    z as [sz|sz| |sz mz ez];
    try destruct sx; try destruct sy; try destruct sz; simpl;
    try congruence; compare_cases.
Qed.

Lemma SFltb_eqb_trans x y z :
  SFltb x y = true -> SFeqb y z = true -> SFltb x z = true.
Proof.
  unfold SFltb, SFeqb.
  destruct x as [sx|sx| |sx mx ex], y as [sy|sy| |sy my ey],
    z as [sz|sz| |sz mz ez];
    try destruct sx; try destruct sy; try destruct sz; simpl;
    try congruence; compare_cases.
Qed.

Lemma SFltb_irrefl x : SFltb x x = false.
Proof.
  unfold SFltb. destruct x as [s|s| |s m e]; try destruct s; simpl;
    try reflexivity; rewrite Z.compare_refl;
    change (Pos.compare_cont Eq m m) with (Pos.compare m m);
    rewrite Pos.compare_refl; reflexivity.
Qed.

(** Without NaN the order is total. *)
Lemma SFltb_false_leb x y :
  x <> S754_nan -> y <> S754_nan -> SFltb x y = false -> SFleb y x = true.
Proof.
  unfold SFltb, SFleb.
  destruct x as [sx|sx| |sx mx ex], y as [sy|sy| |sy my ey];
    try destruct sx; try destruct sy; simpl; try congruence;
    intros _ _;
    rewrite ?(Z.compare_antisym ex ey);
    change (Pos.compare_cont Eq my mx) with (Pos.compare my mx);
    change (Pos.compare_cont Eq mx my) with (Pos.compare mx my);
    rewrite ?(Pos.compare_antisym mx my);
    destruct (Z.compare ex ey); simpl; try congruence;
    destruct (Pos.compare mx my); simpl; congruence.
Qed.

Lemma float_lt_trans a b c :
  FloatOps.lt a b = true -> FloatOps.lt b c = true -> FloatOps.lt a c = true.
Proof. apply SFltb_trans. Qed.

Lemma float_lt_eqb_trans a b c :
  FloatOps.lt a b = true -> FloatOps.eqb b c = true -> FloatOps.lt a c = true.
Proof. apply SFltb_eqb_trans. Qed.

Lemma float_lt_irrefl a : FloatOps.lt a a = false.
Proof. apply SFltb_irrefl. Qed.

(** ** The classification pass *)

(** The scan keeps the first maximum of the entries seen so far. *)
Lemma scan_first_maximum v n : forall k c,
  first_maximum v (Z.of_nat k) c ->
  first_maximum v (Z.of_nat (k + n))
    (fold_left (scan v) (map Z.of_nat (seq k n)) c).
Proof.
  induction n as [|n IH]; intros k c Hc.
  - simpl. now rewrite Nat.add_0_r.
  - simpl. replace (k + S n)%nat with (S k + n)%nat by lia.
    apply IH. destruct Hc as (Hr & Hmax & Hfirst).
    unfold scan.
    destruct (FloatOps.lt (Evaluation.at_index v c)
                (Evaluation.at_index v (Z.of_nat k))) eqn:E.
    + split; [lia|]. split.
      * intros id Hid.
        destruct (Z.eq_dec id (Z.of_nat k)) as [->|Hne];
          [apply float_lt_irrefl|].
        destruct (FloatOps.lt _ (Evaluation.at_index v id)) eqn:E';
          [|reflexivity].
        rewrite <- (Hmax id ltac:(lia)). symmetry.
        eapply float_lt_trans; eassumption.
      * intros id Hid.
        destruct (FloatOps.eqb _ (Evaluation.at_index v id)) eqn:E';
          [|reflexivity].
        rewrite <- (Hmax id ltac:(lia)). symmetry.
        eapply float_lt_eqb_trans; eassumption.
    + split; [lia|]. split; [|assumption].
      intros id Hid.
      destruct (Z.eq_dec id (Z.of_nat k)) as [->|Hne]; [assumption|].
      apply Hmax. lia.
Qed.

(** X10. The class chosen for an image is the first maximal response:
    its index is one of 0..9, no entry of [class_vec] is greater than the
    chosen one, and no entry before it is equal to it (ties go to the
    lowest index). When no entry is a NaN, every entry is less than or
    equal to the chosen one. *)
Theorem classification_picks_first_maximum (d_fc2smax : list float32) :
  let class_vec := Evaluation.class_vec d_fc2smax in
  let chosen := Evaluation.chosen_class class_vec in
  0 <= chosen < 10 /\
  (forall id, 0 <= id < 10 ->
     FloatOps.lt (Evaluation.at_index class_vec chosen)
       (Evaluation.at_index class_vec id) = false) /\
  (forall id, 0 <= id < chosen ->
     FloatOps.eqb (Evaluation.at_index class_vec chosen)
       (Evaluation.at_index class_vec id) = false) /\
  ((forall id, 0 <= id < 10 -> not_nan (Evaluation.at_index class_vec id)) ->
   forall id, 0 <= id < 10 ->
     FloatOps.leb (Evaluation.at_index class_vec id)
       (Evaluation.at_index class_vec chosen) = true).
Proof.
  intros class_vec chosen.
  assert (H : first_maximum class_vec 10 chosen).
  { apply (scan_first_maximum class_vec 9 1 0).
    split; [lia|]. split.
    - intros id Hid. replace id with 0 by lia. apply float_lt_irrefl.
    - intros id Hid. lia. }
  destruct H as (Hr & Hmax & Hfirst).
  split; [exact Hr|]. split; [exact Hmax|]. split; [exact Hfirst|].
  intros Hnan id Hid. apply SFltb_false_leb.
  - apply Hnan. exact Hr.
  - apply Hnan. exact Hid.
  - apply Hmax. exact Hid.
Qed.

Lemma test_image_in_bounds (d : Evaluation.test_set) (test_size i : Z) :
  0 <= Evaluation.width d -> 0 <= Evaluation.height d ->
  1 <= Evaluation.channels d ->
  Z.of_nat (length (Evaluation.test_images d))
  = test_size * Evaluation.width d * Evaluation.height d
    * Evaluation.channels d ->
  Z.of_nat (length (Evaluation.test_images d)) < 2 ^ 64 ->
  0 <= i < test_size ->
  is_Some (Evaluation.test_image d i).
Proof.
  intros Hw Hh Hc Hlen Hmax Hi. unfold Evaluation.test_image.
  apply mapM_is_Some. apply Forall_forall. intros j Hj.
  apply list_elem_of_In, in_map_iff in Hj as (k & <- & Hk).
  apply in_seq in Hk.
  set (wh := Evaluation.width d * Evaluation.height d) in *.
  assert (Hwh : 0 <= wh) by (apply Z.mul_nonneg_nonneg; assumption).
  assert (Hwhc : wh <= wh * Evaluation.channels d) by nia.
  assert (Hlen' : Z.of_nat (length (Evaluation.test_images d))
                  = test_size * (wh * Evaluation.channels d))
    by (rewrite Hlen; unfold wh; ring).
  assert (Hrow : (i + 1) * (wh * Evaluation.channels d)
                 <= test_size * (wh * Evaluation.channels d))
    by (apply Z.mul_le_mono_nonneg_r; lia).
  assert (Hsmall : wh mod 2 ^ 64 = wh) by (apply Z.mod_small; nia).
  rewrite Hsmall in Hk.
  assert (Hidx : 0 <= i * (wh * Evaluation.channels d) + Z.of_nat k
                 < Z.of_nat (length (Evaluation.test_images d))) by nia.
  cbv beta delta [compose Evaluation.image_index].
  replace (i * Evaluation.width d * Evaluation.height d
           * Evaluation.channels d)
    with (i * (wh * Evaluation.channels d)) by (unfold wh; ring).
  rewrite Z.mod_small by lia.
  destruct (lookup_lt_is_Some_2 (Evaluation.test_images d)
              (Z.to_nat (i * (wh * Evaluation.channels d) + Z.of_nat k)))
    as [pixel Hp]; [lia|].
  rewrite Hp. cbn [mbind option_bind]. eauto.
Qed.

Lemma classify_from_in_bounds forward (d : Evaluation.test_set)
    (test_size : Z) :
  0 <= Evaluation.width d -> 0 <= Evaluation.height d ->
  1 <= Evaluation.channels d ->
  Z.of_nat (length (Evaluation.test_images d))
  = test_size * Evaluation.width d * Evaluation.height d
    * Evaluation.channels d ->
  Z.of_nat (length (Evaluation.test_images d)) < 2 ^ 64 ->
  Z.of_nat (length (Evaluation.test_labels d)) = test_size ->
  forall (n : nat) (i num_errors : Z),
    0 <= i -> i + Z.of_nat n <= test_size ->
    i + Z.of_nat n <= Int32.max_signed ->
    0 <= num_errors <= i ->
    exists k,
      Evaluation.classify_from forward d n i num_errors = Some k /\
      num_errors <= k <= num_errors + Z.of_nat n.
Proof.
  intros Hw Hh Hc Hlen Hmax Hlab.
  induction n as [|n IH]; intros i acc Hi Hn Hint Hacc.
  - exists acc. split; [reflexivity|lia].
  - cbn [Evaluation.classify_from].
    destruct (test_image_in_bounds d test_size i Hw Hh Hc Hlen Hmax
                ltac:(lia)) as [data Hdata].
    rewrite Hdata. cbn [mbind option_bind].
    destruct (lookup_lt_is_Some_2 (Evaluation.test_labels d) (Z.to_nat i))
      as [label Hl]; [lia|].
    rewrite Hl. cbn [mbind option_bind].
    assert (Hadd : Int32.add acc 1 = acc + 1).
    { unfold Int32.add, Int32.wrap. unfold Int32.max_signed in Hint.
      rewrite Z.mod_small; lia. }
    destruct (negb _).
    + rewrite Hadd.
      destruct (IH (i + 1) (acc + 1)) as (k & Hk & Hb); try lia.
      exists k. split; [exact Hk|lia].
    + destruct (IH (i + 1) acc) as (k & Hk & Hb); try lia.
      exists k. split; [exact Hk|lia].
Qed.

(** X11. The classification pass stays inside the test set when it is
    asked for no more images than the set holds: with the test vectors
    sized as rank 0 sizes them ([test_size * width * height * channels]
    pixels, [test_size] labels) and [classifications <= test_size] (the
    default [FLAGS_classify = -1] gives [test_size]), every read of
    [test_images] and [test_labels] is within bounds, the pass ends with
    an error rate, and the number of errors it counted is between 0 and
    the number of images classified. *)
Theorem evaluation_within_the_test_set forward (d : Evaluation.test_set)
    (FLAGS_classify test_size : Z) :
  let classifications := Evaluation.classifications FLAGS_classify test_size in
  0 <= Evaluation.width d -> 0 <= Evaluation.height d ->
  Evaluation.width d * Evaluation.height d <= Int32.max_signed ->
  1 <= Evaluation.channels d ->
  Z.of_nat (length (Evaluation.test_images d))
  = test_size * Evaluation.width d * Evaluation.height d
    * Evaluation.channels d ->
  Z.of_nat (length (Evaluation.test_images d)) < 2 ^ 64 ->
  Z.of_nat (length (Evaluation.test_labels d)) = test_size ->
  Int32.min_signed <= FLAGS_classify <= Int32.max_signed ->
  classifications <= test_size ->
  is_Some (Evaluation.classification_error forward d FLAGS_classify
             test_size) /\
  exists num_errors,
    Evaluation.classify_from forward d (Z.to_nat classifications) 0 0
    = Some num_errors /\
    0 <= num_errors <= Z.max 0 classifications.
Proof.
  intros n Hw Hh Hwh Hc Hlen Hmax Hlab Hflag Hn.
  assert (Hint : n <= Int32.max_signed).
  { unfold n, Evaluation.classifications.
    destruct (FLAGS_classify <? 0); [apply wrap_in_range|lia]. }
  unfold Int32.max_signed in Hint.
  destruct (classify_from_in_bounds forward d test_size Hw Hh Hc Hlen Hmax
              Hlab (Z.to_nat n) 0 0) as (k & Hk & Hb);
    try (unfold Int32.max_signed; lia).
  split.
  - unfold Evaluation.classification_error. fold n.
    destruct (0 <? n); [|eauto]. rewrite Hk. cbn [mbind option_bind]. eauto.
  - exists k. split; [exact Hk|lia].
Qed.

Lemma evaluation_within_the_test_set_witness :
  is_Some (Evaluation.classification_error always_three example_test_set
             (-1) 2) /\
  Evaluation.classify_from always_three example_test_set 2 0 0 = Some 1.
Proof.
  destruct (evaluation_within_the_test_set always_three example_test_set
              (-1) 2) as (H & k & Hk & _);
    try (vm_compute; congruence); try (vm_compute; split; congruence).
  split; [exact H|]. vm_compute. reflexivity.
Defined.

Lemma classify_from_past_the_labels forward (d : Evaluation.test_set) :
  forall (n : nat) (i num_errors : Z),
    0 <= i <= Z.of_nat (length (Evaluation.test_labels d)) ->
    Z.of_nat (length (Evaluation.test_labels d)) < i + Z.of_nat n ->
    Evaluation.classify_from forward d n i num_errors = None.
Proof.
  induction n as [|n IH]; intros i acc Hi Hn; [lia|].
  cbn [Evaluation.classify_from].
  destruct (Evaluation.test_image d i) as [data|]; [|reflexivity].
  cbn [mbind option_bind].
  destruct (Evaluation.test_labels d !! Z.to_nat i) as [label|] eqn:Hl.
  - cbn [mbind option_bind]. apply lookup_lt_Some in Hl.
    apply IH; lia.
  - reflexivity.
Qed.

(** X12. Nothing clamps [FLAGS_classify] to the test set, and every
    rank runs the pass: when [classifications] exceeds the number of
    labels the process holds, the pass reads past the end of
    [test_labels] (or of [test_images] before that). This is the case of
    a too large [FLAGS_classify] on rank 0, and of any positive
    [classifications] on the other ranks, whose test vectors are empty. *)
Theorem evaluation_reads_past_the_test_set forward
    (d : Evaluation.test_set) (FLAGS_classify test_size : Z) :
  Z.of_nat (length (Evaluation.test_labels d))
  < Evaluation.classifications FLAGS_classify test_size ->
  Evaluation.classification_error forward d FLAGS_classify test_size = None.
Proof.
  intros Hn. unfold Evaluation.classification_error.
  destruct (Z.ltb_spec 0 (Evaluation.classifications FLAGS_classify test_size));
    [|lia].
  rewrite classify_from_past_the_labels; [reflexivity|lia|lia].
Qed.

Lemma evaluation_reads_past_the_test_set_witness :
  Evaluation.classification_error always_three worker_test_set 1 0 = None.
Proof.
  apply evaluation_reads_past_the_test_set. vm_compute. reflexivity.
Defined.

(** ** Normalised pixels *)

Lemma normalize_table :
  forallb (fun p => FloatOps.leb Float32.zero (Startup.normalize p)
                    && FloatOps.leb (Startup.normalize p) FloatOps.one
                    && ((p =? 255)
                        || FloatOps.lt (Startup.normalize p)
                             (Startup.normalize (p + 1))))
    pixels = true.
Proof. vm_compute. reflexivity. Qed.

Lemma normalize_pixel p :
  0 <= p <= 255 ->
  in_unit_interval (Startup.normalize p) /\
  (p < 255 ->
   FloatOps.lt (Startup.normalize p) (Startup.normalize (p + 1)) = true).
Proof.
  intros Hp. pose proof normalize_table as H.
  rewrite forallb_forall in H. specialize (H p).
  assert (Hin : In p pixels).
  { unfold pixels. apply in_map_iff. exists (Z.to_nat p). split; [lia|].
    apply in_seq. lia. }
  apply H in Hin. apply andb_prop in Hin as [Hin H3].
  apply andb_prop in Hin as [H1 H2].
  split; [split; assumption|].
  intros Hlt. apply orb_prop in H3 as [H3|H3]; [|assumption].
  apply Z.eqb_eq in H3. lia.
Qed.

Lemma normalize_increasing_steps (n : nat) : forall p,
  0 <= p -> p + Z.of_nat (S n) <= 255 ->
  FloatOps.lt (Startup.normalize p) (Startup.normalize (p + Z.of_nat (S n)))
  = true.
Proof.
  induction n as [|n IH]; intros p Hp Hq.
  - apply normalize_pixel; lia.
  - eapply float_lt_trans; [apply (IH p); lia|].
    replace (p + Z.of_nat (S (S n))) with (p + Z.of_nat (S n) + 1) by lia.
    apply normalize_pixel; lia.
Qed.

(** X13. "Normalize training set to be in [0,1]": every pixel of the
    prepared training images is a float between 0.0f and 1.0f, 0 becomes
    0.0f and 255 becomes 1.0f exactly, and the division by 255.0f keeps
    the order of the 256 intensities strictly (no two intensities become
    the same float). *)
Theorem normalized_pixels_are_ordered_in_unit_interval
    (train_images : list Z) (p q : Z) :
  Forall (fun pixel => 0 <= pixel <= 255) train_images ->
  0 <= p -> p < q -> q <= 255 ->
  Forall in_unit_interval (Startup.prepare_images train_images) /\
  FloatOps.lt (Startup.normalize p) (Startup.normalize q) = true /\
  Startup.normalize 0 = Float32.zero /\
  Startup.normalize 255 = FloatOps.one.
Proof.
  intros Himg Hp Hpq Hq. split; [|split].
  - unfold Startup.prepare_images. apply Forall_map.
    eapply Forall_impl; [exact Himg|]. intros pixel Hpixel.
    now apply normalize_pixel.
  - replace q with (p + Z.of_nat (S (Z.to_nat (q - p - 1)))) by lia.
    apply normalize_increasing_steps; lia.
  - split; vm_compute; reflexivity.
Qed.

Lemma normalized_pixels_are_ordered_in_unit_interval_witness :
  Forall in_unit_interval (Startup.prepare_images [0; 17; 255]) /\
  FloatOps.lt (Startup.normalize 100) (Startup.normalize 200) = true.
Proof.
  destruct (normalized_pixels_are_ordered_in_unit_interval [0; 17; 255]
              100 200) as (H1 & H2 & _); try lia.
  - repeat constructor; lia.
  - split; assumption.
Defined.

(** ** The inputs of the first fully-connected layer *)

Lemma FullyConnectedLayer_new_inputs inputs outputs l :
  FullyConnectedLayer.new inputs outputs = Some l ->
  FullyConnectedLayer.inputs l = inputs.
Proof.
  unfold FullyConnectedLayer.new. destruct (_ || _); [discriminate|].
  now intros [= <-].
Qed.

Lemma create_network_fc1 channels width height net :
  Main.create_network channels width height = Some net ->
  FullyConnectedLayer.inputs (Main.n_fc1 net)
  = Int32.div
      (Int32.mul (Int32.mul (ConvBiasLayer.out_channels (Main.n_conv2 net))
                    (ConvBiasLayer.out_width (Main.n_conv2 net)))
         (ConvBiasLayer.out_height (Main.n_conv2 net)))
      (Int32.mul 2 2).
Proof.
  unfold Main.create_network. intros H.
  apply bind_Some in H as (c1 & Hc1 & H).
  apply bind_Some in H as (c2 & Hc2 & H).
  apply bind_Some in H as (f1 & Hf1 & H).
  apply bind_Some in H as (f2 & Hf2 & H).
  injection H as <-. cbn [Main.n_fc1 Main.n_conv2].
  exact (FullyConnectedLayer_new_inputs _ _ _ Hf1).
Qed.

(** X14. [main] gives the first fully-connected layer
    [(channels * width * height) / (stride * stride)] inputs, computed
    from the output of the second convolution, while the pooled tensor it
    reads ([pool2Tensor], and the allocation of [d_pool2]) has
    [channels * (height / stride) * (width / stride)] elements per
    image. For every network [main] builds from images of 14 to 1000
    pixels a side, the pooled tensor is never larger than the inputs;
    the two agree when the second convolution's output width and height
    are both even (as for 28x28 images: 8x8), and the layer expects more
    inputs than the pooled tensor holds as soon as one of them is odd. *)
Theorem fc1_inputs_against_pooled_volume
    (channels width height gpuid batch_size : Z) (net : Main.network) :
  14 <= width <= 1000 -> 14 <= height <= 1000 ->
  Main.create_network channels width height = Some net ->
  let conv2 := Main.n_conv2 net in
  let context :=
    TrainingContext.new gpuid batch_size (Main.n_conv1 net)
      (Main.n_pool1 net) conv2 (Main.n_pool2 net) (Main.n_fc1 net)
      (Main.n_fc2 net) in
  let pool2 := TrainingContext.pool2Tensor context in
  let pooled :=
    TrainingContext.sc pool2 * TrainingContext.sh pool2
    * TrainingContext.sw pool2 in
  let inputs := FullyConnectedLayer.inputs (Main.n_fc1 net) in
  pooled <= inputs /\
  (ConvBiasLayer.out_width conv2 mod 2 = 0 ->
   ConvBiasLayer.out_height conv2 mod 2 = 0 -> inputs = pooled) /\
  (ConvBiasLayer.out_width conv2 mod 2 = 1 \/
   ConvBiasLayer.out_height conv2 mod 2 = 1 -> pooled < inputs).
Proof.
  intros Hw Hh Hnet conv2 context pool2 pooled inputs.
  destruct (create_network_inv _ _ _ _ Hnet) as (Hc1 & Hp1 & Hc2 & Hp2).
  pose proof (create_network_fc1 _ _ _ _ Hnet) as Hin.
  fold conv2 in Hc2, Hin. fold inputs in Hin.
  destruct (ConvBiasLayer_new_dims channels 20 5 width height _
              ltac:(lia) ltac:(unfold Int32.max_signed; lia)
              ltac:(unfold Int32.max_signed; lia) Hc1)
    as (_ & _ & _ & _ & How1 & Hoh1).
  rewrite How1, Hoh1 in Hc2.
  rewrite !pool_out_dim in Hc2 by (unfold Int32.max_signed; lia).
  assert (Hw2 : 5 <= (width - 5 + 1) / 2 <= 498).
  { split; [apply Z.div_le_lower_bound; lia|apply Z.div_le_upper_bound; lia]. }
  assert (Hh2 : 5 <= (height - 5 + 1) / 2 <= 498).
  { split; [apply Z.div_le_lower_bound; lia|apply Z.div_le_upper_bound; lia]. }
  destruct (ConvBiasLayer_new_dims
              (ConvBiasLayer.out_channels (Main.n_conv1 net)) 50 5
              ((width - 5 + 1) / 2) ((height - 5 + 1) / 2) conv2 ltac:(lia)
              ltac:(unfold Int32.max_signed; lia)
              ltac:(unfold Int32.max_signed; lia) Hc2)
    as (_ & _ & _ & Hoc2 & How2 & Hoh2).
  assert (Hpooled : pooled
                    = 50 * (ConvBiasLayer.out_height conv2 / 2)
                      * (ConvBiasLayer.out_width conv2 / 2)).
  { subst pooled pool2 context. cbn [TrainingContext.new
      TrainingContext.pool2Tensor TrainingContext.sc TrainingContext.sh
      TrainingContext.sw].
    fold conv2. rewrite Hoc2, Hp2.
    cbn [MaxPoolLayer.new MaxPoolLayer.stride].
    rewrite !pool_out_dim by (unfold Int32.max_signed; lia). reflexivity. }
  set (a := ConvBiasLayer.out_width conv2) in *.
  set (b := ConvBiasLayer.out_height conv2) in *.
  assert (Ha : 1 <= a <= 494) by lia. assert (Hb : 1 <= b <= 494) by lia.
  clearbody a b. clear How2 Hoh2 Hc2 Hc1 How1 Hoh1.
  assert (Hab : 0 <= 50 * a * b <= 50 * 494 * 494) by nia.
  assert (Hinputs : inputs = 50 * a * b / 4).
  { rewrite Hin, Hoc2.
    rewrite (mul_small 50 a)
      by (unfold Int32.in_range, Int32.min_signed, Int32.max_signed; lia).
    rewrite (mul_small (50 * a) b)
      by (unfold Int32.in_range, Int32.min_signed, Int32.max_signed; lia).
    change (Int32.mul 2 2) with 4.
    apply pool_out_dim; unfold Int32.max_signed; lia. }
  rewrite Hinputs, Hpooled. clear Hinputs Hpooled Hin.
  pose proof (Z.div_mod a 2 ltac:(lia)) as Da.
  pose proof (Z.div_mod b 2 ltac:(lia)) as Db.
  pose proof (Z.mod_pos_bound a 2 ltac:(lia)) as Ra.
  pose proof (Z.mod_pos_bound b 2 ltac:(lia)) as Rb.
  set (a2 := a / 2) in *. set (b2 := b / 2) in *.
  set (ra := a mod 2) in *. set (rb := b mod 2) in *.
  assert (0 <= a2) by lia. assert (0 <= b2) by lia.
  split; [|split].
  - apply Z.div_le_lower_bound; [lia|]. nia.
  - intros Ea Eb. rewrite Da, Db, Ea, Eb.
    replace (50 * (2 * a2 + 0) * (2 * b2 + 0)) with ((50 * b2 * a2) * 4)
      by ring.
    apply Z.div_mul. lia.
  - intros Hodd.
    apply Z.lt_le_trans with (50 * b2 * a2 + 1); [lia|].
    apply Z.div_le_lower_bound; [lia|].
    destruct Hodd as [E|E]; rewrite Da, Db; nia.
Qed.

Lemma fc1_inputs_against_pooled_volume_witness :
  exists net,
    Main.create_network 1 14 14 = Some net /\
    ConvBiasLayer.out_width (Main.n_conv2 net) = 1 /\
    TrainingContext.sw
      (TrainingContext.pool2Tensor
         (TrainingContext.new 0 64 (Main.n_conv1 net) (Main.n_pool1 net)
            (Main.n_conv2 net) (Main.n_pool2 net) (Main.n_fc1 net)
            (Main.n_fc2 net))) = 0 /\
    0 < FullyConnectedLayer.inputs (Main.n_fc1 net).
Proof.
  destruct (LeNet_is_created 14 14) as [net Hnet]; [lia|lia|].
  exists net.
  destruct (fc1_inputs_against_pooled_volume 1 14 14 0 64 net
              ltac:(lia) ltac:(lia) Hnet) as (_ & _ & Hodd).
  destruct (create_network_inv _ _ _ _ Hnet) as (Hc1 & _ & Hc2 & Hp2).
  destruct (ConvBiasLayer_new_dims 1 20 5 14 14 _ ltac:(lia)
              ltac:(unfold Int32.max_signed; lia)
              ltac:(unfold Int32.max_signed; lia) Hc1)
    as (_ & _ & _ & _ & How1 & Hoh1).
  rewrite How1, Hoh1 in Hc2.
  change (Int32.div (14 - 5 + 1) 2) with 5 in Hc2.
  destruct (ConvBiasLayer_new_dims _ 50 5 5 5 _ ltac:(lia)
              ltac:(unfold Int32.max_signed; lia)
              ltac:(unfold Int32.max_signed; lia) Hc2)
    as (_ & _ & _ & _ & How2 & Hoh2).
  split; [exact Hnet|]. split; [exact How2|].
  assert (Hlt := Hodd (or_introl (f_equal (fun x => x mod 2) How2))).
  cbn [TrainingContext.new TrainingContext.pool2Tensor TrainingContext.sc
       TrainingContext.sh TrainingContext.sw] in *.
  rewrite How2, Hoh2, Hp2 in *.
  change (Int32.div (5 - 5 + 1) (MaxPoolLayer.stride (MaxPoolLayer.new 2 2)))
    with 0 in *.
  split; [reflexivity|]. lia.
Defined.

(** ** What the updates leave alone *)

(** X15. The two update functions, called as [main] calls them, write
    only their own tensors. [UpdateLocalWeights] leaves every buffer
    other than the eight local weights, the eight residuals and the
    gradient [d_gfc1] as it was (the seven other gradients, the data set
    and the host buffers among them); [UpdateGlobalWeights] leaves every
    buffer other than the eight global weights as it was. *)
Theorem updates_write_only_their_tensors (g : Main.setup)
    (lr rho : float32) (s : store) (b : buf) :
  (local_update_writes b = false ->
   Main.call_UpdateLocalWeights g lr rho s b = s b) /\
  (global_update_writes b = false ->
   Main.call_UpdateGlobalWeights g lr s b = s b).
Proof.
  split; intros Hb; destruct b; try discriminate Hb; run_update;
    reflexivity.
Qed.

Lemma updates_write_only_their_tensors_witness :
  Main.call_UpdateLocalWeights tiny_setup 1056964608 1092616192
    (tiny_store 1082130432) d_gconv1 = [1082130432] /\
  Main.call_UpdateGlobalWeights tiny_setup 1056964608
    (tiny_store 1082130432) d_pconv1 = [1090519040].
Proof.
  destruct (updates_write_only_their_tensors tiny_setup 1056964608
              1092616192 (tiny_store 1082130432) d_gconv1) as [Hl _].
  destruct (updates_write_only_their_tensors tiny_setup 1056964608
              1092616192 (tiny_store 1082130432) d_pconv1) as [_ Hg].
  rewrite Hl, Hg by reflexivity. split; reflexivity.
Defined.

(** ** The broadcast of the dataset parameters *)

(** X16. [width], [height], [train_size] and [train_images_size] are
    [size_t] variables broadcast as one [MPI_INT] each. On a rank other
    than the root the variable ends up with the low 32 bits of the
    root's value and the high 32 bits of whatever it held before (the
    variables are not initialised), so it equals the root's value exactly
    when those high halves agree. (Eight-byte [size_t], four-byte [int],
    least significant byte first.) *)
Theorem dataset_parameter_broadcast_moves_low_half
    (rank root_value held : Z) :
  rank <> 0 -> 0 <= root_value < 2 ^ 64 -> 0 <= held < 2 ^ 64 ->
  Startup.MPI_Bcast_int_to_size_t rank root_value held
  = root_value mod 2 ^ 32 + 2 ^ 32 * (held / 2 ^ 32) /\
  (Startup.MPI_Bcast_int_to_size_t rank root_value held = root_value <->
   held / 2 ^ 32 = root_value / 2 ^ 32).
Proof.
  intros Hr Hroot Hheld.
  assert (E : Startup.MPI_Bcast_int_to_size_t rank root_value held
              = root_value mod 2 ^ 32 + 2 ^ 32 * (held / 2 ^ 32)).
  { unfold Startup.MPI_Bcast_int_to_size_t.
    destruct (Z.eqb_spec rank 0); [contradiction|].
    cbv [Startup.size_t_bytes Startup.size_t_of_bytes Startup.sizeof_int
         map take drop app fold_right].
    change (256 ^ 0) with 1. change (256 ^ 1) with 256.
    change (256 ^ 2) with 65536. change (256 ^ 3) with 16777216.
    change (256 ^ 4) with 4294967296. change (256 ^ 5) with 1099511627776.
    change (256 ^ 6) with 281474976710656.
    change (256 ^ 7) with 72057594037927936.
    change (2 ^ 32) with 4294967296.
    change (2 ^ 64) with 18446744073709551616 in *.
    Z.div_mod_to_equations. lia. }
  split; [exact E|]. rewrite E.
  change (2 ^ 32) with 4294967296.
  change (2 ^ 64) with 18446744073709551616 in *.
  split; intros H; Z.div_mod_to_equations; lia.
Qed.

Lemma dataset_parameter_broadcast_moves_low_half_witness :
  Startup.MPI_Bcast_int_to_size_t 1 28 (2 ^ 32 + 5) = 2 ^ 32 + 28.
Proof.
  destruct (dataset_parameter_broadcast_moves_low_half 1 28 (2 ^ 32 + 5))
    as [E _]; [lia | lia | lia |].
  rewrite E. reflexivity.
Defined.

(** ** The scratch workspace *)

Lemma m_workspaceSize_covers (q : Workspace.cudnn_sizes) :
  0 <= Workspace.m_workspaceSize q /\
  Forall (fun size => size <= Workspace.m_workspaceSize q)
    (Workspace.queries q).
Proof.
  unfold Workspace.m_workspaceSize, Workspace.SetBwdConvolutionTensors,
    Workspace.queries.
  split; [lia|]. repeat constructor; lia.
Qed.

(** X17. The workspace handed to the convolutions of the classification
    pass is large enough for both contexts: after "Ensure correct
    workspaceSize is allocated for testing" the allocation behind
    [d_cudnn_workspace] is at least every size cuDNN reported to the
    training context and to the test context (forward, backward filter
    and backward data), and the pointer is still null only when both
    contexts need no workspace at all. *)
Theorem testing_workspace_covers_both_contexts
    (context test_context : Workspace.cudnn_sizes) :
  let d_cudnn_workspace := Workspace.testing_workspace context test_context in
  Forall (fun size => size <= Workspace.allocated d_cudnn_workspace)
    (Workspace.queries context ++ Workspace.queries test_context) /\
  (d_cudnn_workspace = None <->
   Workspace.m_workspaceSize context = 0 /\
   Workspace.m_workspaceSize test_context = 0).
Proof.
  intros d.
  destruct (m_workspaceSize_covers context) as [H0 Hc].
  destruct (m_workspaceSize_covers test_context) as [H0' Ht].
  assert (Hmax : Workspace.allocated d
                 = Z.max (Workspace.m_workspaceSize context)
                     (Workspace.m_workspaceSize test_context)).
  { subst d. unfold Workspace.testing_workspace, Workspace.training_workspace.
    destruct (Z.ltb_spec (Workspace.m_workspaceSize context)
                (Workspace.m_workspaceSize test_context));
      [simpl; lia|].
    destruct (Z.ltb_spec 0 (Workspace.m_workspaceSize context)); simpl; lia. }
  split.
  - rewrite Hmax. apply Forall_app. split.
    + eapply Forall_impl; [exact Hc|]. simpl. intros; lia.
    + eapply Forall_impl; [exact Ht|]. simpl. intros; lia.
  - subst d. unfold Workspace.testing_workspace, Workspace.training_workspace.
    destruct (Z.ltb_spec (Workspace.m_workspaceSize context)
                (Workspace.m_workspaceSize test_context)).
    + split; [discriminate|lia].
    + destruct (Z.ltb_spec 0 (Workspace.m_workspaceSize context)).
      * split; [discriminate|lia].
      * split; [lia|reflexivity].
Qed.

(** ** The traffic of a worker, and its batch buffer *)

Lemma filter_protocol f cs :
  payload_blind f ->
  length (List.filter f (protocol cs)) = length (List.filter f cs).
Proof.
  intros Hf. unfold protocol. induction cs as [|c cs IH]; [reflexivity|].
  cbn [map List.filter]. rewrite Hf. destruct (f c); simpl; now rewrite IH.
Qed.

Lemma to_rank_0_protocol cs :
  Forall to_rank_0 (protocol cs) -> Forall to_rank_0 cs.
Proof.
  unfold protocol. induction cs as [|c cs IH]; intros H; [constructor|].
  cbn [map] in H. apply Forall_cons_1 in H as [Hc H].
  constructor; [destruct c; exact Hc | exact (IH H)].
Qed.

Lemma worker_iteration_to_rank_0 w g l :
  Forall to_rank_0 (flat_map (worker_iteration_calls w g) l).
Proof.
  induction l as [|iter l IH]; [constructor|].
  cbn [flat_map]. apply Forall_app. split; [|exact IH].
  unfold worker_iteration_calls, batch_recvs, broadcast_calls, residual_sends.
  repeat constructor.
Qed.

Lemma worker_iteration_count f (k : nat) w g l :
  (forall iter, length (List.filter f (worker_iteration_calls w g iter)) = k) ->
  length (List.filter f (flat_map (worker_iteration_calls w g) l))
  = (k * length l)%nat.
Proof.
  intros Hk. induction l as [|iter l IH]; [simpl; lia|].
  cbn [flat_map]. rewrite List.filter_app, length_app, Hk, IH. simpl. lia.
Qed.

(** X18. Over the whole training loop a worker (rank 1 or more) talks
    to rank 0 only: every send goes to rank 0, every receive names rank 0
    as its source, every broadcast is rooted at rank 0, and it never makes
    a global update. It posts two receives, joins eight broadcasts, makes
    one local update and sends eight residual tensors per iteration. *)
Theorem worker_traffic_goes_through_rank_0 (w : World) (g : Main.setup)
    (rank : Z) :
  1 <= rank -> 0 <= Main.FLAGS_iterations g ->
  let cs := calls (Main.training_loop w g rank fresh_process) in
  Forall to_rank_0 cs /\
  Z.of_nat (length (List.filter is_recv cs)) = 2 * Main.FLAGS_iterations g /\
  Z.of_nat (length (List.filter is_bcast cs)) = 8 * Main.FLAGS_iterations g /\
  Z.of_nat (length (List.filter is_local_update cs))
  = Main.FLAGS_iterations g /\
  Z.of_nat (length (List.filter is_send cs)) = 8 * Main.FLAGS_iterations g.
Proof.
  intros Hr Hn cs.
  pose proof (training_loop_worker_calls w g rank fresh_process Hr) as Hp.
  fold cs in Hp. cbn [fresh_process calls protocol map app] in Hp.
  assert (Hlen : Z.of_nat (length (iterations (Main.FLAGS_iterations g)))
                 = Main.FLAGS_iterations g).
  { unfold iterations. rewrite length_map, length_seq. lia. }
  split.
  { apply to_rank_0_protocol. rewrite Hp. apply worker_iteration_to_rank_0. }
  split; [|split; [|split]].
  - rewrite <- (filter_protocol is_recv) by (intros []; reflexivity).
    rewrite Hp, (worker_iteration_count is_recv 2) by reflexivity. lia.
  - rewrite <- (filter_protocol is_bcast) by (intros []; reflexivity).
    rewrite Hp, (worker_iteration_count is_bcast 8) by reflexivity. lia.
  - rewrite <- (filter_protocol is_local_update) by (intros []; reflexivity).
    rewrite Hp, (worker_iteration_count is_local_update 1) by reflexivity.
    lia.
  - rewrite <- (filter_protocol is_send) by (intros []; reflexivity).
    rewrite Hp, (worker_iteration_count is_send 8) by reflexivity. lia.
Qed.

Lemma worker_traffic_goes_through_rank_0_witness :
  Z.of_nat (length (List.filter is_recv
                      (calls (Main.training_loop example_world example_setup
                                1 fresh_process)))) = 4 /\
  Z.of_nat (length (List.filter is_send
                      (calls (Main.training_loop example_world example_setup
                                1 fresh_process)))) = 16.
Proof.
  destruct (worker_traffic_goes_through_rank_0 example_world example_setup 1)
    as (_ & Hrecv & _ & _ & Hsend); [lia | simpl; lia |].
  split; [exact Hrecv | exact Hsend].
Defined.

(** X19. The buffer a worker receives its image batch into is
    allocated with exactly the size of the message, as long as the
    message fits MPI's [int] count: when [train_images_size] is the number
    of pixels of the training set
    ([train_size * width * height * channels], as rank 0 computes it),
    the batch size is a non-negative [int] and
    [m_batchSize * channels * width * height] is at most [INT_MAX], the
    first receive of a worker's fan-out counts as many floats as the
    allocation holds. *)
Theorem mini_batch_buffer_fits_the_batch (w : World) (g : Main.setup)
    (rank train_size train_images_size : Z) (p : process) :
  let batch := TrainingContext.m_batchSize (Main.context g) in
  1 <= rank -> 0 < train_size -> 0 <= batch <= Int32.max_signed ->
  0 <= batch * Main.channels g * Main.width g * Main.height g
    <= Int32.max_signed ->
  train_images_size
  = train_size * Main.width g * Main.height g * Main.channels g ->
  sizeof_float * batch * train_images_size < 2 ^ 64 ->
  exists count,
    calls (Main.fan_out w g rank p)
    = calls p ++ [Recv train_images_mBatch_float count 0 COMM_XDATA;
                  Recv train_labels_mBatch_float batch 0 COMM_XLABEL] /\
    mBatch_bytes batch train_images_size train_size = sizeof_float * count /\
    count = batch * Main.channels g * Main.width g * Main.height g.
Proof.
  intros batch Hr HT Hb Hc Hsize Hmax.
  exists (Main.batch_count g).
  assert (Hcount : Main.batch_count g
                   = batch * Main.channels g * Main.width g * Main.height g).
  { unfold Main.batch_count, int_of_size_t, size_t_of_int. fold batch.
    unfold Int32.max_signed in Hc, Hb.
    rewrite (Z.mod_small batch) by lia.
    rewrite Z.mod_small by lia.
    apply wrap_small. unfold Int32.in_range, Int32.min_signed,
      Int32.max_signed. lia. }
  split; [now apply fan_out_worker_calls|]. split; [|exact Hcount].
  rewrite Hcount. unfold mBatch_bytes.
  assert (E : sizeof_float * batch * train_images_size
              = sizeof_float
                * (batch * Main.channels g * Main.width g * Main.height g)
                * train_size).
  { rewrite Hsize. ring. }
  rewrite E in *. rewrite Z.mod_small.
  - apply Z.div_mul. lia.
  - unfold sizeof_float in *. nia.
Qed.

Lemma mini_batch_buffer_fits_the_batch_witness :
  exists count,
    calls (Main.fan_out example_world example_setup 1 fresh_process)
    = [Recv train_images_mBatch_float count 0 COMM_XDATA;
       Recv train_labels_mBatch_float 1 0 COMM_XLABEL] /\
    mBatch_bytes 1 45 5 = 4 * count /\ count = 9.
Proof.
  destruct (mini_batch_buffer_fits_the_batch example_world example_setup
              1 5 45 fresh_process) as (count & Hcalls & Hbytes & Hcount).
  - lia.
  - lia.
  - vm_compute. split; congruence.
  - vm_compute. split; congruence.
  - reflexivity.
  - vm_compute. reflexivity.
  - exists count. split; [exact Hcalls|]. split; [exact Hbytes|exact Hcount].
Defined.

(** ** The coordinator's own network *)

Lemma mem_MPI_Bcast_root w b n p : mem (MPI_Bcast w 0 b n 0 p) = mem p.
Proof. reflexivity. Qed.

Lemma mem_broadcast_global_root w g p :
  mem (Main.broadcast_global w g 0 p) = mem p.
Proof. reflexivity. Qed.

Lemma iteration_rank0_mem w g iter p b :
  copies_touch_operands_only w -> coordinator_copy_operand b = false ->
  mem (Main.iteration w g 0 iter p) b = mem p b.
Proof.
  intros Hw Hb. unfold Main.iteration. rewrite fan_out_rank0, collect_rank0.
  change (negb (0 =? 0)) with false. change (0 =? 0) with true.
  cbv beta iota zeta. rewrite mem_broadcast_global_root.
  unfold on_mem, Main.copy_tensors. cbn [mem seq_steps fold_left].
  rewrite !Hw by (intros ->; discriminate Hb). reflexivity.
Qed.

(** X20. Rank 0 never trains its local network. In its training loop
    the only writes are the copies between the device and host global
    weights, so, the runtime's copies touching nothing but their
    operands, every other buffer is after the loop what it was before:
    the local weights [d_pconv1 .. d_pfc2bias] (which [main] then saves
    and classifies with), the gradients, the residuals and the data. *)
Theorem coordinator_local_weights_never_change (w : World) (g : Main.setup)
    (p : process) (b : buf) :
  copies_touch_operands_only w -> coordinator_copy_operand b = false ->
  mem (Main.training_loop w g 0 p) b = mem p b.
Proof.
  intros Hw Hb. unfold Main.training_loop, for_upto.
  apply (for_steps_ind (fun q => mem q b = mem p b)); [reflexivity|].
  intros iter q Hq. now rewrite iteration_rank0_mem.
Qed.

Lemma coordinator_local_weights_never_change_witness :
  mem trained_coordinator d_pconv1 = [1090519040].
Proof.
  unfold trained_coordinator.
  rewrite coordinator_local_weights_never_change.
  - reflexivity.
  - intros dst src count k s b _ _. reflexivity.
  - reflexivity.
Defined.
